(** * Inventory ledger engine: a shallow embedding of [backend/main.py]

    The development has four layers.

    - The Python builtins that the endpoints call ([str.strip], [str.lower],
      [in] on strings, [int], [float], [round], [sum], [str], the format
      spec [03], [date.isoformat]) as executable functions.
    - The two CSV tables and the endpoints [get_items], [search_items],
      [add_item], [update_item], [delete_item], [sell_item],
      [items_analysis] and [sales_history] as computations in a monad of
      file state and exceptions: an exception keeps every write that
      happened before it was raised, which is what the statements on
      failed requests rest on.
    - The tables as text on disk: the writer, the reader and [DictReader]
      of the csv module, the line ends of a file read as text, and the
      creation of the files at start-up.
    - The properties.

    What the model fixes:

    - a string is a sequence of code points below 256, and the files are
      in an encoding that holds them all;
    - an integer is unbounded, and the interpreter's limit on the number of
      digits that [int] and [str] convert is left out;
    - a float is an IEEE binary64 value, a [spec_float] at precision 53;
      [float(str)], [round(x, 2)] and [str(x)] are computed with exact
      integer arithmetic and rounded to nearest, ties to even; [sum] adds
      from the left, as the interpreter does up to version 3.11;
    - a request body is a finite map from keys to [None], booleans,
      integers, floats and strings (arrays and objects as values are left
      out);
    - the endpoints work on a table as the list of its rows, each row with
      exactly the columns of the header, and what a write stores is what
      the next read returns; the layer of the csv text proves this of
      rows without a carriage return, and shows what becomes of one;
      input and output do not fail;
    - the clock is read as the argument [today] of [sell_item]. *)

From Stdlib Require Import ZArith Bool Ascii String List Lia.
From Stdlib Require Import DecimalString DecimalPos.
From Stdlib Require Import Floats.SpecFloat.
From stdpp Require Import gmap strings list fin_maps sorting.

Local Open Scope string_scope.
Local Open Scope list_scope.
Local Open Scope Z_scope.

(** ** Python strings *)

Module PyStr.

Definition code (c : ascii) : Z := Z.of_N (N_of_ascii c).

Definition is_digit (c : ascii) : bool := (48 <=? code c) && (code c <=? 57).

Definition digit_val (c : ascii) : Z := code c - 48.

(** [Py_ISSPACE] after [int] and [float] turned the non-ASCII spaces into
    blanks: tab to carriage return, blank, U+0085 and U+00A0. *)
Definition is_space_num (c : ascii) : bool :=
  let n := code c in
  ((9 <=? n) && (n <=? 13)) || (n =? 32) || (n =? 133) || (n =? 160).

(** [str.isspace], the set [str.strip] removes: the above and the four
    separators U+001C to U+001F. *)
Definition is_space (c : ascii) : bool :=
  is_space_num c || ((28 <=? code c) && (code c <=? 31)).

Fixpoint lstrip (p : ascii -> bool) (s : string) : string :=
  match s with
  | EmptyString => EmptyString
  | String c s' => if p c then lstrip p s' else s
  end.

Fixpoint rstrip (p : ascii -> bool) (s : string) : string :=
  match s with
  | EmptyString => EmptyString
  | String c s' =>
      match rstrip p s' with
      | EmptyString => if p c then EmptyString else String c EmptyString
      | r => String c r
      end
  end.

Definition strip_with (p : ascii -> bool) (s : string) : string :=
  rstrip p (lstrip p s).

(** [s.strip()] *)
Definition strip (s : string) : string := strip_with is_space s.

(** [s.startswith(p)] *)
Definition startswith (p s : string) : bool := String.prefix p s.

(** [p in s] for strings: [p] occurs in [s] as a contiguous run. *)
Fixpoint contains (p s : string) : bool :=
  String.prefix p s ||
  match s with
  | EmptyString => false
  | String _ s' => contains p s'
  end.

(** [s.replace(c, "")] for a one-character [c]. *)
Fixpoint remove_char (c : ascii) (s : string) : string :=
  match s with
  | EmptyString => EmptyString
  | String d s' =>
      if Ascii.eqb c d then remove_char c s' else String d (remove_char c s')
  end.

(** [str.lower] on code points below 256: A-Z, and U+00C0 to U+00DE
    without the multiplication sign U+00D7, move up by 32. *)
Definition lower_char (c : ascii) : ascii :=
  let n := code c in
  if ((65 <=? n) && (n <=? 90))
     || ((192 <=? n) && (n <=? 222) && negb (n =? 215))
  then ascii_of_N (Z.to_N (n + 32)) else c.

Fixpoint lower (s : string) : string :=
  match s with
  | EmptyString => EmptyString
  | String c s' => String (lower_char c) (lower s')
  end.

Definition is_empty (s : string) : bool :=
  match s with EmptyString => true | _ => false end.

Definition first_char (s : string) : option ascii :=
  match s with
  | String c _ => Some c
  | EmptyString => None
  end.

(** Every character of [s] satisfies [p]. *)
Fixpoint all_chars (p : ascii -> bool) (s : string) : bool :=
  match s with
  | EmptyString => true
  | String c s' => p c && all_chars p s'
  end.

End PyStr.

(** ** Python integers: [int(str)], [str(int)], [format(n, "03")] *)

Module PyInt.
Import PyStr.

(** The digits of a literal, with single underscores between digits.
    [prev_us] says that the previous character was an underscore. *)
Fixpoint digits (acc : Z) (prev_us : bool) (s : string) : option Z :=
  match s with
  | EmptyString => if prev_us then None else Some acc
  | String c s' =>
      if is_digit c then digits (10 * acc + digit_val c) false s'
      else if Ascii.eqb c "_" then
             if prev_us then None else digits acc true s'
      else None
  end.

(** An unsigned literal starts with a digit. *)
Definition unsigned (s : string) : option Z :=
  match s with
  | String c _ => if is_digit c then digits 0 false s else None
  | EmptyString => None
  end.

(** [int(s)] in base 10; [None] is [ValueError]. *)
Definition of_str (s : string) : option Z :=
  match strip_with is_space_num s with
  | String "-" r => option_map Z.opp (unsigned r)
  | String "+" r => unsigned r
  | r => unsigned r
  end.

(** [str(n)] *)
Definition to_str (n : Z) : string :=
  match n with
  | Z0 => "0"
  | Zpos p => NilEmpty.string_of_uint (Pos.to_uint p)
  | Zneg p => String "-" (NilEmpty.string_of_uint (Pos.to_uint p))
  end.

Fixpoint zeros (n : nat) : string :=
  match n with
  | O => EmptyString
  | S k => String "0" (zeros k)
  end.

(** Left padding with zeros up to [width] characters. *)
Definition zfill (width : nat) (s : string) : string :=
  String.append (zeros (width - String.length s)) s.

(** [f"{n:03}"]: the sign first, then zeros, then the digits, three
    characters at least. *)
Definition format_03 (n : Z) : string :=
  if n <? 0 then String "-" (zfill 2 (to_str (- n)))
  else zfill 3 (to_str n).

End PyInt.

(** ** Python floats: IEEE binary64 *)

Module PyFloat.
Import PyStr.

Definition float : Type := spec_float.

Definition prec : Z := 53.
Definition emax : Z := 1024.

(** [x * y] and [x - y], rounded to nearest, ties to even. *)
Definition mul (x y : float) : float := SFmul prec emax x y.
Definition sub (x y : float) : float := SFsub prec emax x y.

Definition same (x y : float) : bool :=
  match x, y with
  | S754_zero a, S754_zero b => Bool.eqb a b
  | S754_infinity a, S754_infinity b => Bool.eqb a b
  | S754_nan, S754_nan => true
  | S754_finite a m e, S754_finite b m' e' =>
      Bool.eqb a b && Pos.eqb m m' && (e =? e')
  | _, _ => false
  end.

(** The binary64 value nearest to [n / d] (ties to even), for [0 <= n] and
    [0 < d], with the sign [neg]; an infinity beyond the largest float.
    The quotient is taken with at least two bits more than the precision
    and the remainder decides the rounding. *)
Definition of_ratio (neg : bool) (n d : Z) : float :=
  if n =? 0 then S754_zero neg
  else
    let k := Z.max 0 (prec + 2 + Z.log2 d - Z.log2 n) in
    let (q, r) := Z.div_eucl (Z.shiftl n k) d in
    binary_round_aux prec emax neg q (- k) (new_location d r).

(** The value of [m * 10 ^ e10]. *)
Definition of_decimal (neg : bool) (m e10 : Z) : float :=
  if 0 <=? e10 then of_ratio neg (m * 10 ^ e10) 1
  else of_ratio neg m (10 ^ (- e10)).

(** The conversion of an [int] operand; [None] is [OverflowError]. *)
Definition of_Z (z : Z) : option float :=
  match binary_normalize prec emax z 0 false with
  | S754_infinity _ => None
  | f => Some f
  end.

(** The integer part of a finite float, towards zero. *)
Definition trunc (x : float) : option Z :=
  match x with
  | S754_zero _ => Some 0
  | S754_finite s m e =>
      let a := if 0 <=? e then Zpos m * 2 ^ e else Zpos m / 2 ^ (- e) in
      Some (if s then - a else a)
  | _ => None
  end.

(** *** [float(str)] *)

(** Underscores may only stand between two digits; they are dropped.
    [prev] is the previous character, NUL at the start. *)
Fixpoint strip_underscores (prev : ascii) (s : string) : option string :=
  match s with
  | EmptyString => if Ascii.eqb prev "_" then None else Some EmptyString
  | String c s' =>
      if Ascii.eqb c "_" then
        if is_digit prev then strip_underscores c s' else None
      else if Ascii.eqb prev "_" && negb (is_digit c) then None
      else option_map (String c) (strip_underscores c s')
  end.

(** A run of digits: its value on top of [acc], its length, the rest. *)
Fixpoint read_digits (acc cnt : Z) (s : string) : Z * Z * string :=
  match s with
  | String c s' =>
      if is_digit c then read_digits (10 * acc + digit_val c) (cnt + 1) s'
      else (acc, cnt, s)
  | EmptyString => (acc, cnt, s)
  end.

Definition read_sign (s : string) : bool * string :=
  match s with
  | String "-" r => (true, r)
  | String "+" r => (false, r)
  | _ => (false, s)
  end.

(** digits [. digits] [e [sign] digits], one mantissa digit at least. *)
Definition parse_decimal (neg : bool) (s : string) : option float :=
  let '(ip, ni, r1) := read_digits 0 0 s in
  let '(m, nf, r2) :=
    match r1 with
    | String "." r => read_digits ip 0 r
    | _ => (ip, 0, r1)
    end in
  if ni + nf =? 0 then None
  else
    match r2 with
    | EmptyString => Some (of_decimal neg m (- nf))
    | String c r3 =>
        if Ascii.eqb c "e" || Ascii.eqb c "E" then
          let (eneg, r4) := read_sign r3 in
          let '(ev, ne, r5) := read_digits 0 0 r4 in
          if (ne =? 0) || negb (is_empty r5) then None
          else Some (of_decimal neg m ((if eneg then - ev else ev) - nf))
        else None
    end.

(** [float(s)]; [None] is [ValueError]. *)
Definition of_str (s : string) : option float :=
  match strip_underscores "000" s with
  | None => None
  | Some s1 =>
      let (neg, s2) := read_sign (strip_with is_space_num s1) in
      let l := lower s2 in
      if String.eqb l "inf" || String.eqb l "infinity"
      then Some (S754_infinity neg)
      else if String.eqb l "nan" then Some S754_nan
      else parse_decimal neg s2
  end.

(** *** [round(x, 2)] *)

(** The integer nearest to [n / d], ties to even. *)
Definition round_half_even (n d : Z) : Z :=
  let (q, r) := Z.div_eucl n d in
  match 2 * r ?= d with
  | Lt => q
  | Gt => q + 1
  | Eq => if Z.even q then q else q + 1
  end.

(** A finite float as a fraction. *)
Definition fraction (m : positive) (e : Z) : Z * Z :=
  if 0 <=? e then (Zpos m * 2 ^ e, 1) else (Zpos m, 2 ^ (- e)).

(** The exact value is rounded to two decimals, ties to even, and the
    decimal is read back as a float; infinities and NaN stay. *)
Definition round2 (x : float) : float :=
  match x with
  | S754_finite s m e =>
      let (n, d) := fraction m e in
      of_ratio s (round_half_even (100 * n) d) 100
  | _ => x
  end.

(** *** [str(x)] and [repr(x)] *)

(** [n / d < 10 ^ p] *)
Definition below_pow10 (n d p : Z) : bool :=
  if 0 <=? p then n <? 10 ^ p * d else n * 10 ^ (- p) <? d.

Fixpoint search_decpt (fuel : nat) (n d p : Z) : Z :=
  match fuel with
  | O => p
  | S f => if below_pow10 n d p then p else search_decpt f n d (p + 1)
  end.

(** The [p] with [10 ^ (p - 1) <= n / d < 10 ^ p].  The search starts
    below it: [n / d] exceeds [2 ^ l] for [l] the difference of the binary
    logarithms less one, and 0.30102 < log10 2 < 0.30103. *)
Definition decpt (n d : Z) : Z :=
  let l := Z.log2 n - Z.log2 d - 1 in
  let start := if 0 <=? l then l * 30102 / 100000 else l * 30103 / 100000 in
  search_decpt 8 n d start.

(** [c * 10 ^ (- j)] read back as a float. *)
Definition of_scaled (c j : Z) : float :=
  of_decimal false c (- j).

(** The shortest digit string that reads back as [m * 2 ^ e], the
    nearest one among those, tried with 1, 2, ... digits; the result is
    the digits as a number, with the decimal point position. *)
Fixpoint shortest (fuel : nat) (ndig : Z) (m : positive) (e p : Z)
  : Z * Z :=
  let (n, d) := fraction m e in
  let j := ndig - p in
  let (q, r) :=
    if 0 <=? j then Z.div_eucl (n * 10 ^ j) d
    else Z.div_eucl n (d * 10 ^ (- j)) in
  let dd := if 0 <=? j then d else d * 10 ^ (- j) in
  let up :=
    match 2 * r ?= dd with
    | Lt => false
    | Gt => true
    | Eq => Z.odd q
    end in
  let c1 := if up then q + 1 else q in
  let c2 := if up then q else q + 1 in
  let x := S754_finite false m e in
  let fix_carry c := if c =? 10 ^ ndig then (1, p + 1) else (c, p) in
  match fuel with
  | O => fix_carry c1
  | S f =>
      if same (of_scaled c1 j) x then fix_carry c1
      else if same (of_scaled c2 j) x && negb (c2 =? 0) then fix_carry c2
      else shortest f (ndig + 1) m e p
  end.

Definition pad2 (s : string) : string :=
  match s with
  | String c EmptyString => String "0" s
  | _ => s
  end.

(** The layout of [repr]: exponent notation when the decimal point lies
    more than 16 places right or more than 3 places left of the first
    digit. *)
Definition layout (ds : string) (p : Z) : string :=
  let n := Z.of_nat (String.length ds) in
  if (p <=? -4) || (16 <? p) then
    let head := String.substring 0 1 ds in
    let tail := String.substring 1 (String.length ds - 1) ds in
    let mant := if is_empty tail then head
                else String.append head (String "." tail) in
    let x := p - 1 in
    String.append mant
      (String "e" (String (if x <? 0 then "-"%char else "+"%char)
         (pad2 (PyInt.to_str (Z.abs x)))))
  else if p <=? 0 then
    String.append "0." (String.append (PyInt.zeros (Z.to_nat (- p))) ds)
  else if n <=? p then
    String.append ds (String.append (PyInt.zeros (Z.to_nat (p - n))) ".0")
  else
    String.append (String.substring 0 (Z.to_nat p) ds)
      (String "." (String.substring (Z.to_nat p) (Z.to_nat (n - p)) ds)).

(** The normal form of a finite value: the mantissa on 53 bits, or as
    many as the least exponent leaves. *)
Definition canon (x : float) : float :=
  match x with
  | S754_finite s m e => binary_round prec emax s m e
  | _ => x
  end.

Definition to_str (x : float) : string :=
  match canon x with
  | S754_nan => "nan"
  | S754_infinity s => if s then "-inf" else "inf"
  | S754_zero s => if s then "-0.0" else "0.0"
  | S754_finite s m e =>
      let (n, d) := fraction m e in
      let (c, p) := shortest 16 1 m e (decpt n d) in
      let body := layout (PyInt.to_str c) p in
      if s then String "-" body else body
  end.

End PyFloat.

(** ** Request payloads and exceptions *)

(** The values of a decoded JSON body that the endpoints convert: [None],
    booleans, integers, floats and strings. *)
Inductive pyval : Type :=
  | PNone
  | PBool (b : bool)
  | PInt (n : Z)
  | PFloat (x : PyFloat.float)
  | PStr (s : string).

(** A request body, [item: dict] and [data: dict] in the source. *)
Abbreviation payload := (gmap string pyval).

(** The exceptions the endpoints raise; all but [HTTPException] reach the
    framework unhandled. *)
Inductive exn : Type :=
  | HTTPException (status_code : Z) (detail : string)
  | ValueError
  | TypeError
  | KeyError
  | OverflowError
  | AttributeError.

Inductive result (A : Type) : Type :=
  | Ok (a : A)
  | Raise (e : exn).
Arguments Ok {A} a.
Arguments Raise {A} e.

(** [str(v)] *)
Definition py_str (v : pyval) : string :=
  match v with
  | PNone => "None"
  | PBool b => if b then "True" else "False"
  | PInt n => PyInt.to_str n
  | PFloat x => PyFloat.to_str x
  | PStr s => s
  end.

(** [int(v)] *)
Definition py_int (v : pyval) : result Z :=
  match v with
  | PNone => Raise TypeError
  | PBool b => Ok (if b then 1 else 0)
  | PInt n => Ok n
  | PFloat x =>
      match x with
      | S754_nan => Raise ValueError
      | S754_infinity _ => Raise OverflowError
      | _ => match PyFloat.trunc x with
             | Some n => Ok n
             | None => Raise OverflowError
             end
      end
  | PStr s =>
      match PyInt.of_str s with
      | Some n => Ok n
      | None => Raise ValueError
      end
  end.

(** [int(s)] and [float(s)] on a string. *)
Definition int_of_string (s : string) : result Z := py_int (PStr s).

Definition float_of_string (s : string) : result PyFloat.float :=
  match PyFloat.of_str s with
  | Some x => Ok x
  | None => Raise ValueError
  end.

(** [n * x] for an [int] and a [float]: the integer is converted first. *)
Definition int_mul_float (n : Z) (x : PyFloat.float) : result PyFloat.float :=
  match PyFloat.of_Z n with
  | Some f => Ok (PyFloat.mul f x)
  | None => Raise OverflowError
  end.

(** [d[k]] *)
Definition getitem (d : payload) (k : string) : result pyval :=
  match d !! k with
  | Some v => Ok v
  | None => Raise KeyError
  end.

(** What the csv writer stores for a value: nothing for [None], [str(v)]
    otherwise. *)
Definition csv_field (v : pyval) : string :=
  match v with
  | PNone => ""
  | _ => py_str v
  end.

(** ** The two tables *)

(** A row of [inventory.csv]: id, name, quantity, price, total_investment,
    sold. *)
Record row : Type := mk_row {
  i_id : string;
  i_name : string;
  i_quantity : string;
  i_price : string;
  i_total_investment : string;
  i_sold : string
}.

(** A row of [sales_history.csv]: date, item_id, item_name, sold_quantity,
    amount. *)
Record sale : Type := mk_sale {
  s_date : string;
  s_item_id : string;
  s_item_name : string;
  s_sold_quantity : string;
  s_amount : string
}.

#[global] Instance row_eq_dec : EqDecision row.
Proof. solve_decision. Defined.

#[global] Instance sale_eq_dec : EqDecision sale.
Proof. solve_decision. Defined.

Record files : Type := mk_files {
  DATA_FILE : list row;
  SALES_FILE : list sale
}.

(** ** Computations over the files, with exceptions *)

(** A computation reads and writes the files and returns or raises; the
    files it leaves are those at the point where it returned or raised. *)
Definition M (A : Type) : Type := files -> result A * files.

Definition ret {A} (a : A) : M A := fun fs => (Ok a, fs).

Definition raise {A} (e : exn) : M A := fun fs => (Raise e, fs).

Definition bind {A B} (m : M A) (k : A -> M B) : M B :=
  fun fs =>
    match m fs with
    | (Ok a, fs') => k a fs'
    | (Raise e, fs') => (Raise e, fs')
    end.

Definition lift {A} (r : result A) : M A := fun fs => (r, fs).

Declare Scope py_scope.
Delimit Scope py_scope with py.
Notation "'let*' x ':=' m 'in' k" := (bind m (fun x => k))
  (at level 10, x name, m at level 100, k at level 200) : py_scope.
Notation "'do*' m 'in' k" := (bind m (fun _ => k))
  (at level 10, m at level 100, k at level 200) : py_scope.
Local Open Scope py_scope.

(** [try: r except ValueError: raise h] *)
Definition except_ValueError {A} (r : result A) (h : exn) : result A :=
  match r with
  | Raise ValueError => Raise h
  | _ => r
  end.

(** [read_items] and [write_items]: the whole table at once. *)
Definition read_items : M (list row) :=
  fun fs => (Ok (DATA_FILE fs), fs).

Definition write_items (items : list row) : M unit :=
  fun fs => (Ok tt, mk_files items (SALES_FILE fs)).

Definition fieldnames : list string :=
  ["id"; "name"; "quantity"; "price"; "total_investment"; "sold"].

(** The row [DictWriter] makes of a dict: a key outside the field names is
    a [ValueError], a missing key an empty field. *)
Definition dict_to_row (d : payload) : result row :=
  if decide (dom d ⊆ list_to_set fieldnames) then
    let field k := from_option csv_field "" (d !! k) in
    Ok (mk_row (field "id") (field "name") (field "quantity")
                (field "price") (field "total_investment") (field "sold"))
  else Raise ValueError.

(** A calendar date as [datetime.date] holds it. *)
Record date : Type := mk_date { year : Z; month : Z; day : Z }.

(** [d.isoformat()]: the year on four digits, the month and the day on
    two. *)
Definition isoformat (d : date) : string :=
  String.append (PyInt.zfill 4 (PyInt.to_str (year d)))
    (String "-"
       (String.append (PyInt.zfill 2 (PyInt.to_str (month d)))
          (String "-" (PyInt.zfill 2 (PyInt.to_str (day d)))))).

(** [add_sale_record]; [today] is [datetime.date.today()]. *)
Definition add_sale_record (today : date) (item_id item_name : string)
    (qty : Z) (amount : PyFloat.float) : M unit :=
  fun fs =>
    (Ok tt,
     mk_files (DATA_FILE fs)
       (SALES_FILE fs ++
        [mk_sale (isoformat today) item_id item_name (PyInt.to_str qty)
                 (PyFloat.to_str (PyFloat.round2 amount))])).

(** The loop of [update_item] and [sell_item]:
    [for i in items: if i["id"] == item_id: body; found = True; break].
    It yields [found] and the list with the matching row as [body] left
    it. *)
Fixpoint for_first (item_id : string) (body : row -> M row)
    (items : list row) : M (bool * list row) :=
  match items with
  | [] => ret (false, [])
  | i :: rest =>
      if String.eqb (i_id i) item_id then
        let* i' := body i in ret (true, i' :: rest)
      else
        let* r := for_first item_id body rest in ret (fst r, i :: snd r)
  end.

(** ** The endpoints *)

(** [GET /items/search] (lines 71-74). *)
Definition search_items (query : string) : M (list row) :=
  let query_lower := PyStr.lower query in
  let* items := read_items in
  ret (List.filter
         (fun item => PyStr.contains query_lower (PyStr.lower (i_name item))
                      || PyStr.contains query_lower (PyStr.lower (i_id item)))
         items).

(** [max(l, default=0)] *)
Definition max_default0 (l : list Z) : Z :=
  match l with
  | [] => 0
  | z :: l' => fold_left Z.max l' z
  end.

(** [[int(i['id']) for i in items]] *)
Fixpoint int_ids (items : list row) : result (list Z) :=
  match items with
  | [] => Ok []
  | i :: rest =>
      match int_of_string (i_id i) with
      | Ok n => match int_ids rest with
                | Ok l => Ok (n :: l)
                | Raise e => Raise e
                end
      | Raise e => Raise e
      end
  end.

(** [f"{max([int(i['id']) for i in items], default=0)+1:03}" if items
    else "001"] *)
Definition next_id (items : list row) : result string :=
  match items with
  | [] => Ok "001"
  | _ => match int_ids items with
         | Ok l => Ok (PyInt.format_03 (max_default0 l + 1))
         | Raise e => Raise e
         end
  end.

(** [if not s.startswith("$"): s = f"${s}"] *)
Definition with_marker (s : string) : string :=
  if PyStr.startswith "$" s then s else String "$" s.

(** [if not str(item["price"]).startswith("$"):
       item["price"] = f"${item['price']}"] *)
Definition mark_price (item : payload) (p : pyval) : payload :=
  if negb (PyStr.startswith "$" (py_str p))
  then <["price" := PStr (String "$" (py_str p))]> item
  else item.

(** [v.replace("$", "")]: a method of strings only. *)
Definition replace_marker (v : pyval) : result string :=
  match v with
  | PStr s => Ok (PyStr.remove_char "$" s)
  | _ => Raise AttributeError
  end.

(** [str(round(quantity_num * price_num, 2))] *)
Definition investment (quantity_num : Z) (price_num : PyFloat.float)
  : result string :=
  match int_mul_float quantity_num price_num with
  | Ok x => Ok (PyFloat.to_str (PyFloat.round2 x))
  | Raise e => Raise e
  end.

(** [POST /items] (lines 76-91); the answer is the message and the id.
    When [DictWriter] refuses the new dict, the rows before it have been
    written again as they were. *)
Definition add_item (item : payload) : M (string * string) :=
  let* q := lift (getitem item "quantity") in
  let* n := lift (py_int q) in
  if n <? 10 then raise (HTTPException 400 "Quantity must be 10 or more")
  else
    let* p := lift (getitem item "price") in
    let item := mark_price item p in
    let* price := lift (getitem item "price") in
    let* text := lift (replace_marker price) in
    let* price_num := lift (float_of_string text) in
    let* q' := lift (getitem item "quantity") in
    let* quantity_num := lift (py_int q') in
    let* ti := lift (investment quantity_num price_num) in
    let item := <["total_investment" := PStr ti]> item in
    let item := <["sold" := PStr "0"]> item in
    let* items := read_items in
    let* next := lift (next_id items) in
    let item := <["id" := PStr next]> item in
    let* row := lift (dict_to_row item) in
    do* write_items (items ++ [row]) in
    ret ("Item added", next).

(** The body of the loop of [update_item] (lines 100-108). *)
Definition update_body (item : payload) (i : row) : M row :=
  let name := from_option csv_field (i_name i) (item !! "name") in
  let quantity := from_option py_str (i_quantity i) (item !! "quantity") in
  let price_str := with_marker (from_option py_str (i_price i)
                                            (item !! "price")) in
  let* price_num := lift (float_of_string (PyStr.remove_char "$" price_str)) in
  let* quantity_num := lift (int_of_string quantity) in
  let* ti := lift (investment quantity_num price_num) in
  ret (mk_row (i_id i) name quantity price_str ti (i_sold i)).

(** [PUT /items/{item_id}] (lines 94-114). *)
Definition update_item (item_id : string) (item : payload) : M string :=
  let* items := read_items in
  let* r := for_first item_id (update_body item) items in
  if negb (fst r) then raise (HTTPException 404 "Item not found")
  else do* write_items (snd r) in ret "Item updated".

(** [DELETE /items/{item_id}] (lines 116-123). *)
Definition delete_item (item_id : string) : M string :=
  let* items := read_items in
  let new_items := filter (fun i => i_id i ≠ item_id) items in
  if (length new_items =? length items)%nat then
    raise (HTTPException 404 "Item not found")
  else do* write_items new_items in ret "Item deleted".

(** The body of the loop of [sell_item] (lines 147-167): the row is
    changed in memory, then the sale is appended to the ledger. *)
Definition sell_body (today : date) (item_id : string) (sold_qty : Z)
    (i : row) : M row :=
  let* current_qty :=
    lift (except_ValueError (int_of_string (i_quantity i))
            (HTTPException 500 "Invalid inventory quantity")) in
  if current_qty <? sold_qty then
    raise (HTTPException 400
             (String.append "Not enough stock. Available: "
                (PyInt.to_str current_qty)))
  else
    let* price_per_unit :=
      lift (except_ValueError
              (float_of_string (PyStr.remove_char "$" (i_price i)))
              (HTTPException 500 "Invalid item price")) in
    let quantity := PyInt.to_str (current_qty - sold_qty) in
    let* sold := lift (int_of_string (i_sold i)) in
    let sold' := PyInt.to_str (sold + sold_qty) in
    let* ti := lift (float_of_string (i_total_investment i)) in
    let* amount := lift (int_mul_float sold_qty price_per_unit) in
    let ti' := PyFloat.to_str (PyFloat.round2 (PyFloat.sub ti amount)) in
    do* add_sale_record today item_id (i_name i) sold_qty amount in
    ret (mk_row (i_id i) (i_name i) quantity (i_price i) ti' sold').

(** [POST /items/{item_id}/sell] (lines 126-178). *)
Definition sell_item (today : date) (item_id : string) (data : payload)
  : M string :=
  match data !! "sold" with
  | None => raise (HTTPException 400 "Sold quantity is required")
  | Some v =>
      if PyStr.is_empty (PyStr.strip (py_str v)) then
        raise (HTTPException 400 "Sold quantity is required")
      else
        let* sold_qty :=
          lift (except_ValueError (py_int v)
                  (HTTPException 400
                     "Sold quantity must be a valid integer")) in
        if sold_qty <=? 0 then
          raise (HTTPException 400
                   "Sold quantity must be a positive integer")
        else
          let* items := read_items in
          let* r :=
            for_first item_id (sell_body today item_id sold_qty) items in
          if negb (fst r) then raise (HTTPException 404 "Item not found")
          else
            do* write_items (snd r) in
            ret (String.append (PyInt.to_str sold_qty) " units sold")
  end.

(** [sales[date] = 0] when the date is new, then [sales[date] += qty]. *)
Definition tally (sales : gmap string Z) (date : string) (qty : Z)
  : gmap string Z :=
  let sales :=
    match sales !! date with
    | None => <[date := 0]> sales
    | Some _ => sales
    end in
  <[date := default 0 (sales !! date) + qty]> sales.

(** The loop over the rows of the ledger. *)
Fixpoint sales_loop (rows : list sale) (sales : gmap string Z)
  : result (gmap string Z) :=
  match rows with
  | [] => Ok sales
  | r :: rest =>
      match int_of_string (s_sold_quantity r) with
      | Ok qty => sales_loop rest (tally sales (s_date r) qty)
      | Raise e => Raise e
      end
  end.

(** The order of [str]: code point by code point, a proper prefix first. *)
Definition str_le (a b : string) : Prop := String.leb a b = true.

Definition str_lt (a b : string) : Prop := String.ltb a b = true.

#[global] Instance str_le_dec : RelDecision str_le.
Proof. intros a b. unfold str_le. apply _. Defined.

(** [sorted(keys)] *)
Definition sorted (keys : list string) : list string :=
  merge_sort str_le keys.

(** [GET /sales-history] (lines 195-209): the pairs of a date and the
    units sold on it. *)
Definition sales_history : M (list (string * Z)) :=
  fun fs =>
    match sales_loop (SALES_FILE fs) ∅ with
    | Ok sales =>
        (Ok (map (fun d => (d, default 0 (sales !! d)))
                 (sorted (elements (dom sales)))),
         fs)
    | Raise e => (Raise e, fs)
    end.

(** ** Sequences of operations *)

Inductive op : Type :=
  | Add (item : payload)
  | Update (item_id : string) (item : payload)
  | Delete (item_id : string)
  | Sell (today : date) (item_id : string) (data : payload).

(** The files after one request, whatever its outcome. *)
Definition exec (o : op) (fs : files) : files :=
  match o with
  | Add item => snd (add_item item fs)
  | Update item_id item => snd (update_item item_id item fs)
  | Delete item_id => snd (delete_item item_id fs)
  | Sell today item_id data => snd (sell_item today item_id data fs)
  end.

Fixpoint run (ops : list op) (fs : files) : files :=
  match ops with
  | [] => fs
  | o :: rest => run rest (exec o fs)
  end.

(** Where the row at index [k] of the inventory stands after one request:
    [Delete] drops the rows with the given id and closes the gaps, the
    other requests keep every row in place. *)
Definition track (o : op) (fs : files) (k : nat) : option nat :=
  match o with
  | Delete item_id =>
      match DATA_FILE fs !! k with
      | Some r =>
          if String.eqb (i_id r) item_id then None
          else Some (length (filter (fun i => i_id i ≠ item_id)
                                    (take k (DATA_FILE fs))))
      | None => None
      end
  | _ => Some k
  end.

Fixpoint track_all (ops : list op) (fs : files) (k : nat) : option nat :=
  match ops with
  | [] => Some k
  | o :: rest =>
      match track o fs k with
      | Some k' => track_all rest (exec o fs) k'
      | None => None
      end
  end.

(** ** The listing and the analysis *)

(** [GET /items] (lines 67-69). *)
Definition get_items : M (list row) := read_items.

Definition LOW_STOCK_THRESHOLD : Z := 5.

(** [x + y] on floats, rounded to nearest, ties to even. *)
Definition float_add (x y : PyFloat.float) : PyFloat.float :=
  SFadd PyFloat.prec PyFloat.emax x y.

(** [float(i["total_investment"]) for i in items], the values that [sum]
    draws from the generator. *)
Fixpoint investments (items : list row) : result (list PyFloat.float) :=
  match items with
  | [] => Ok []
  | i :: rest =>
      match float_of_string (i_total_investment i) with
      | Ok x => match investments rest with
                | Ok l => Ok (x :: l)
                | Raise e => Raise e
                end
      | Raise e => Raise e
      end
  end.

(** [sum(l)] for floats: the integer 0 of no value at all; otherwise the
    values are added to 0 from the left, one rounding per addition, as the
    interpreter does up to version 3.11 (later versions carry a correction
    term along). *)
Definition py_sum (l : list PyFloat.float) : pyval :=
  match l with
  | [] => PInt 0
  | _ => PFloat (fold_left float_add l (S754_zero false))
  end.

(** [round(v, 2)]: an integer stays, a float is rounded to two decimals. *)
Definition py_round2 (v : pyval) : result pyval :=
  match v with
  | PInt n => Ok (PInt n)
  | PBool b => Ok (PInt (if b then 1 else 0))
  | PFloat x => Ok (PFloat (PyFloat.round2 x))
  | PNone | PStr _ => Raise TypeError
  end.

(** [sum(1 for i in items if int(i["quantity"]) <= LOW_STOCK_THRESHOLD)] *)
Fixpoint low_stock (items : list row) : result Z :=
  match items with
  | [] => Ok 0
  | i :: rest =>
      match int_of_string (i_quantity i) with
      | Ok q =>
          match low_stock rest with
          | Ok n => Ok ((if q <=? LOW_STOCK_THRESHOLD then 1 else 0) + n)
          | Raise e => Raise e
          end
      | Raise e => Raise e
      end
  end.

(** The answer of the analysis. *)
Record analysis : Type := mk_analysis {
  total_items : Z;
  total_investment : pyval;
  low_stock_count : Z
}.

(** [GET /items/analysis] (lines 182-192). *)
Definition items_analysis : M analysis :=
  let* items := read_items in
  let total_items := Z.of_nat (length items) in
  let* values := lift (investments items) in
  let* total_investment := lift (py_round2 (py_sum values)) in
  let* low_stock_count := lift (low_stock items) in
  ret (mk_analysis total_items total_investment low_stock_count).

(** ** The tables as csv text *)

(** The writer and the reader of the csv module in the dialect the source
    uses, [excel]: fields separated by commas, a field quoted when it has
    to be, a quote inside a quoted field doubled, lines closed by a
    carriage return and a line feed, no escape character, reading not
    strict. *)
Module Csv.
Import PyStr.

Definition delimiter : ascii := ","%char.
Definition quotechar : ascii := "034"%char.
Definition CR : ascii := "013"%char.
Definition LF : ascii := "010"%char.
Definition lineterminator : string := String CR (String LF EmptyString).

(** The longest field the reader accepts. *)
Definition field_limit : Z := 131072.

Fixpoint any_char (p : ascii -> bool) (s : string) : bool :=
  match s with
  | EmptyString => false
  | String c s' => p c || any_char p s'
  end.

(** *** The writer *)

(** The characters that make the writer quote a field: the delimiter, the
    quote, and the characters of the line terminator. *)
Definition special (c : ascii) : bool :=
  Ascii.eqb c delimiter || Ascii.eqb c quotechar
  || Ascii.eqb c CR || Ascii.eqb c LF.

Fixpoint double_quotes (s : string) : string :=
  match s with
  | EmptyString => EmptyString
  | String c s' =>
      if Ascii.eqb c quotechar
      then String quotechar (String quotechar (double_quotes s'))
      else String c (double_quotes s')
  end.

Definition quoted (s : string) : string :=
  String quotechar
    (String.append (double_quotes s) (String quotechar EmptyString)).

(** One field of a record as the writer lays it out. *)
Definition join_append (s : string) : string :=
  if any_char special s then quoted s else s.

Fixpoint join (fields : list string) : string :=
  match fields with
  | [] => EmptyString
  | [f] => f
  | f :: rest => String.append f (String delimiter (join rest))
  end.

(** The record of a row; a row of one empty field is written as two
    quotes, so that it differs from no field at all. *)
Definition record (fields : list string) : string :=
  let r := join (map join_append fields) in
  match fields with
  | [] => r
  | _ :: _ => if is_empty r then quoted EmptyString else r
  end.

(** [writer.writerow(fields)]: the text that goes to the file. *)
Definition writerow (fields : list string) : string :=
  String.append (record fields) lineterminator.

(** [writer.writerows(rows)] *)
Definition writerows (rows : list (list string)) : string :=
  String.concat EmptyString (map writerow rows).

(** *** Reading a file opened without [newline=""] *)

(** A carriage return, with the line feed that follows it if one does,
    reads as a line feed.  [prev_cr] says that the previous character was
    a carriage return. *)
Fixpoint universal_newlines (prev_cr : bool) (s : string) : string :=
  match s with
  | EmptyString => EmptyString
  | String c s' =>
      if Ascii.eqb c CR then String LF (universal_newlines true s')
      else if Ascii.eqb c LF && prev_cr then universal_newlines false s'
      else String c (universal_newlines false s')
  end.

(** The lines that iterating over the file yields, each with its line
    feed, the last one maybe without. *)
Fixpoint readlines (s : string) : list string :=
  match s with
  | EmptyString => []
  | String c s' =>
      if Ascii.eqb c LF then String c EmptyString :: readlines s'
      else match readlines s' with
           | [] => [String c EmptyString]
           | l :: ls => String c l :: ls
           end
  end.

(** *** The reader *)

(** The states of the reader that are reached without an escape
    character. *)
Inductive state : Type :=
  | START_RECORD
  | START_FIELD
  | IN_FIELD
  | IN_QUOTED_FIELD
  | QUOTE_IN_QUOTED_FIELD
  | EAT_CRNL.

(** The reader: its state, the fields of the record so far, and the field
    it is in. *)
Record parser : Type := mk_parser {
  st : state;
  fields : list string;
  field : string
}.

Definition parse_reset : parser := mk_parser START_RECORD [] EmptyString.

Definition set_state (p : parser) (s : state) : parser :=
  mk_parser s (fields p) (field p).

Definition parse_save_field (p : parser) (s : state) : parser :=
  mk_parser s (fields p ++ [field p]) EmptyString.

(** [None] is [csv.Error]: the field is larger than the limit. *)
Definition parse_add_char (p : parser) (s : state) (c : ascii)
  : option parser :=
  if field_limit <=? Z.of_nat (String.length (field p)) then None
  else Some (mk_parser s (fields p)
               (String.append (field p) (String c EmptyString))).

Definition is_newline (c : ascii) : bool := Ascii.eqb c LF || Ascii.eqb c CR.

(** The reader expects a field; [None] as the character is the end of
    the line. *)
Definition start_field (p : parser) (c : option ascii) : option parser :=
  match c with
  | None => Some (parse_save_field p START_RECORD)
  | Some ch =>
      if is_newline ch then Some (parse_save_field p EAT_CRNL)
      else if Ascii.eqb ch quotechar then Some (set_state p IN_QUOTED_FIELD)
      else if Ascii.eqb ch delimiter
           then Some (parse_save_field p START_FIELD)
      else parse_add_char p IN_FIELD ch
  end.

(** One step of the reader; [None] as the result is [csv.Error]. *)
Definition parse_process_char (p : parser) (c : option ascii)
  : option parser :=
  match st p with
  | START_RECORD =>
      match c with
      | None => Some p
      | Some ch =>
          if is_newline ch then Some (set_state p EAT_CRNL)
          else start_field p c
      end
  | START_FIELD => start_field p c
  | IN_FIELD =>
      match c with
      | None => Some (parse_save_field p START_RECORD)
      | Some ch =>
          if is_newline ch then Some (parse_save_field p EAT_CRNL)
          else if Ascii.eqb ch delimiter
               then Some (parse_save_field p START_FIELD)
          else parse_add_char p IN_FIELD ch
      end
  | IN_QUOTED_FIELD =>
      match c with
      | None => Some p
      | Some ch =>
          if Ascii.eqb ch quotechar
          then Some (set_state p QUOTE_IN_QUOTED_FIELD)
          else parse_add_char p IN_QUOTED_FIELD ch
      end
  | QUOTE_IN_QUOTED_FIELD =>
      match c with
      | None => Some (parse_save_field p START_RECORD)
      | Some ch =>
          if Ascii.eqb ch quotechar then parse_add_char p IN_QUOTED_FIELD ch
          else if Ascii.eqb ch delimiter
               then Some (parse_save_field p START_FIELD)
          else if is_newline ch then Some (parse_save_field p EAT_CRNL)
          else parse_add_char p IN_FIELD ch
      end
  | EAT_CRNL =>
      match c with
      | None => Some (set_state p START_RECORD)
      | Some ch => if is_newline ch then Some p else None
      end
  end.

(** The characters of a line, then its end. *)
Fixpoint feed (p : parser) (line : string) : option parser :=
  match line with
  | EmptyString => parse_process_char p None
  | String c l =>
      match parse_process_char p (Some c) with
      | Some p' => feed p' l
      | None => None
      end
  end.

(** The input ended inside a record. *)
Definition in_record (p : parser) : bool :=
  negb (is_empty (field p))
  || match st p with IN_QUOTED_FIELD => true | _ => false end.

(** The records of the lines: a record takes lines until the reader is
    back at the start of a record; what is left open when the lines end
    is a record too. *)
Fixpoint reader (p : parser) (lines : list string)
  : option (list (list string)) :=
  match lines with
  | [] => Some (if in_record p then [fields p ++ [field p]] else [])
  | l :: rest =>
      match feed p l with
      | None => None
      | Some p' =>
          match st p' with
          | START_RECORD =>
              option_map (cons (fields p')) (reader parse_reset rest)
          | _ => reader p' rest
          end
      end
  end.

(** [list(csv.reader(f))] for the file with the given text. *)
Definition read_records (text : string) : option (list (list string)) :=
  reader parse_reset (readlines (universal_newlines false text)).

(** *** [DictReader] *)

(** A row as [DictReader] returns it: the fields under the names of the
    header, [None] under the names that got no field, and the fields
    beyond the names as a list under the key [None]. *)
Record dictrow : Type := mk_dictrow {
  named : gmap string (option string);
  restkey : option (list string)
}.

(** [dict(zip(fieldnames, row))] and the two completions. *)
Definition to_dict (fieldnames row : list string) : dictrow :=
  let d := fold_left (fun m kv => <[fst kv := Some (snd kv)]> m)
             (zip fieldnames row) ∅ in
  if (length fieldnames <? length row)%nat
  then mk_dictrow d (Some (drop (length fieldnames) row))
  else mk_dictrow
         (fold_left (fun m k => <[k := None]> m)
            (drop (length row) fieldnames) d)
         None.

Definition is_blank (row : list string) : bool :=
  match row with [] => true | _ => false end.

(** The first record names the fields; records without a field are
    passed over. *)
Definition DictReader (records : list (list string)) : list dictrow :=
  match records with
  | [] => []
  | fieldnames :: rows =>
      map (to_dict fieldnames) (List.filter (fun r => negb (is_blank r)) rows)
  end.

Definition read_dicts (text : string) : option (list dictrow) :=
  option_map DictReader (read_records text).

End Csv.

(** The fields of a row in the order of the columns. *)
Definition row_cells (i : row) : list string :=
  [i_id i; i_name i; i_quantity i; i_price i; i_total_investment i;
   i_sold i].

Definition sale_cells (s : sale) : list string :=
  [s_date s; s_item_id s; s_item_name s; s_sold_quantity s; s_amount s].

Definition sales_header : list string :=
  ["date"; "item_id"; "item_name"; "sold_quantity"; "amount"].

(** What [write_items] leaves in [inventory.csv]: the header, then the
    rows. *)
Definition inventory_text (items : list row) : string :=
  String.append (Csv.writerow fieldnames) (Csv.writerows (map row_cells items)).

(** [sales_history.csv] with the given rows. *)
Definition ledger_text (rows : list sale) : string :=
  String.append (Csv.writerow sales_header)
    (Csv.writerows (map sale_cells rows)).

(** The file after [add_sale_record] appended a row to it. *)
Definition append_sale (text : string) (s : sale) : string :=
  String.append text (Csv.writerow (sale_cells s)).

(** The dict of a row of the inventory, read by its six columns. *)
Definition row_of_dict (d : Csv.dictrow) : option row :=
  match Csv.restkey d, Csv.named d !! "id", Csv.named d !! "name",
        Csv.named d !! "quantity", Csv.named d !! "price",
        Csv.named d !! "total_investment", Csv.named d !! "sold" with
  | None, Some (Some a), Some (Some b), Some (Some c), Some (Some e),
    Some (Some f), Some (Some g) => Some (mk_row a b c e f g)
  | _, _, _, _, _, _, _ => None
  end.

Definition sale_of_dict (d : Csv.dictrow) : option sale :=
  match Csv.restkey d, Csv.named d !! "date", Csv.named d !! "item_id",
        Csv.named d !! "item_name", Csv.named d !! "sold_quantity",
        Csv.named d !! "amount" with
  | None, Some (Some a), Some (Some b), Some (Some c), Some (Some e),
    Some (Some f) => Some (mk_sale a b c e f)
  | _, _, _, _, _, _ => None
  end.

(** The rows that [read_items] finds in a file with the given text, when
    the reader accepts it and every row has the six columns. *)
Definition read_items_text (text : string) : option (list row) :=
  match Csv.read_dicts text with
  | Some ds => mapM row_of_dict ds
  | None => None
  end.

Definition read_sales_text (text : string) : option (list sale) :=
  match Csv.read_dicts text with
  | Some ds => mapM sale_of_dict ds
  | None => None
  end.

(** ** Start-up *)

(** The two files on disk, each there or not. *)
Record disk : Type := mk_disk {
  inventory_csv : option string;
  sales_csv : option string
}.

(** Lines 21-30: a file that is missing is created with its header. *)
Definition startup (d : disk) : disk :=
  mk_disk
    (Some (match inventory_csv d with
           | Some text => text
           | None => Csv.writerow fieldnames
           end))
    (Some (match sales_csv d with
           | Some text => text
           | None => Csv.writerow sales_header
           end)).

(** ** Vocabulary of the statements *)

(** The failures of the operations, by the names the specification gives
    them. *)
Definition MissingQuantity : exn :=
  HTTPException 400 "Sold quantity is required".

Definition InvalidQuantityFormat : exn :=
  HTTPException 400 "Sold quantity must be a valid integer".

Definition NonPositiveQuantity : exn :=
  HTTPException 400 "Sold quantity must be a positive integer".

Definition RecordNotFound : exn := HTTPException 404 "Item not found".

Definition CorruptQuantity : exn :=
  HTTPException 500 "Invalid inventory quantity".

Definition CorruptPrice : exn := HTTPException 500 "Invalid item price".

Definition InsufficientStock (available : Z) : exn :=
  HTTPException 400
    (String.append "Not enough stock. Available: " (PyInt.to_str available)).

Definition QuantityBelowMinimum : exn :=
  HTTPException 400 "Quantity must be 10 or more".

(** [s] does not start with the marker. *)
Definition unmarked (s : string) : Prop :=
  PyStr.first_char s <> Some "$"%char.

(** [r] is the first row of [items] with the id [item_id], between [pre]
    and [post]. *)
Definition first_match (item_id : string) (items pre : list row) (r : row)
    (post : list row) : Prop :=
  items = pre ++ r :: post /\ i_id r = item_id
  /\ Forall (fun i => i_id i <> item_id) pre.

(** What a sale of [s] units makes of the row [r], once its fields are
    read: quantity [q], unit price [p], sold counter [sd], investment
    [ti]; [sf] is [s] as a float. *)
Definition sold_row (r : row) (q s sd : Z) (ti sf p : PyFloat.float) : row :=
  mk_row (i_id r) (i_name r) (PyInt.to_str (q - s)) (i_price r)
    (PyFloat.to_str (PyFloat.round2 (PyFloat.sub ti (PyFloat.mul sf p))))
    (PyInt.to_str (sd + s)).

Definition ledger_entry (today : date) (item_id : string) (r : row) (s : Z)
    (sf p : PyFloat.float) : sale :=
  mk_sale (isoformat today) item_id (i_name r) (PyInt.to_str s)
    (PyFloat.to_str (PyFloat.round2 (PyFloat.mul sf p))).

(** The fields of [r] that a sale of [s] units reads all convert, and the
    stock suffices. *)
Definition sellable (r : row) (q s sd : Z) (ti sf p : PyFloat.float)
  : Prop :=
  PyInt.of_str (i_quantity r) = Some q /\ s <= q
  /\ PyFloat.of_str (PyStr.remove_char "$" (i_price r)) = Some p
  /\ PyInt.of_str (i_sold r) = Some sd
  /\ PyFloat.of_str (i_total_investment r) = Some ti
  /\ PyFloat.of_Z s = Some sf.

(** The row that [add_item] stores. *)
Definition added_row (item : payload) (next : string) (q pv : pyval)
    (x p : PyFloat.float) : row :=
  mk_row next (from_option csv_field "" (item !! "name")) (csv_field q)
    (with_marker (py_str pv))
    (PyFloat.to_str (PyFloat.round2 (PyFloat.mul x p)))
    "0".

(** The payload converts: a quantity [n] that fits a float, a price whose
    text without the marker is a number, and no key outside the columns;
    the stored ids are integers. *)
Definition addable (item : payload) (fs : files) (q pv : pyval) (n : Z)
    (x p : PyFloat.float) (ids : list Z) : Prop :=
  item !! "quantity" = Some q /\ py_int q = Ok n
  /\ item !! "price" = Some pv
  /\ PyFloat.of_str (PyStr.remove_char "$" (with_marker (py_str pv)))
     = Some p
  /\ PyFloat.of_Z n = Some x
  /\ int_ids (DATA_FILE fs) = Ok ids
  /\ dom item ⊆ list_to_set fieldnames.

(** What [update_item] makes of the row [r]. *)
Definition new_name (item : payload) (r : row) : string :=
  from_option csv_field (i_name r) (item !! "name").

Definition new_quantity (item : payload) (r : row) : string :=
  from_option py_str (i_quantity r) (item !! "quantity").

Definition new_price (item : payload) (r : row) : string :=
  with_marker (from_option py_str (i_price r) (item !! "price")).

Definition updated_row (item : payload) (r : row) (x p : PyFloat.float)
  : row :=
  mk_row (i_id r) (new_name item r) (new_quantity item r)
    (new_price item r)
    (PyFloat.to_str (PyFloat.round2 (PyFloat.mul x p))) (i_sold r).

(** The resulting quantity is an integer [n] that fits a float and the
    resulting price, without the marker, a number. *)
Definition updatable (item : payload) (r : row) (n : Z)
    (x p : PyFloat.float) : Prop :=
  PyFloat.of_str (PyStr.remove_char "$" (new_price item r)) = Some p
  /\ PyInt.of_str (new_quantity item r) = Some n
  /\ PyFloat.of_Z n = Some x.

(** The dates [datetime.date] can hold, up to the length of the month. *)
Definition is_date (d : date) : Prop :=
  1 <= year d <= 9999 /\ 1 <= month d <= 12 /\ 1 <= day d <= 31.

(** [a] is an earlier day than [b]. *)
Definition date_lt (a b : date) : Prop :=
  year a < year b
  \/ (year a = year b
      /\ (month a < month b \/ (month a = month b /\ day a < day b))).

(** The units sold on the date [d] according to the ledger [rows]. *)
Fixpoint total_on (d : string) (rows : list sale) : Z :=
  match rows with
  | [] => 0
  | r :: rest =>
      (if String.eqb (s_date r) d
       then default 0 (PyInt.of_str (s_sold_quantity r)) else 0)
      + total_on d rest
  end.

(** Every row of the ledger holds an integer quantity, as the rows that
    [add_sale_record] writes do. *)
Definition ledger_ok (rows : list sale) : Prop :=
  Forall (fun r => is_Some (PyInt.of_str (s_sold_quantity r))) rows.

(** [r'] is a later state of [r]: the same id, and a sold counter that reads
    as an integer no smaller than before whenever it did read as one. *)
Definition grows (r r' : row) : Prop :=
  i_id r' = i_id r
  /\ forall n, PyInt.of_str (i_sold r) = Some n ->
               exists n', PyInt.of_str (i_sold r') = Some n' /\ n <= n'.

(** *** The csv text *)

(** The field is within the limit of the reader. *)
Definition field_fits (s : string) : Prop :=
  Z.of_nat (String.length s) <= Csv.field_limit.

(** The field holds no carriage return. *)
Definition no_cr (s : string) : Prop :=
  Csv.any_char (Ascii.eqb Csv.CR) s = false.

(** A field as it comes back from a file read as text. *)
Definition newlines (s : string) : string := Csv.universal_newlines false s.

(** A row as it comes back from the file. *)
Definition read_back (i : row) : row :=
  mk_row (newlines (i_id i)) (newlines (i_name i)) (newlines (i_quantity i))
    (newlines (i_price i)) (newlines (i_total_investment i))
    (newlines (i_sold i)).

Definition sale_read_back (s : sale) : sale :=
  mk_sale (newlines (s_date s)) (newlines (s_item_id s))
    (newlines (s_item_name s)) (newlines (s_sold_quantity s))
    (newlines (s_amount s)).

Definition row_fits (i : row) : Prop := Forall field_fits (row_cells i).
Definition row_plain (i : row) : Prop := Forall no_cr (row_cells i).
Definition sale_fits (s : sale) : Prop := Forall field_fits (sale_cells s).
Definition sale_plain (s : sale) : Prop := Forall no_cr (sale_cells s).

(** The reader is about to start a field. *)
Definition expecting_field (s : Csv.state) : Prop :=
  s = Csv.START_RECORD \/ s = Csv.START_FIELD.

(** The state of the reader that started a field in the state [s0] and
    has read the characters [a] of it, none of them special. *)
Definition state_after (s0 : Csv.state) (a : string) : Csv.state :=
  if PyStr.is_empty a then s0 else Csv.IN_FIELD.

(** The reader is in a field that a delimiter or a line end closes. *)
Definition closing_field (s : Csv.state) : Prop :=
  s = Csv.START_FIELD \/ s = Csv.IN_FIELD \/ s = Csv.QUOTE_IN_QUOTED_FIELD.

(** The records of the rows, each closed by a line feed: the text of the
    file as it is read. *)
Definition records_text (rows : list (list string)) : string :=
  String.concat EmptyString
    (map (fun fs => String.append (Csv.record fs)
                      (String Csv.LF EmptyString)) rows).

(** *** Requests and rows *)

Definition row_ids (items : list row) : list string := map i_id items.

Definition is_sell (o : op) : bool :=
  match o with Sell _ _ _ => true | _ => false end.

Definition is_update (o : op) : bool :=
  match o with Update _ _ => true | _ => false end.

Definition is_delete (o : op) : bool :=
  match o with Delete _ => true | _ => false end.

(** A ledger row as a sale writes it: a positive number of units. *)
Definition sale_entry (e : sale) : Prop :=
  exists s, 0 < s /\ s_sold_quantity e = PyInt.to_str s.

(** No row holds a quantity that reads as a negative number. *)
Definition stock_ok (items : list row) : Prop :=
  Forall (fun i => forall q, PyInt.of_str (i_quantity i) = Some q -> 0 <= q)
         items.

(** A character that no text of an integer holds. *)
Definition never_in_int (c : ascii) : bool :=
  negb (PyStr.is_digit c || Ascii.eqb c "_" || Ascii.eqb c "-"
        || Ascii.eqb c "+" || PyStr.is_space_num c).

(** The units of all the rows of a ledger. *)
Fixpoint units_logged (rows : list sale) : Z :=
  match rows with
  | [] => 0
  | r :: rest =>
      default 0 (PyInt.of_str (s_sold_quantity r)) + units_logged rest
  end.

(** The units that the rows of a ledger log for one id. *)
Fixpoint units_for (item_id : string) (rows : list sale) : Z :=
  match rows with
  | [] => 0
  | r :: rest =>
      (if String.eqb (s_item_id r) item_id
       then default 0 (PyInt.of_str (s_sold_quantity r)) else 0)
      + units_for item_id rest
  end.

(** The sum of the totals of a chart. *)
Definition chart_total (chart : list (string * Z)) : Z :=
  foldr Z.add 0 (map snd chart).

(** The sum of [f] over the dates [l]. *)
Definition sum_over (f : string -> Z) (l : list string) : Z :=
  foldr (fun d a => f d + a) 0 l.

(** The two fields that the analysis converts both do. *)
Definition analysable (i : row) : Prop :=
  is_Some (PyFloat.of_str (i_total_investment i))
  /\ is_Some (PyInt.of_str (i_quantity i)).

(** The row counts as low on stock. *)
Definition low_row (i : row) : bool :=
  match PyInt.of_str (i_quantity i) with
  | Some q => q <=? LOW_STOCK_THRESHOLD
  | None => false
  end.

Definition low_rows (items : list row) : Z :=
  Z.of_nat (length (List.filter low_row items)).

(** *** The text of a float *)

(** The characters of the text of a finite float. *)
Definition float_char (c : ascii) : bool :=
  PyStr.is_digit c || Ascii.eqb c "." || Ascii.eqb c "e"
  || Ascii.eqb c "+" || Ascii.eqb c "-".

Definition dot_or_e (c : ascii) : bool := Ascii.eqb c "." || Ascii.eqb c "e".

(** The exponent part: [e], a sign, digits. *)
Definition exponent_text (r : string) : Prop :=
  exists sgn x, r = String "e" (String sgn x)
                /\ (sgn = "+"%char \/ sgn = "-"%char)
                /\ PyStr.all_chars PyStr.is_digit x = true
                /\ x <> EmptyString.

(** The text starts with a digit. *)
Definition starts_digit (s : string) : Prop :=
  match s with
  | String c _ => PyStr.is_digit c = true
  | EmptyString => False
  end.

(** The fields of a row that every request reads convert, the quantity
    apart. *)
Definition readable (i : row) : Prop :=
  is_Some (PyInt.of_str (i_id i))
  /\ is_Some (PyFloat.of_str (PyStr.remove_char "$" (i_price i)))
  /\ is_Some (PyFloat.of_str (i_total_investment i))
  /\ is_Some (PyInt.of_str (i_sold i)).

(** The request does not add a row with a float as its quantity. *)
Definition whole_quantity (o : op) : bool :=
  match o with
  | Add item =>
      match item !! "quantity" with
      | Some (PFloat _) => false
      | _ => true
      end
  | _ => true
  end.

(** *** Requests that are handled *)

(** The request was answered or refused by the endpoint itself: no
    exception went on to the framework. *)
Definition handled {A} (r : result A) : Prop :=
  match r with
  | Ok _ => True
  | Raise (HTTPException _ _) => True
  | Raise _ => False
  end.

(** An integer or a text, the two forms of a quantity in a request. *)
Definition int_or_text (v : pyval) : Prop :=
  match v with
  | PInt _ | PStr _ => True
  | _ => False
  end.

(** *** Files that are read as they were written *)

(** The file written from [items] is read as [items]: every field is
    within the limit of the reader and holds no carriage return. *)
Definition round_trips (items : list row) : Prop :=
  Forall row_fits items /\ Forall row_plain items.

(** The inventory is read as written before the requests [ops] and after
    each of them. *)
Fixpoint round_trips_along (ops : list op) (fs : files) : Prop :=
  round_trips (DATA_FILE fs)
  /\ match ops with
     | [] => True
     | o :: rest => round_trips_along rest (exec o fs)
     end.

(** The field is short and holds no carriage return. *)
Definition plain_field (s : string) : bool :=
  (Z.of_nat (String.length s) <=? Csv.field_limit)
  && negb (Csv.any_char (Ascii.eqb Csv.CR) s).

(** The request neither updates nor deletes the row [item_id]. *)
Definition leaves (item_id : string) (o : op) : bool :=
  match o with
  | Update i _ | Delete i => negb (String.eqb i item_id)
  | _ => true
  end.

(** There is a row with the id [item_id], and every such row holds the
    quantity [t]. *)
Definition holds_quantity (item_id t : string) (items : list row) : Prop :=
  (exists r, r ∈ items /\ i_id r = item_id)
  /\ Forall (fun i => i_id i = item_id -> i_quantity i = t) items.

(** ** Example data *)

Definition widget : row := mk_row "001" "Widget" "20" "$2.5" "50.0" "0".
Definition bolt : row := mk_row "002" "Bolt" "100" "$0.25" "25.0" "8".
Definition broken : row := mk_row "003" "Gear" "20" "$abc" "0.0" "0".

Definition demo : files := mk_files [widget; bolt; broken] [].

(** Two rows with one id. *)
Definition twin : row := mk_row "001" "Widget, old" "7" "$2" "14.0" "1".

Definition twins : files := mk_files [widget; twin; bolt] [].

Definition may1 : date := mk_date 2024 5 1.
Definition may2 : date := mk_date 2024 5 2.
Definition may3 : date := mk_date 2024 5 3.

(** Three sales on two days, the later day first. *)
Definition may_sales : files :=
  mk_files []
    [mk_sale "2024-05-02" "001" "Widget" "3" "7.5";
     mk_sale "2024-05-01" "002" "Bolt" "7" "1.75";
     mk_sale "2024-05-02" "002" "Bolt" "1" "0.25"].

Definition float_of (s : string) : PyFloat.float :=
  match PyFloat.of_str s with
  | Some x => x
  | None => S754_nan
  end.

Definition sell3 : payload := {[ "sold" := PInt 3 ]}.
Definition sell500 : payload := {[ "sold" := PInt 500 ]}.
Definition new_nut : payload :=
  {[ "name" := PStr "Nut"; "quantity" := PInt 10; "price" := PStr "0.5" ]}.
Definition few_nuts : payload :=
  {[ "name" := PStr "Nut"; "quantity" := PInt 9; "price" := PStr "0.5" ]}.
Definition unpriced_nut : payload :=
  {[ "name" := PStr "Nut"; "quantity" := PInt 10; "price" := PStr "abc" ]}.
Definition restock : payload := {[ "quantity" := PInt 50 ]}.
Definition reprice : payload := {[ "price" := PStr "abc" ]}.

Definition sell_twice : list op :=
  [Sell may2 "004" sell3; Delete "002"; Update "004" restock].

Definition sell_more : list op :=
  [Sell may3 "004" sell3; Add new_nut; Sell may3 "004" sell500].

(** A name with a carriage return and a line feed in it. *)
Definition crlf_name : row :=
  mk_row "001" (String "A" (String Csv.CR (String Csv.LF "B"))) "20" "$2.5"
    "50.0" "0".

Definition restock_then_sell : list op :=
  [Add new_nut; Sell may1 "001" sell3; Sell may1 "009" sell3; Delete "002";
   Sell may2 "004" sell3].

Definition two_sales : list op :=
  [Sell may1 "002" sell3; Add new_nut; Update "002" restock;
   Sell may2 "002" sell3; Sell may2 "001" sell3].

(** A quantity with decimals, and a key that is no column. *)
Definition half_nut : payload :=
  {[ "name" := PStr "Nut"; "quantity" := PFloat (float_of "10.5");
     "price" := PStr "0.5" ]}.

Definition tagged_nut : payload :=
  {[ "name" := PStr "Nut"; "quantity" := PInt 10; "price" := PStr "0.5";
     "colour" := PStr "red" ]}.

(** A quantity beyond the floats, and an inventory whose id is no
    number. *)
Definition huge_nut : payload :=
  {[ "name" := PStr "Nut"; "quantity" := PInt (10 ^ 400);
     "price" := PStr "0.5" ]}.

Definition lettered : files :=
  mk_files [mk_row "A01" "Widget" "20" "$2.5" "50.0" "0"] [].

(** The rows of [may_sales] in another order. *)
Definition shuffled_sales : files :=
  mk_files []
    [mk_sale "2024-05-02" "002" "Bolt" "1" "0.25";
     mk_sale "2024-05-02" "001" "Widget" "3" "7.5";
     mk_sale "2024-05-01" "002" "Bolt" "7" "1.75"].

Definition scarce : row := mk_row "005" "Washer" "5" "$0.1" "0.5" "95".

Definition stocked : files := mk_files [widget; bolt; scarce] [].

Definition sell_most : payload := {[ "sold" := PInt 16 ]}.

(** The analysis of [stocked], then with [new_nut] added, then with 16
    widgets sold. *)
Definition stocked_now : analysis :=
  mk_analysis 3 (PFloat (float_of "75.5")) 1.

Definition stocked_more : analysis :=
  mk_analysis 4 (PFloat (float_of "80.5")) 1.

Definition stocked_less : analysis :=
  mk_analysis 3 (PFloat (float_of "35.5")) 2.

Definition busy_day : list op :=
  [Add new_nut; Add half_nut; Sell may1 "001" sell3; Update "002" restock;
   Delete "003"; Sell may2 "001" sell500].

Definition whole_day : list op :=
  [Add new_nut; Sell may1 "001" sell3; Update "001" restock;
   Add tagged_nut; Delete "001"; Add new_nut; Sell may2 "001" sell500].

(** An inventory with the ledger of [may_sales]. *)
Definition trading : files := mk_files [widget; bolt] (SALES_FILE may_sales).

(** Requests that leave the row 004 alone, a refused sale of it apart. *)
Definition elsewhere : list op :=
  [Add new_nut; Sell may1 "001" sell3; Sell may1 "004" sell3;
   Update "002" restock; Delete "003"].

Ltac monad_simpl :=
  unfold bind, lift, ret, raise, read_items, write_items, add_sale_record in *;
  cbn [fst snd] in *.

(** * Properties *)

(** ** Integers and their text *)

Section IntText.
Import PyStr PyInt.

Lemma digits_of_uint_acc (d : Decimal.uint) (a : positive) :
  digits (Zpos a) false (NilEmpty.string_of_uint d)
  = Some (Zpos (Pos.of_uint_acc d a)).
Proof.
  revert a; induction d as [|d IH|d IH|d IH|d IH|d IH|d IH|d IH|d IH|d IH|d IH];
    intros a; [reflexivity|..];
    cbn [NilEmpty.string_of_uint digits Pos.of_uint_acc];
    change (is_digit _) with true; cbv iota;
    rewrite <- IH; f_equal; unfold digit_val, code; cbn; lia.
Qed.

Lemma digits_of_uint (d : Decimal.uint) :
  digits 0 false (NilEmpty.string_of_uint d) = Some (Z.of_N (Pos.of_uint d)).
Proof.
  induction d as [|d IH|d IH|d IH|d IH|d IH|d IH|d IH|d IH|d IH|d IH];
    [reflexivity|exact IH|..];
    cbn [NilEmpty.string_of_uint digits Pos.of_uint];
    change (is_digit _) with true; cbv iota;
    apply digits_of_uint_acc.
Qed.

Lemma string_of_uint_digits (d : Decimal.uint) :
  all_chars is_digit (NilEmpty.string_of_uint d) = true.
Proof. induction d; cbn; auto. Qed.

Lemma to_uint_not_nil (p : positive) : Pos.to_uint p <> Decimal.Nil.
Proof.
  intros E. pose proof (Unsigned.of_to p) as H. rewrite E in H. discriminate.
Qed.

Lemma lstrip_id (p : ascii -> bool) (c : ascii) (s : string) :
  p c = false -> lstrip p (String c s) = String c s.
Proof. intros H. cbn. now rewrite H. Qed.

Lemma rstrip_id (p : ascii -> bool) (s : string) :
  all_chars (fun c => negb (p c)) s = true -> rstrip p s = s.
Proof.
  induction s as [|c s IH]; [reflexivity|]. cbn.
  intros [Hc Hs]%andb_true_iff. rewrite (IH Hs).
  destruct s; [|reflexivity].
  now destruct (p c).
Qed.

Lemma all_chars_impl (p q : ascii -> bool) (s : string) :
  (forall c, p c = true -> q c = true) ->
  all_chars p s = true -> all_chars q s = true.
Proof.
  intros Hpq. induction s as [|c s IH]; [reflexivity|]. cbn.
  intros [Hc Hs]%andb_true_iff. rewrite (Hpq _ Hc), (IH Hs). reflexivity.
Qed.

Lemma digit_not_space (c : ascii) :
  is_digit c = true -> negb (is_space_num c) = true.
Proof.
  unfold is_digit, is_space_num. intros H. apply negb_true_iff.
  apply andb_true_iff in H as [H1 H2].
  apply Z.leb_le in H1. apply Z.leb_le in H2.
  repeat (apply orb_false_iff; split);
    [apply andb_false_iff; right; apply Z.leb_gt; lia
    |apply Z.eqb_neq; lia..].
Qed.

Lemma strip_digits (s : string) :
  all_chars is_digit s = true -> strip_with is_space_num s = s.
Proof.
  intros H. unfold strip_with.
  assert (Hn : all_chars (fun c => negb (is_space_num c)) s = true)
    by (eapply all_chars_impl; [apply digit_not_space|exact H]).
  destruct s as [|c s]; [reflexivity|].
  rewrite lstrip_id; [now apply rstrip_id|].
  cbn in Hn. apply andb_true_iff in Hn as [Hc _].
  now apply negb_true_iff.
Qed.

Lemma unsigned_pos (p : positive) :
  unsigned (NilEmpty.string_of_uint (Pos.to_uint p)) = Some (Zpos p).
Proof.
  pose proof (digits_of_uint (Pos.to_uint p)) as H.
  rewrite Unsigned.of_to in H. cbn [Z.of_N] in H.
  pose proof (string_of_uint_digits (Pos.to_uint p)) as Hd.
  pose proof (to_uint_not_nil p) as Hn.
  destruct (Pos.to_uint p); try congruence; cbn in *; exact H.
Qed.

Lemma of_str_digits (s : string) :
  all_chars is_digit s = true -> of_str s = unsigned s.
Proof.
  intros H. unfold of_str. rewrite (strip_digits _ H).
  destruct s as [|c s]; [reflexivity|].
  cbn in H. apply andb_true_iff in H as [Hc _].
  destruct c as [[] [] [] [] [] [] [] []]; try discriminate Hc; reflexivity.
Qed.

(** Reading the text of an integer gives the integer back. *)
Lemma of_str_to_str (n : Z) : of_str (to_str n) = Some n.
Proof.
  destruct n as [|p|p]; [reflexivity| |].
  - cbn [to_str]. rewrite of_str_digits by apply string_of_uint_digits.
    apply unsigned_pos.
  - cbn [to_str]. unfold of_str, strip_with.
    rewrite lstrip_id by reflexivity.
    rewrite rstrip_id.
    + rewrite unsigned_pos. reflexivity.
    + cbn [all_chars]. apply andb_true_iff; split; [reflexivity|].
      eapply all_chars_impl; [apply digit_not_space|].
      apply string_of_uint_digits.
Qed.

End IntText.

(** ** A value that converts to an integer is not blank *)

Section NotBlank.
Import PyStr PyInt.

Lemma all_chars_app (p : ascii -> bool) (a b : string) :
  all_chars p (String.append a b) = all_chars p a && all_chars p b.
Proof.
  induction a as [|c a IH]; [reflexivity|].
  change (all_chars p (String c (String.append a b))
          = p c && all_chars p a && all_chars p b).
  cbn [all_chars]. rewrite IH. apply andb_assoc.
Qed.

Lemma rstrip_empty (p : ascii -> bool) (s : string) :
  is_empty (rstrip p s) = true -> all_chars p s = true.
Proof.
  induction s as [|c s IH]; [reflexivity|]. cbn.
  destruct (rstrip p s) eqn:E; [|discriminate].
  destruct (p c); [|discriminate]. intros _. now apply IH.
Qed.

Lemma lstrip_all (p : ascii -> bool) (s : string) :
  all_chars p (lstrip p s) = true -> all_chars p s = true.
Proof.
  induction s as [|c s IH]; [reflexivity|]. cbn.
  destruct (p c) eqn:E; [exact IH|]. cbn. now rewrite E.
Qed.

Lemma strip_empty (p : ascii -> bool) (s : string) :
  is_empty (strip_with p s) = true -> all_chars p s = true.
Proof. intros H. apply lstrip_all, rstrip_empty, H. Qed.

Lemma lstrip_keeps (p q : ascii -> bool) (s : string) :
  all_chars q s = true -> all_chars q (lstrip p s) = true.
Proof.
  induction s as [|c s IH]; [reflexivity|]. cbn.
  intros H. destruct (p c); [|exact H].
  apply andb_true_iff in H as [_ H]. now apply IH.
Qed.

Lemma rstrip_keeps (p q : ascii -> bool) (s : string) :
  all_chars q s = true -> all_chars q (rstrip p s) = true.
Proof.
  induction s as [|c s IH]; [reflexivity|]. cbn.
  intros [Hc Hs]%andb_true_iff. specialize (IH Hs).
  destruct (rstrip p s).
  - destruct (p c); cbn; [reflexivity|now rewrite Hc].
  - cbn in *. now rewrite Hc, IH.
Qed.

Lemma strip_keeps (p q : ascii -> bool) (s : string) :
  all_chars q s = true -> all_chars q (strip_with p s) = true.
Proof. intros H. apply rstrip_keeps, lstrip_keeps, H. Qed.

Lemma blank_not_int (s : string) :
  all_chars is_space s = true -> of_str s = None.
Proof.
  intros H. apply (strip_keeps is_space_num) in H.
  unfold of_str. destruct (strip_with is_space_num s) as [|c r];
    [reflexivity|].
  cbn in H. apply andb_true_iff in H as [Hc _].
  destruct c as [[] [] [] [] [] [] [] []]; try discriminate Hc; reflexivity.
Qed.

Lemma int_text_not_blank (n : Z) : all_chars is_space (to_str n) = false.
Proof.
  destruct n as [|p|p]; [reflexivity| |reflexivity].
  cbn [to_str].
  pose proof (string_of_uint_digits (Pos.to_uint p)) as Hd.
  pose proof (to_uint_not_nil p) as Hn.
  destruct (Pos.to_uint p); try congruence; reflexivity.
Qed.

Lemma layout_not_blank (ds : string) (p : Z) :
  all_chars is_space (PyFloat.layout ds p) = false.
Proof.
  unfold PyFloat.layout.
  repeat match goal with |- context [if ?b then _ else _] => destruct b end;
    rewrite ?all_chars_app; cbn [all_chars];
    change (is_space "e") with false; change (is_space ".") with false;
    change (is_space "0") with false;
    rewrite ?andb_false_r, ?andb_false_l; reflexivity.
Qed.

Lemma float_text_not_blank (x : PyFloat.float) :
  all_chars is_space (PyFloat.to_str x) = false.
Proof.
  unfold PyFloat.to_str.
  destruct (PyFloat.canon x) as [[]|[]| |s m e]; try reflexivity.
  destruct (PyFloat.fraction m e) as [n d].
  destruct (PyFloat.shortest 16 1 m e (PyFloat.decpt n d)) as [c p].
  destruct s; [reflexivity|apply layout_not_blank].
Qed.

(** [int(v)] fails on every value whose text [strip] empties. *)
Lemma py_int_not_blank (v : pyval) (n : Z) :
  py_int v = Ok n -> is_empty (strip (py_str v)) = false.
Proof.
  intros H. destruct (is_empty (strip (py_str v))) eqn:E; [|reflexivity].
  apply strip_empty in E.
  destruct v as [|b|k|x|s]; cbn [py_str py_int] in *.
  - discriminate.
  - destruct b; discriminate.
  - now rewrite int_text_not_blank in E.
  - now rewrite float_text_not_blank in E.
  - now rewrite (blank_not_int _ E) in H.
Qed.

End NotBlank.

(** ** The loop over the rows *)

Section Loop.

Lemma first_match_dec (item_id : string) (items : list row) :
  Forall (fun i => i_id i <> item_id) items
  \/ exists pre r post, first_match item_id items pre r post.
Proof.
  induction items as [|i items IH]; [left; constructor|].
  destruct (String.eqb_spec (i_id i) item_id) as [E|N].
  - right. exists [], i, items. repeat split; auto.
  - destruct IH as [H|(pre & r & post & -> & Hr & Hpre)].
    + left. constructor; assumption.
    + right. exists (i :: pre), r, post. repeat split; auto.
Qed.

Lemma for_first_none (item_id : string) (body : row -> M row)
    (items : list row) (fs : files) :
  Forall (fun i => i_id i <> item_id) items ->
  for_first item_id body items fs = (Ok (false, items), fs).
Proof.
  induction 1 as [|i items Hi _ IH]; [reflexivity|].
  cbn [for_first]. apply String.eqb_neq in Hi. rewrite Hi.
  unfold bind. rewrite IH. reflexivity.
Qed.

Lemma for_first_split (item_id : string) (body : row -> M row)
    (items pre : list row) (r : row) (post : list row) (fs : files) :
  first_match item_id items pre r post ->
  for_first item_id body items fs
  = match body r fs with
    | (Ok r', fs') => (Ok (true, pre ++ r' :: post), fs')
    | (Raise e, fs') => (Raise e, fs')
    end.
Proof.
  intros (-> & Hr & Hpre).
  induction Hpre as [|i pre Hi _ IH].
  - cbn [for_first app]. apply String.eqb_eq in Hr. rewrite Hr.
    unfold bind, ret. destruct (body r fs) as [[r'|e] fs']; reflexivity.
  - cbn [for_first app]. apply String.eqb_neq in Hi. rewrite Hi.
    unfold bind. rewrite IH.
    destruct (body r fs) as [[r'|e] fs']; reflexivity.
Qed.

Lemma first_match_unique (item_id : string) (items pre pre' : list row)
    (r r' : row) (post post' : list row) :
  first_match item_id items pre r post ->
  first_match item_id items pre' r' post' ->
  pre = pre' /\ r = r' /\ post = post'.
Proof.
  intros (-> & Hr & Hpre) (E & Hr' & Hpre').
  revert pre' E Hpre'.
  induction Hpre as [|i pre Hi _ IH]; intros pre' E Hpre'.
  - destruct pre' as [|j pre']; cbn in E.
    + injection E as -> ->. auto.
    + injection E as -> _. inversion Hpre'; subst. contradiction.
  - destruct pre' as [|j pre']; cbn in E.
    + injection E as -> _. contradiction.
    + injection E as -> E. inversion Hpre'; subst.
      destruct (IH _ E) as (-> & -> & ->); auto.
Qed.

End Loop.

(** ** The sale *)

Section Sale.
Import PyStr.

Lemma sell_body_ok (today : date) (item_id : string) (r : row) (q s sd : Z)
    (ti sf p : PyFloat.float) (fs : files) :
  sellable r q s sd ti sf p ->
  sell_body today item_id s r fs
  = (Ok (sold_row r q s sd ti sf p),
     mk_files (DATA_FILE fs)
       (SALES_FILE fs ++ [ledger_entry today item_id r s sf p])).
Proof.
  intros (Hq & Hle & Hp & Hsd & Hti & Hsf).
  unfold sell_body, int_of_string, float_of_string, int_mul_float, py_int.
  monad_simpl. rewrite Hq. cbn [except_ValueError].
  destruct (Z.ltb_spec q s) as [?|_]; [lia|].
  rewrite Hp. cbn [except_ValueError]. rewrite Hsd, Hti, Hsf.
  reflexivity.
Qed.

(** The body of the loop either raises with the files as they were, or
    read every field and appended one ledger row. *)
Lemma sell_body_spec (today : date) (item_id : string) (s : Z) (r : row)
    (fs : files) :
  match sell_body today item_id s r fs with
  | (Ok r', fs') =>
      exists q sd ti sf p,
        sellable r q s sd ti sf p
        /\ r' = sold_row r q s sd ti sf p
        /\ fs' = mk_files (DATA_FILE fs)
                   (SALES_FILE fs ++ [ledger_entry today item_id r s sf p])
  | (Raise _, fs') => fs' = fs
  end.
Proof.
  unfold sell_body, int_of_string, float_of_string, int_mul_float, py_int.
  monad_simpl.
  destruct (PyInt.of_str (i_quantity r)) as [q|] eqn:Hq;
    cbn [except_ValueError]; [|reflexivity].
  destruct (Z.ltb_spec q s) as [?|Hle]; [reflexivity|].
  destruct (PyFloat.of_str (remove_char "$" (i_price r))) as [p|] eqn:Hp;
    cbn [except_ValueError]; [|reflexivity].
  destruct (PyInt.of_str (i_sold r)) as [sd|] eqn:Hsd; [|reflexivity].
  destruct (PyFloat.of_str (i_total_investment r)) as [ti|] eqn:Hti;
    [|reflexivity].
  destruct (PyFloat.of_Z s) as [sf|] eqn:Hsf; [|reflexivity].
  exists q, sd, ti, sf, p. unfold sellable. auto 10.
Qed.

(** Every outcome of [sell_item]. *)
Lemma sell_item_spec (today : date) (item_id : string) (data : payload)
    (fs : files) :
  match sell_item today item_id data fs with
  | (Ok msg, fs') =>
      exists v s pre r post q sd ti sf p,
        data !! "sold" = Some v /\ py_int v = Ok s /\ 0 < s
        /\ first_match item_id (DATA_FILE fs) pre r post
        /\ sellable r q s sd ti sf p
        /\ msg = String.append (PyInt.to_str s) " units sold"
        /\ fs' = mk_files (pre ++ sold_row r q s sd ti sf p :: post)
                   (SALES_FILE fs ++ [ledger_entry today item_id r s sf p])
  | (Raise _, fs') => fs' = fs
  end.
Proof.
  unfold sell_item.
  destruct (data !! "sold") as [v|] eqn:Hv; [|reflexivity].
  destruct (is_empty (strip (py_str v))); [reflexivity|].
  unfold bind at 1, lift at 1.
  destruct (py_int v) as [s|e] eqn:Hs; cbn [except_ValueError];
    [|destruct e; reflexivity].
  destruct (Z.leb_spec s 0) as [?|Hpos]; [reflexivity|].
  unfold bind at 1, read_items at 1.
  unfold bind at 1.
  destruct (first_match_dec item_id (DATA_FILE fs))
    as [Hnone|(pre & r & post & Hm)].
  - rewrite for_first_none by assumption. reflexivity.
  - rewrite (for_first_split _ _ _ _ _ _ _ Hm).
    pose proof (sell_body_spec today item_id s r fs) as Hb.
    destruct (sell_body today item_id s r fs) as [[r'|e] fs'];
      [|exact Hb].
    destruct Hb as (q & sd & ti & sf & p & Hsell & -> & ->).
    cbn [fst snd negb]. monad_simpl. cbn [DATA_FILE SALES_FILE].
    exists v, s, pre, r, post, q, sd, ti, sf, p. auto 10.
Qed.

End Sale.

Section SaleClaims.
Import PyStr.

(** C1 (amended): when the first row with the given id has a quantity [q],
    a price, a sold counter [sd] and an investment [ti] that all convert,
    and the request's sold quantity converts to an integer [s] with
    [0 < s <= q] that fits a float, the sale succeeds: the row's quantity
    becomes [q - s], its sold counter [sd + s], its investment
    [round(ti - s * unitPrice, 2)], every other row stays, and exactly one
    ledger row is appended, with the amount [round(s * unitPrice, 2)]. *)
Theorem sell_valid_quantity (today : date) (item_id : string) (data : payload)
    (fs : files) (v : pyval) (s : Z) (pre : list row) (r : row)
    (post : list row) (q sd : Z) (ti sf p : PyFloat.float) :
  data !! "sold" = Some v -> py_int v = Ok s -> 0 < s ->
  DATA_FILE fs = pre ++ r :: post -> i_id r = item_id ->
  Forall (fun i => i_id i <> item_id) pre ->
  PyInt.of_str (i_quantity r) = Some q -> s <= q ->
  PyFloat.of_str (remove_char "$" (i_price r)) = Some p ->
  PyInt.of_str (i_sold r) = Some sd ->
  PyFloat.of_str (i_total_investment r) = Some ti ->
  PyFloat.of_Z s = Some sf ->
  let amount := PyFloat.mul sf p in
  let r' :=
    mk_row (i_id r) (i_name r) (PyInt.to_str (q - s)) (i_price r)
      (PyFloat.to_str (PyFloat.round2 (PyFloat.sub ti amount)))
      (PyInt.to_str (sd + s)) in
  let entry :=
    mk_sale (isoformat today) item_id (i_name r) (PyInt.to_str s)
      (PyFloat.to_str (PyFloat.round2 amount)) in
  sell_item today item_id data fs
  = (Ok (String.append (PyInt.to_str s) " units sold"),
     mk_files (pre ++ r' :: post) (SALES_FILE fs ++ [entry]))
  /\ PyInt.of_str (i_quantity r') = Some (q - s)
  /\ PyInt.of_str (i_sold r') = Some (sd + s).
Proof.
  intros Hv Hs Hpos Hfs Hid Hpre Hq Hle Hp Hsd Hti Hsf amount r' entry.
  split; [|subst r'; cbn; auto using of_str_to_str].
  assert (Hm : first_match item_id (DATA_FILE fs) pre r post)
    by (unfold first_match; auto).
  assert (Hsell : sellable r q s sd ti sf p)
    by (unfold sellable; auto 10).
  unfold sell_item. rewrite Hv, (py_int_not_blank _ _ Hs).
  unfold bind at 1, lift at 1. rewrite Hs. cbn [except_ValueError].
  destruct (Z.leb_spec s 0) as [?|_]; [lia|].
  unfold bind at 1, read_items at 1. unfold bind at 1.
  rewrite (for_first_split _ _ _ _ _ _ _ Hm).
  rewrite (sell_body_ok _ _ _ _ _ _ _ _ _ _ Hsell).
  reflexivity.
Qed.

Lemma sell_valid_quantity_witness :
  sell_item may2 "001" sell3 demo
  = (Ok "3 units sold",
     mk_files [mk_row "001" "Widget" "17" "$2.5" "42.5" "3"; bolt; broken]
              [mk_sale "2024-05-02" "001" "Widget" "3" "7.5"]).
Proof.
  exact (proj1 (sell_valid_quantity may2 "001" sell3 demo (PInt 3) 3
                  [] widget [bolt; broken] 20 0 (float_of "50.0")
                  (float_of "3") (float_of "2.5")
                  eq_refl eq_refl eq_refl eq_refl eq_refl (List.Forall_nil _)
                  eq_refl ltac:(discriminate) eq_refl eq_refl eq_refl
                  eq_refl)).
Defined.

(** C1, as stated, fails: the row exists and the quantity is in stock, but
    the stored price does not convert and the sale is refused. *)
Lemma sell_valid_quantity_corrupt_price :
  first_match "003" (DATA_FILE demo) [widget; bolt] broken []
  /\ sell3 !! "sold" = Some (PInt 3)
  /\ py_int (PInt 3) = Ok 3
  /\ PyInt.of_str (i_quantity broken) = Some 20
  /\ 0 < 3 <= 20
  /\ sell_item may2 "003" sell3 demo
     = (Raise CorruptPrice, demo).
Proof.
  repeat split; try reflexivity; try lia;
    repeat constructor; discriminate.
Qed.

(** C2: a sale that raises leaves both files as they were; a sale that
    returns appended one ledger row and changed the inventory.  So the
    ledger grows exactly when the inventory changes. *)
Theorem sell_all_or_nothing (today : date) (item_id : string) (data : payload)
    (fs : files) (res : result string) (fs' : files) :
  sell_item today item_id data fs = (res, fs') ->
  match res with
  | Raise _ => fs' = fs
  | Ok _ =>
      (exists entry, SALES_FILE fs' = SALES_FILE fs ++ [entry])
      /\ DATA_FILE fs' <> DATA_FILE fs
  end
  /\ (SALES_FILE fs' <> SALES_FILE fs <-> DATA_FILE fs' <> DATA_FILE fs).
Proof.
  intros E. pose proof (sell_item_spec today item_id data fs) as H.
  rewrite E in H. destruct res as [msg|e].
  - destruct H as (v & s & pre & r & post & q & sd & ti & sf & p
                   & _ & _ & Hpos & (Hfs & _ & _) & Hsell & _ & ->).
    cbn [DATA_FILE SALES_FILE].
    assert (Hd : pre ++ sold_row r q s sd ti sf p :: post <> DATA_FILE fs).
    { rewrite Hfs. intros Heq. apply app_inv_head in Heq.
      injection Heq as Heq. destruct Hsell as (_ & _ & _ & Hsd & _).
      assert (Hsold : i_sold (sold_row r q s sd ti sf p) = i_sold r)
        by now rewrite Heq.
      cbn in Hsold. rewrite <- Hsold, of_str_to_str in Hsd.
      injection Hsd as Hsd. lia. }
    assert (Hl : SALES_FILE fs ++ [ledger_entry today item_id r s sf p]
                 <> SALES_FILE fs).
    { intros Heq. apply (f_equal (@length sale)) in Heq.
      rewrite length_app in Heq. cbn in Heq. lia. }
    repeat split; eauto.
  - subst fs'. split; [reflexivity|]. split; intros C; now elim C.
Qed.

Lemma sell_all_or_nothing_witness :
  sell_item may2 "001" sell500 demo
  = (Raise (InsufficientStock 20), demo)
  /\ (demo = demo
      /\ (SALES_FILE demo <> SALES_FILE demo
          <-> DATA_FILE demo <> DATA_FILE demo)).
Proof.
  split; [reflexivity|].
  exact (sell_all_or_nothing may2 "001" sell500 demo _ demo eq_refl).
Defined.

(** C3, at a sold quantity of [None]: the text "None" is not blank,
    [int(None)] raises [TypeError], the handler catches [ValueError]
    only, and the request ends in that exception instead of the refusal
    for a quantity that is not an integer. *)
Theorem sell_none_type_error (today : date) (item_id : string) (fs : files) :
  sell_item today item_id {[ "sold" := PNone ]} fs = (Raise TypeError, fs).
Proof. unfold sell_item. rewrite lookup_singleton_eq. reflexivity. Qed.

(** The checks of [sell_item] in the order they run, on every input: the
    first that fails decides the outcome, and the rows are only read
    after the quantity passed. *)
Lemma sell_validation_order (today : date) (item_id : string) (data : payload)
    (fs : files) :
  fst (sell_item today item_id data fs)
  = match data !! "sold" with
    | None => Raise MissingQuantity
    | Some v =>
        if is_empty (strip (py_str v))
        then Raise MissingQuantity
        else
          match py_int v with
          | Raise ValueError =>
              Raise InvalidQuantityFormat
          | Raise e => Raise e
          | Ok s =>
              if s <=? 0
              then Raise NonPositiveQuantity
              else
                match List.find (fun i => String.eqb (i_id i) item_id)
                        (DATA_FILE fs) with
                | None => Raise RecordNotFound
                | Some r =>
                    match fst (sell_body today item_id s r fs) with
                    | Ok _ => Ok (String.append (PyInt.to_str s)
                                                " units sold")
                    | Raise e => Raise e
                    end
                end
          end
    end.
Proof.
  unfold sell_item.
  destruct (data !! "sold") as [v|]; [|reflexivity].
  destruct (is_empty (strip (py_str v))); [reflexivity|].
  unfold bind at 1, lift at 1.
  destruct (py_int v) as [s|e]; cbn [except_ValueError];
    [|destruct e; reflexivity].
  destruct (s <=? 0); [reflexivity|].
  unfold bind at 1, read_items at 1. unfold bind at 1.
  destruct (first_match_dec item_id (DATA_FILE fs))
    as [Hnone|(pre & r & post & Hm)].
  - rewrite for_first_none by assumption.
    replace (List.find _ _) with (@None row); [reflexivity|].
    symmetry. induction Hnone as [|i l Hi _ IH]; [reflexivity|].
    cbn. apply String.eqb_neq in Hi. now rewrite Hi.
  - rewrite (for_first_split _ _ _ _ _ _ _ Hm).
    destruct Hm as (-> & Hr & Hpre).
    replace (List.find _ _) with (Some r).
    + destruct (sell_body today item_id s r fs) as [[r'|e] fs'];
        reflexivity.
    + symmetry. induction Hpre as [|i l Hi _ IH]; cbn.
      * apply String.eqb_eq in Hr. now rewrite Hr.
      * apply String.eqb_neq in Hi. now rewrite Hi.
Qed.

(** The checks on the row, in the order they run: the stored quantity,
    the stock, the stored price, then the conversions that no handler
    covers. *)
Lemma sell_body_order (today : date) (item_id : string) (s : Z) (r : row)
    (fs : files) :
  fst (sell_body today item_id s r fs)
  = match PyInt.of_str (i_quantity r) with
    | None => Raise CorruptQuantity
    | Some q =>
        if q <? s then Raise (InsufficientStock q)
        else
          match PyFloat.of_str (remove_char "$" (i_price r)) with
          | None => Raise CorruptPrice
          | Some p =>
              match PyInt.of_str (i_sold r) with
              | None => Raise ValueError
              | Some sd =>
                  match PyFloat.of_str (i_total_investment r) with
                  | None => Raise ValueError
                  | Some ti =>
                      match PyFloat.of_Z s with
                      | None => Raise OverflowError
                      | Some sf => Ok (sold_row r q s sd ti sf p)
                      end
                  end
              end
          end
    end.
Proof.
  unfold sell_body, int_of_string, float_of_string, int_mul_float, py_int.
  monad_simpl.
  destruct (PyInt.of_str (i_quantity r)) as [q|];
    cbn [except_ValueError]; [|reflexivity].
  destruct (q <? s); [reflexivity|].
  destruct (PyFloat.of_str (remove_char "$" (i_price r))) as [p|];
    cbn [except_ValueError]; [|reflexivity].
  destruct (PyInt.of_str (i_sold r)) as [sd|]; [|reflexivity].
  destruct (PyFloat.of_str (i_total_investment r)) as [ti|]; [|reflexivity].
  destruct (PyFloat.of_Z s) as [sf|]; reflexivity.
Qed.

End SaleClaims.

(** ** Adding and updating *)

Section AddUpdate.
Import PyStr.

Lemma prefix_empty (s : string) : String.prefix "" s = true.
Proof. destruct s; reflexivity. Qed.

Lemma with_marker_starts (s : string) :
  startswith "$" (with_marker s) = true.
Proof.
  unfold with_marker.
  destruct (startswith "$" s) eqn:E; [exact E|].
  unfold startswith. cbn. apply prefix_empty.
Qed.

Lemma remove_with_marker (s : string) :
  remove_char "$" (with_marker s) = remove_char "$" s.
Proof. unfold with_marker. destruct (startswith "$" s); reflexivity. Qed.

Lemma next_id_spec (items : list row) (ids : list Z) :
  int_ids items = Ok ids ->
  next_id items = Ok (PyInt.format_03 (max_default0 ids + 1)).
Proof.
  intros H. destruct items as [|i items].
  - injection H as <-. reflexivity.
  - unfold next_id. rewrite H. reflexivity.
Qed.

(** *** Only a string starts with the marker *)

Lemma startswith_first (s : string) :
  startswith "$" s = true -> first_char s = Some "$"%char.
Proof.
  destruct s as [|c s]; [discriminate|].
  unfold startswith. cbn [String.prefix first_char].
  destruct (ascii_dec "$" c) as [E|N]; intros H;
    [now rewrite E|discriminate H].
Qed.

Lemma unmarked_app (a b : string) :
  unmarked a -> unmarked b -> unmarked (String.append a b).
Proof. destruct a; auto. Qed.

Lemma unmarked_substring (n : nat) (s : string) :
  unmarked s -> unmarked (String.substring 0 n s).
Proof.
  unfold unmarked. destruct n, s; cbn; intros H; try discriminate; exact H.
Qed.

Lemma unmarked_zeros (k : nat) : unmarked (PyInt.zeros k).
Proof. unfold unmarked. destruct k; discriminate. Qed.

Lemma unmarked_cons (c : ascii) (s : string) :
  c <> "$"%char -> unmarked (String c s).
Proof. unfold unmarked. cbn. congruence. Qed.

Lemma unmarked_int (n : Z) : unmarked (PyInt.to_str n).
Proof.
  unfold unmarked.
  destruct n as [|p|p]; try discriminate. cbn [PyInt.to_str].
  pose proof (string_of_uint_digits (Pos.to_uint p)) as Hd.
  destruct (NilEmpty.string_of_uint (Pos.to_uint p)) as [|c r];
    [discriminate|].
  cbn in Hd. apply andb_true_iff in Hd as [Hc _].
  intros [= ->]. discriminate Hc.
Qed.

Lemma unmarked_layout (ds : string) (p : Z) :
  unmarked ds -> unmarked (PyFloat.layout ds p).
Proof.
  intros Hds. unfold PyFloat.layout.
  repeat match goal with |- context [if ?b then _ else _] => destruct b end;
    repeat first
      [ assumption | apply unmarked_app | apply unmarked_substring
      | apply unmarked_zeros | apply unmarked_cons; discriminate ].
Qed.

Lemma unmarked_float (x : PyFloat.float) : unmarked (PyFloat.to_str x).
Proof.
  unfold PyFloat.to_str.
  destruct (PyFloat.canon x) as [[]|[]| |s m e];
    try (apply unmarked_cons; discriminate).
  destruct (PyFloat.fraction m e) as [n d].
  destruct (PyFloat.shortest 16 1 m e (PyFloat.decpt n d)) as [c p].
  destruct s; [apply unmarked_cons; discriminate|].
  apply unmarked_layout, unmarked_int.
Qed.

Lemma marked_is_str (v : pyval) :
  startswith "$" (py_str v) = true -> v = PStr (py_str v).
Proof.
  intros H. apply startswith_first in H.
  destruct v as [|b|n|x|s]; cbn [py_str] in *;
    [discriminate|destruct b; discriminate| | |reflexivity].
  - now apply unmarked_int in H.
  - now apply unmarked_float in H.
Qed.

Lemma mark_price_price (item : payload) (pv : pyval) :
  item !! "price" = Some pv ->
  mark_price item pv !! "price" = Some (PStr (with_marker (py_str pv))).
Proof.
  intros H. unfold mark_price, with_marker.
  destruct (startswith "$" (py_str pv)) eqn:E; cbn [negb].
  - rewrite H. f_equal. now apply marked_is_str.
  - apply lookup_insert_eq.
Qed.

Lemma mark_price_other (item : payload) (pv : pyval) (k : string) :
  k <> "price" -> mark_price item pv !! k = item !! k.
Proof.
  intros N. unfold mark_price.
  destruct (negb _); [|reflexivity]. now apply lookup_insert_ne.
Qed.

Lemma mark_price_dom (item : payload) (pv : pyval) :
  item !! "price" = Some pv -> dom (mark_price item pv) = dom item.
Proof.
  intros H. unfold mark_price. destruct (negb _); [|reflexivity].
  rewrite dom_insert_L. apply subseteq_union_1_L.
  apply singleton_subseteq_l, elem_of_dom. eauto.
Qed.

Lemma dict_to_row_added (item : payload) (next ti : string) (q pv : pyval) :
  item !! "quantity" = Some q -> item !! "price" = Some pv ->
  dom item ⊆ list_to_set fieldnames ->
  dict_to_row
    (<["id" := PStr next]>
       (<["sold" := PStr "0"]>
          (<["total_investment" := PStr ti]> (mark_price item pv))))
  = Ok (mk_row next (from_option csv_field "" (item !! "name"))
          (csv_field q) (with_marker (py_str pv)) ti "0").
Proof.
  intros Hq Hpv Hdom. unfold dict_to_row.
  destruct (decide _) as [_|N].
  - repeat (rewrite ?lookup_insert_eq;
            try (rewrite lookup_insert_ne by discriminate)).
    rewrite (mark_price_price _ _ Hpv).
    rewrite !mark_price_other by discriminate.
    rewrite Hq. reflexivity.
  - exfalso. apply N. intros k.
    rewrite !dom_insert, (mark_price_dom _ _ Hpv).
    rewrite !elem_of_union, !elem_of_singleton.
    intros [->|[->|[->|Hk]]]; [| | |exact (Hdom k Hk)];
      unfold fieldnames; rewrite elem_of_list_to_set;
      repeat first [apply list_elem_of_here | apply list_elem_of_further].
Qed.

Lemma add_item_ok (item : payload) (fs : files) (q pv : pyval) (n : Z)
    (x p : PyFloat.float) (ids : list Z) :
  addable item fs q pv n x p ids -> 10 <= n ->
  let next := PyInt.format_03 (max_default0 ids + 1) in
  add_item item fs
  = (Ok ("Item added", next),
     mk_files (DATA_FILE fs ++ [added_row item next q pv x p])
              (SALES_FILE fs)).
Proof.
  intros (Hq & Hn & Hpv & Hp & Hx & Hids & Hdom) Hmin next.
  unfold add_item, getitem, replace_marker, float_of_string, investment,
    int_mul_float.
  monad_simpl. rewrite Hq. cbv beta iota. rewrite Hn.
  destruct (Z.ltb_spec n 10) as [?|_]; [lia|].
  rewrite Hpv. cbv beta iota zeta.
  rewrite (mark_price_price _ _ Hpv). cbv beta iota. rewrite Hp.
  rewrite mark_price_other by discriminate.
  rewrite Hq. cbv beta iota. rewrite Hn, Hx, (next_id_spec _ _ Hids).
  cbv beta iota.
  rewrite (dict_to_row_added _ _ _ _ _ Hq Hpv Hdom). reflexivity.
Qed.

(** Every outcome of [add_item]. *)
Lemma add_item_spec (item : payload) (fs : files) :
  match add_item item fs with
  | (Ok (msg, next), fs') =>
      exists q pv n x p ids,
        addable item fs q pv n x p ids /\ 10 <= n
        /\ msg = "Item added"
        /\ next = PyInt.format_03 (max_default0 ids + 1)
        /\ fs' = mk_files (DATA_FILE fs ++ [added_row item next q pv x p])
                   (SALES_FILE fs)
  | (Raise _, fs') => fs' = fs
  end.
Proof.
  unfold add_item, getitem, replace_marker, float_of_string, investment,
    int_mul_float.
  monad_simpl.
  destruct (item !! "quantity") as [q|] eqn:Hq; [|reflexivity].
  destruct (py_int q) as [n|] eqn:Hn; [|reflexivity].
  destruct (Z.ltb_spec n 10) as [?|Hmin]; [reflexivity|].
  destruct (item !! "price") as [pv|] eqn:Hpv; [|reflexivity].
  cbv zeta. rewrite (mark_price_price _ _ Hpv).
  destruct (PyFloat.of_str _) as [p|] eqn:Hp; [|reflexivity].
  rewrite mark_price_other by discriminate. rewrite Hq, Hn.
  destruct (PyFloat.of_Z n) as [x|] eqn:Hx; [|reflexivity].
  destruct (next_id (DATA_FILE fs)) as [next|] eqn:Hnext; [|reflexivity].
  destruct (dict_to_row _) as [r|] eqn:Hrow; [|reflexivity].
  assert (Hdom : dom item ⊆ list_to_set fieldnames).
  { unfold dict_to_row in Hrow. destruct (decide _) as [S|_]; [|discriminate].
    clear Hrow. intros k Hk. apply S.
    rewrite !dom_insert, (mark_price_dom _ _ Hpv), !elem_of_union. auto. }
  rewrite (dict_to_row_added _ _ _ _ _ Hq Hpv Hdom) in Hrow.
  injection Hrow as <-.
  assert (exists ids, int_ids (DATA_FILE fs) = Ok ids
                      /\ next = PyInt.format_03 (max_default0 ids + 1))
    as (ids & Hids & ->).
  { unfold next_id in Hnext. destruct (DATA_FILE fs) as [|i l] eqn:El.
    - injection Hnext as <-. exists []. split; reflexivity.
    - destruct (int_ids (i :: l)) as [ids|]; [|discriminate].
      injection Hnext as <-. exists ids. split; reflexivity. }
  exists q, pv, n, x, p, ids. unfold addable, added_row. auto 12.
Qed.

Lemma update_body_spec (item : payload) (r : row) (fs : files) :
  match update_body item r fs with
  | (Ok r', fs') =>
      exists n x p, updatable item r n x p
                    /\ r' = updated_row item r x p /\ fs' = fs
  | (Raise _, fs') => fs' = fs
  end.
Proof.
  unfold update_body, float_of_string, int_of_string, py_int, investment,
    int_mul_float.
  monad_simpl.
  fold (new_price item r). fold (new_quantity item r).
  fold (new_name item r).
  destruct (PyFloat.of_str _) as [p|] eqn:Hp; [|reflexivity].
  destruct (PyInt.of_str _) as [n|] eqn:Hn; [|reflexivity].
  destruct (PyFloat.of_Z n) as [x|] eqn:Hx; [|reflexivity].
  exists n, x, p. unfold updatable. auto.
Qed.

(** Every outcome of [update_item]. *)
Lemma update_item_spec (item_id : string) (item : payload) (fs : files) :
  match update_item item_id item fs with
  | (Ok msg, fs') =>
      exists pre r post n x p,
        first_match item_id (DATA_FILE fs) pre r post
        /\ updatable item r n x p
        /\ msg = "Item updated"
        /\ fs' = mk_files (pre ++ updated_row item r x p :: post)
                   (SALES_FILE fs)
  | (Raise e, fs') =>
      fs' = fs
      /\ (Forall (fun i => i_id i <> item_id) (DATA_FILE fs) ->
          e = RecordNotFound)
  end.
Proof.
  unfold update_item.
  unfold bind at 1, read_items at 1. unfold bind at 1.
  destruct (first_match_dec item_id (DATA_FILE fs))
    as [Hnone|(pre & r & post & Hm)].
  - rewrite for_first_none by assumption. cbn. auto.
  - rewrite (for_first_split _ _ _ _ _ _ _ Hm).
    pose proof (update_body_spec item r fs) as Hb.
    destruct (update_body item r fs) as [[r'|e] fs'].
    + destruct Hb as (n & x & p & Hu & -> & ->).
      cbn [fst snd negb]. monad_simpl.
      exists pre, r, post, n, x, p. auto.
    + split; [exact Hb|]. intros Hnone. exfalso.
      destruct Hm as (E & Hr & _). rewrite E in Hnone.
      apply Forall_app in Hnone as [_ Hnone].
      inversion Hnone; subst. contradiction.
Qed.

End AddUpdate.

(** ** Identifiers *)

Section Identifiers.
Import PyStr PyInt.

Lemma int_ids_Forall2 (items : list row) (ids : list Z) :
  Forall2 (fun i z => of_str (i_id i) = Some z) items ids
  <-> int_ids items = Ok ids.
Proof.
  split.
  - induction 1 as [|i z items ids Hi _ IH]; [reflexivity|].
    cbn [int_ids int_of_string py_int]. rewrite Hi, IH. reflexivity.
  - revert ids. induction items as [|i items IH]; intros ids H.
    + injection H as <-. constructor.
    + cbn [int_ids int_of_string py_int] in H.
      destruct (of_str (i_id i)) as [z|] eqn:Hz; [|discriminate].
      destruct (int_ids items) as [l|]; [|discriminate].
      injection H as <-. constructor; auto.
Qed.

Lemma fold_max_ge (l : list Z) (a : Z) :
  a <= fold_left Z.max l a /\ forall z, z ∈ l -> z <= fold_left Z.max l a.
Proof.
  revert a. induction l as [|b l IH]; intros a; cbn [fold_left].
  - split; [lia|]. intros z Hz. inversion Hz.
  - destruct (IH (Z.max a b)) as [H1 H2]. split; [lia|].
    intros z [->|Hz]%elem_of_cons; [lia|auto].
Qed.

Lemma fold_max_in (l : list Z) (a : Z) :
  fold_left Z.max l a = a \/ fold_left Z.max l a ∈ l.
Proof.
  revert a. induction l as [|b l IH]; intros a; cbn [fold_left]; [auto|].
  destruct (IH (Z.max a b)) as [H|H].
  - rewrite H. destruct (Z.max_spec a b) as [[_ ->]|[_ ->]];
      [right; constructor|auto].
  - right. now constructor.
Qed.

(** [max_default0] is the greatest element, and 0 on the empty list. *)
Lemma max_default0_spec (l : list Z) :
  (l = [] -> max_default0 l = 0)
  /\ (forall z, z ∈ l -> z <= max_default0 l)
  /\ (l <> [] -> max_default0 l ∈ l).
Proof.
  destruct l as [|a l]; cbn [max_default0].
  - repeat split; [intros z Hz; inversion Hz|congruence].
  - destruct (fold_max_ge l a) as [H1 H2].
    repeat split; [congruence| |].
    + intros z [->|Hz]%elem_of_cons; auto.
    + intros _. destruct (fold_max_in l a) as [->|H];
        [constructor|now constructor].
Qed.

Lemma digit_val_bound (c : ascii) :
  is_digit c = true -> 0 <= digit_val c <= 9.
Proof.
  unfold is_digit, digit_val. intros [H1 H2]%andb_true_iff.
  apply Z.leb_le in H1. apply Z.leb_le in H2. lia.
Qed.

(** A run of [k] digits read on top of [acc] stays below
    [(acc + 1) * 10 ^ k]. *)
Lemma digits_bound (s : string) (acc v : Z) :
  all_chars is_digit s = true -> 0 <= acc ->
  digits acc false s = Some v ->
  v < (acc + 1) * 10 ^ Z.of_nat (String.length s).
Proof.
  revert acc. induction s as [|c s IH]; intros acc Hd Hacc H.
  - cbn in *. injection H as <-. lia.
  - cbn [all_chars] in Hd. apply andb_true_iff in Hd as [Hc Hs].
    cbn [digits] in H. rewrite Hc in H.
    pose proof (digit_val_bound c Hc) as Hb.
    apply IH in H; [|assumption|lia].
    cbn [String.length]. rewrite Nat2Z.inj_succ, Z.pow_succ_r by lia.
    nia.
Qed.

Lemma text_length_ge4 (n : Z) :
  999 < n -> (4 <= String.length (to_str n))%nat.
Proof.
  intros Hn. destruct n as [|p|p]; try lia. cbn [to_str].
  pose proof (digits_of_uint (Pos.to_uint p)) as H.
  rewrite Unsigned.of_to in H. cbn [Z.of_N] in H.
  apply digits_bound in H; [|apply string_of_uint_digits|lia].
  destruct (le_lt_dec 4 (String.length
              (NilEmpty.string_of_uint (Pos.to_uint p)))) as [?|Hlt];
    [assumption|exfalso].
  assert (10 ^ Z.of_nat (String.length
            (NilEmpty.string_of_uint (Pos.to_uint p))) <= 10 ^ 3)
    by (apply Z.pow_le_mono_r; lia).
  lia.
Qed.

(** Beyond 999 the format [03] adds nothing. *)
Lemma format_03_large (n : Z) : 999 < n -> format_03 n = to_str n.
Proof.
  intros Hn. unfold format_03.
  destruct (Z.ltb_spec n 0) as [?|_]; [lia|].
  unfold zfill. pose proof (text_length_ge4 n Hn) as Hl.
  replace (3 - String.length (to_str n))%nat with 0%nat by lia.
  reflexivity.
Qed.

(** Up to 999 the result has three characters. *)
Lemma format_03_small (n : Z) :
  0 <= n <= 999 -> String.length (format_03 n) = 3%nat.
Proof.
  intros Hn.
  assert (H : forallb
                (fun k => Nat.eqb (String.length (format_03 (Z.of_nat k))) 3)
                (seq 0 1000) = true) by (vm_compute; reflexivity).
  rewrite forallb_forall in H.
  specialize (H (Z.to_nat n)). rewrite Z2Nat.id in H by lia.
  apply Nat.eqb_eq, H, in_seq. lia.
Qed.

Lemma all_chars_zeros (k : nat) : all_chars is_digit (zeros k) = true.
Proof. induction k; cbn; auto. Qed.

Lemma digits_zeros (k : nat) (s : string) :
  digits 0 false (String.append (zeros k) s) = digits 0 false s.
Proof. induction k as [|k IH]; [reflexivity|exact IH]. Qed.

Lemma unsigned_digits (s : string) :
  all_chars is_digit s = true -> s <> "" -> unsigned s = digits 0 false s.
Proof.
  intros H N. destruct s as [|c s]; [congruence|].
  cbn in H. apply andb_true_iff in H as [Hc _].
  unfold unsigned. now rewrite Hc.
Qed.

Lemma text_digits (n : Z) :
  0 <= n -> all_chars is_digit (to_str n) = true
            /\ to_str n <> "" /\ digits 0 false (to_str n) = Some n.
Proof.
  intros Hn. destruct n as [|p|p]; try lia.
  - repeat split; discriminate.
  - cbn [to_str]. pose proof (digits_of_uint (Pos.to_uint p)) as H.
    rewrite Unsigned.of_to in H. repeat split;
      [apply string_of_uint_digits| |exact H].
    pose proof (to_uint_not_nil p).
    destruct (Pos.to_uint p); congruence || discriminate.
Qed.

Lemma unsigned_zfill (w : nat) (n : Z) :
  0 <= n -> all_chars is_digit (zfill w (to_str n)) = true
            /\ unsigned (zfill w (to_str n)) = Some n.
Proof.
  intros Hn. destruct (text_digits n Hn) as (Hd & Hne & Hv).
  unfold zfill.
  assert (Ha : all_chars is_digit
                 (String.append (zeros (w - String.length (to_str n)))
                                (to_str n)) = true)
    by now rewrite all_chars_app, all_chars_zeros, Hd.
  split; [exact Ha|].
  rewrite unsigned_digits; [now rewrite digits_zeros|exact Ha|].
  destruct (zeros _); [exact Hne|discriminate].
Qed.

(** The identifier reads back as the number it was made from. *)
Lemma of_str_format_03 (n : Z) : of_str (format_03 n) = Some n.
Proof.
  unfold format_03. destruct (Z.ltb_spec n 0) as [Hneg|Hpos].
  - destruct (unsigned_zfill 2 (- n)) as [Hd Hu]; [lia|].
    unfold of_str, strip_with.
    rewrite lstrip_id by reflexivity.
    rewrite rstrip_id.
    + rewrite Hu. cbn. f_equal. lia.
    + cbn [all_chars]. apply andb_true_iff; split; [reflexivity|].
      eapply all_chars_impl; [apply digit_not_space|exact Hd].
  - destruct (unsigned_zfill 3 n Hpos) as [Hd Hu].
    rewrite of_str_digits by exact Hd. exact Hu.
Qed.

End Identifiers.

Section AddUpdateClaims.
Import PyStr.

(** C4 (amended): a quantity that converts to an integer below 10 is
    refused with "Quantity must be 10 or more" and the files stay.  From
    10 on, when the quantity is whole (an integer or the text of one, so
    that the stored quantity reads as the same number), the price
    without its marker is a number, the quantity fits a float, the
    stored ids are integers and the payload has no key outside the
    columns, the row is appended: its quantity reads as the number
    given, its price starts with the marker (prepended when it was
    absent), its investment is [round(quantity * unitPrice, 2)] of that
    quantity, its sold counter is 0, and the answer carries the new
    id. *)
Theorem add_item_minimum_quantity (item : payload) (fs : files) (q : pyval)
    (n : Z) :
  item !! "quantity" = Some q -> py_int q = Ok n ->
  (n < 10 ->
   add_item item fs
   = (Raise QuantityBelowMinimum, fs))
  /\ (10 <= n ->
      PyInt.of_str (csv_field q) = Some n ->
      forall (pv : pyval) (x p : PyFloat.float) (ids : list Z),
        item !! "price" = Some pv ->
        PyFloat.of_str (remove_char "$" (py_str pv)) = Some p ->
        PyFloat.of_Z n = Some x ->
        Forall2 (fun i z => PyInt.of_str (i_id i) = Some z)
                (DATA_FILE fs) ids ->
        dom item ⊆ list_to_set fieldnames ->
        let next := PyInt.format_03 (max_default0 ids + 1) in
        let price := if startswith "$" (py_str pv) then py_str pv
                     else String "$" (py_str pv) in
        let r :=
          mk_row next
            match item !! "name" with Some v => csv_field v | None => "" end
            (csv_field q) price
            (PyFloat.to_str (PyFloat.round2 (PyFloat.mul x p))) "0" in
        add_item item fs
        = (Ok ("Item added", next),
           mk_files (DATA_FILE fs ++ [r]) (SALES_FILE fs))
        /\ PyInt.of_str (i_quantity r) = Some n
        /\ startswith "$" price = true).
Proof.
  intros Hq Hn. split.
  - intros Hlt. unfold add_item, getitem. monad_simpl.
    rewrite Hq. cbv beta iota. rewrite Hn.
    destruct (Z.ltb_spec n 10) as [_|?]; [reflexivity|lia].
  - intros Hmin Hwhole pv x p ids Hpv Hp Hx Hids Hdom next price r.
    apply int_ids_Forall2 in Hids. split; [|split].
    + apply (add_item_ok item fs q pv n x p ids); [|exact Hmin].
      unfold addable. rewrite remove_with_marker. auto 10.
    + exact Hwhole.
    + apply with_marker_starts.
Qed.

Lemma add_item_minimum_quantity_witness :
  add_item few_nuts demo
  = (Raise QuantityBelowMinimum, demo)
  /\ add_item new_nut demo
     = (Ok ("Item added", "004"),
        mk_files [widget; bolt; broken;
                  mk_row "004" "Nut" "10" "$0.5" "5.0" "0"] []).
Proof.
  split.
  - exact (proj1 (add_item_minimum_quantity few_nuts demo (PInt 9) 9
                    eq_refl eq_refl) eq_refl).
  - assert (Hids : Forall2 (fun i z => PyInt.of_str (i_id i) = Some z)
                     (DATA_FILE demo) [1; 2; 3])
      by (repeat constructor).
    assert (Hdom : dom new_nut ⊆ list_to_set fieldnames)
      by (apply (bool_decide_eq_true_1 _); vm_compute; reflexivity).
    assert (Hmin : 10 <= 10) by discriminate.
    exact (proj1 (proj2 (add_item_minimum_quantity new_nut demo (PInt 10) 10
                           eq_refl eq_refl)
                    Hmin eq_refl (PStr "0.5") (float_of "10")
                    (float_of "0.5") [1; 2; 3] eq_refl eq_refl eq_refl
                    Hids Hdom)).
Defined.

(** C4, as stated, fails from 10 on.  With a price that is no number
    [float] raises and nothing is added.  With the quantity 10.5 and the
    price 0.5 the row is added, with the quantity 10.5 and the investment
    5.0 of ten units, where [round(10.5 * 0.5, 2)] is 5.25.  A quantity
    beyond the floats, a stored id that is no integer and a key that is
    no column each end the request with nothing added. *)
Lemma add_item_from_ten_fails :
  (unpriced_nut !! "quantity" = Some (PInt 10)
   /\ add_item unpriced_nut demo = (Raise ValueError, demo))
  /\ (half_nut !! "quantity" = Some (PFloat (float_of "10.5"))
      /\ half_nut !! "price" = Some (PStr "0.5")
      /\ add_item half_nut demo
         = (Ok ("Item added", "004"),
            mk_files [widget; bolt; broken;
                      mk_row "004" "Nut" "10.5" "$0.5" "5.0" "0"] [])
      /\ PyFloat.to_str
           (PyFloat.round2 (PyFloat.mul (float_of "10.5") (float_of "0.5")))
         = "5.25")
  /\ (huge_nut !! "quantity" = Some (PInt (10 ^ 400))
      /\ add_item huge_nut demo = (Raise OverflowError, demo))
  /\ (new_nut !! "quantity" = Some (PInt 10)
      /\ add_item new_nut lettered = (Raise ValueError, lettered))
  /\ (tagged_nut !! "quantity" = Some (PInt 10)
      /\ add_item tagged_nut demo = (Raise ValueError, demo)).
Proof. repeat split; vm_compute; reflexivity. Qed.

(** C5: when every stored id reads as an integer, the id that [add_item]
    assigns is the greatest of them (0 for an empty inventory) plus one,
    in the format [03]: three characters up to 999, the plain digits
    beyond, and it reads back as that number.  With the ids 001, 002 and
    005 the next id is 006; on an empty inventory it is 001. *)
Theorem next_id_max_plus_one (items : list row) (ids : list Z) :
  Forall2 (fun i z => PyInt.of_str (i_id i) = Some z) items ids ->
  let n := max_default0 ids + 1 in
  next_id items = Ok (PyInt.format_03 n)
  /\ (ids = [] -> n = 1)
  /\ (forall z, z ∈ ids -> z < n)
  /\ (ids <> [] -> n - 1 ∈ ids)
  /\ (forall item sales msg next fs',
        add_item item (mk_files items sales) = (Ok (msg, next), fs') ->
        next = PyInt.format_03 n
        /\ exists r, DATA_FILE fs' = items ++ [r] /\ i_id r = next)
  /\ PyInt.of_str (PyInt.format_03 n) = Some n
  /\ (0 <= n <= 999 -> String.length (PyInt.format_03 n) = 3%nat)
  /\ (999 < n -> PyInt.format_03 n = PyInt.to_str n)
  /\ next_id [] = Ok "001"
  /\ next_id [mk_row "001" "a" "10" "$1" "10.0" "0";
              mk_row "002" "b" "10" "$1" "10.0" "0";
              mk_row "005" "c" "10" "$1" "10.0" "0"] = Ok "006".
Proof.
  intros Hids n. apply int_ids_Forall2 in Hids.
  destruct (max_default0_spec ids) as (Hempty & Hge & Hin).
  split; [apply next_id_spec, Hids|].
  split; [intros E; subst n; rewrite (Hempty E); reflexivity|].
  split; [intros z Hz; specialize (Hge z Hz); lia|].
  split; [intros N; replace (n - 1) with (max_default0 ids) by lia; auto|].
  split.
  { intros item sales msg next fs' H.
    pose proof (add_item_spec item (mk_files items sales)) as Hs.
    rewrite H in Hs.
    destruct Hs as (q & pv & k & x & p & ids' & Ha & _ & _ & -> & ->).
    destruct Ha as (_ & _ & _ & _ & _ & Hids' & _).
    cbn [DATA_FILE] in Hids'. rewrite Hids in Hids'.
    injection Hids' as <-. split; [reflexivity|].
    eexists. split; reflexivity. }
  split; [apply of_str_format_03|].
  split; [apply format_03_small|].
  split; [apply format_03_large|].
  split; reflexivity.
Qed.

Lemma next_id_max_plus_one_witness :
  next_id (DATA_FILE demo) = Ok "004".
Proof.
  assert (Hids : Forall2 (fun i z => PyInt.of_str (i_id i) = Some z)
                   (DATA_FILE demo) [1; 2; 3])
    by (repeat constructor).
  exact (proj1 (next_id_max_plus_one (DATA_FILE demo) [1; 2; 3] Hids)).
Defined.

(** C6 (amended): without a row of the given id the update is refused
    with "Item not found" and the files stay.  Otherwise the first such
    row takes the supplied name, quantity and price and keeps the omitted
    ones, the price with its marker; when the resulting quantity is an
    integer that fits a float and the resulting price without the marker
    a number, the update succeeds and the investment is
    [round(quantity * unitPrice, 2)] of the resulting quantity and price,
    whatever it was before; the sold counter and the id stay. *)
Theorem update_item_recomputes (item_id : string) (item : payload)
    (fs : files) :
  (Forall (fun i => i_id i <> item_id) (DATA_FILE fs) ->
   update_item item_id item fs
   = (Raise RecordNotFound, fs))
  /\ (forall (pre : list row) (r : row) (post : list row) (n : Z)
             (x p : PyFloat.float),
        first_match item_id (DATA_FILE fs) pre r post ->
        let name := match item !! "name" with
                    | Some v => csv_field v
                    | None => i_name r
                    end in
        let quantity := match item !! "quantity" with
                        | Some v => py_str v
                        | None => i_quantity r
                        end in
        let price := with_marker match item !! "price" with
                                 | Some v => py_str v
                                 | None => i_price r
                                 end in
        PyInt.of_str quantity = Some n ->
        PyFloat.of_str (remove_char "$" price) = Some p ->
        PyFloat.of_Z n = Some x ->
        update_item item_id item fs
        = (Ok "Item updated",
           mk_files
             (pre ++ mk_row (i_id r) name quantity price
                       (PyFloat.to_str (PyFloat.round2 (PyFloat.mul x p)))
                       (i_sold r) :: post)
             (SALES_FILE fs))
        /\ startswith "$" price = true).
Proof.
  split.
  - intros Hnone. unfold update_item.
    unfold bind at 1, read_items at 1. unfold bind at 1.
    rewrite for_first_none by assumption. reflexivity.
  - intros pre r post n x p Hm name quantity price Hn Hp Hx.
    split; [|apply with_marker_starts].
    unfold update_item.
    unfold bind at 1, read_items at 1. unfold bind at 1.
    rewrite (for_first_split _ _ _ _ _ _ _ Hm).
    unfold update_body, float_of_string, int_of_string, py_int, investment,
      int_mul_float.
    monad_simpl.
    change (with_marker (from_option py_str (i_price r)
                                     (item !! "price"))) with price.
    change (from_option py_str (i_quantity r) (item !! "quantity"))
      with quantity.
    rewrite Hp. cbv beta iota. rewrite Hn. cbv beta iota. rewrite Hx.
    reflexivity.
Qed.

Lemma update_item_recomputes_witness :
  update_item "001" restock demo
  = (Ok "Item updated",
     mk_files [mk_row "001" "Widget" "50" "$2.5" "125.0" "0"; bolt; broken]
              []).
Proof.
  assert (Hm : first_match "001" (DATA_FILE demo) [] widget [bolt; broken])
    by (repeat split; constructor).
  exact (proj1 (proj2 (update_item_recomputes "001" restock demo)
                  [] widget [bolt; broken] 50 (float_of "50")
                  (float_of "2.5") Hm eq_refl eq_refl eq_refl)).
Defined.

(** C6, as stated, fails: the row exists and a price is supplied, but it
    is not a number, so [float] raises and the row keeps its price. *)
Lemma update_item_price_not_numeric :
  first_match "001" (DATA_FILE demo) [] widget [bolt; broken]
  /\ reprice !! "price" = Some (PStr "abc")
  /\ update_item "001" reprice demo = (Raise ValueError, demo).
Proof. repeat split; constructor. Qed.

End AddUpdateClaims.

(** ** Deleting, searching, and the rows a request leaves alone *)

Section Frame.
Import PyStr.

Lemma filter_same_length {A} (P : A -> Prop) `{!forall x, Decision (P x)}
    (l : list A) :
  length (filter P l) = length l -> filter P l = l.
Proof.
  induction l as [|a l IH]; [reflexivity|].
  rewrite filter_cons. destruct (decide (P a)) as [_|_]; cbn [length].
  - intros Hl. f_equal. apply IH. lia.
  - pose proof (length_filter P l). lia.
Qed.

(** Every outcome of [delete_item]: the inventory is filtered, and the
    request is refused exactly when that changes nothing. *)
Lemma delete_item_spec (item_id : string) (fs : files) :
  let kept := filter (fun i => i_id i <> item_id) (DATA_FILE fs) in
  delete_item item_id fs
  = if decide (kept = DATA_FILE fs)
    then (Raise RecordNotFound, fs)
    else (Ok "Item deleted", mk_files kept (SALES_FILE fs)).
Proof.
  intros kept. unfold delete_item. monad_simpl. fold kept.
  destruct (Nat.eqb_spec (length kept) (length (DATA_FILE fs))) as [E|N].
  - apply filter_same_length in E. fold kept in E.
    destruct (decide _); [reflexivity|contradiction].
  - destruct (decide _) as [E|_]; [|reflexivity].
    rewrite E in N. contradiction.
Qed.

(** C9: [update_item] and [sell_item] either leave the inventory as it
    was or replace the first row with the given id, every row before and
    after it staying as it was, later rows of the same id included;
    [delete_item] keeps exactly the rows with another id, in order. *)
Theorem only_first_match_changes (item_id : string) (fs : files) :
  (forall item : payload,
     let fs' := snd (update_item item_id item fs) in
     DATA_FILE fs' = DATA_FILE fs
     \/ exists pre r post r',
          first_match item_id (DATA_FILE fs) pre r post
          /\ DATA_FILE fs' = pre ++ r' :: post)
  /\ (forall (today : date) (data : payload),
        let fs' := snd (sell_item today item_id data fs) in
        DATA_FILE fs' = DATA_FILE fs
        \/ exists pre r post r',
             first_match item_id (DATA_FILE fs) pre r post
             /\ DATA_FILE fs' = pre ++ r' :: post)
  /\ (let fs' := snd (delete_item item_id fs) in
      DATA_FILE fs' = filter (fun i => i_id i <> item_id) (DATA_FILE fs)
      /\ forall i, i ∈ DATA_FILE fs' <-> i ∈ DATA_FILE fs
                                         /\ i_id i <> item_id).
Proof.
  split; [|split].
  - intros item fs'. subst fs'.
    pose proof (update_item_spec item_id item fs) as H.
    destruct (update_item item_id item fs) as [[msg|e] fs'].
    + destruct H as (pre & r & post & n & x & p & Hm & _ & _ & ->).
      right. exists pre, r, post. eexists. split; [exact Hm|reflexivity].
    + destruct H as [-> _]. left. reflexivity.
  - intros today data fs'. subst fs'.
    pose proof (sell_item_spec today item_id data fs) as H.
    destruct (sell_item today item_id data fs) as [[msg|e] fs'].
    + destruct H as (v & s & pre & r & post & q & sd & ti & sf & p
                     & _ & _ & _ & Hm & _ & _ & ->).
      right. exists pre, r, post. eexists. split; [exact Hm|reflexivity].
    + subst fs'. left. reflexivity.
  - intros fs'. subst fs'. rewrite delete_item_spec.
    assert (Hk : forall l : list row,
               l = filter (fun i => i_id i <> item_id) (DATA_FILE fs) ->
               forall i, i ∈ l <-> i ∈ DATA_FILE fs /\ i_id i <> item_id).
    { intros l -> i. rewrite list_elem_of_filter. tauto. }
    destruct (decide _) as [E|_]; cbn [snd DATA_FILE]; auto.
Qed.

(** Two rows share the id: only the first one is sold from or updated,
    both are deleted. *)
Lemma only_first_match_changes_witness :
  DATA_FILE (snd (sell_item may2 "001" sell3 twins))
  = [mk_row "001" "Widget" "17" "$2.5" "42.5" "3"; twin; bolt]
  /\ DATA_FILE (snd (update_item "001" restock twins))
     = [mk_row "001" "Widget" "50" "$2.5" "125.0" "0"; twin; bolt]
  /\ DATA_FILE (snd (delete_item "001" twins)) = [bolt].
Proof.
  destruct (only_first_match_changes "001" twins) as (_ & _ & Hd & _).
  split; [reflexivity|]. split; [reflexivity|]. exact Hd.
Defined.

Lemma contains_empty (s : string) : contains "" s = true.
Proof. destruct s; reflexivity. Qed.

Lemma filter_all {A} (f : A -> bool) (l : list A) :
  (forall a, f a = true) -> List.filter f l = l.
Proof.
  intros H. induction l as [|a l IH]; [reflexivity|].
  cbn. now rewrite H, IH.
Qed.

(** C10: the empty query returns every row, in the order of the file;
    whatever the query, the search returns rows and leaves the files as
    they were. *)
Theorem search_empty_query (fs : files) :
  search_items "" fs = (Ok (DATA_FILE fs), fs)
  /\ forall query, exists found,
       search_items query fs = (Ok found, fs)
       /\ found = List.filter
                    (fun i => contains (lower query) (lower (i_name i))
                              || contains (lower query) (lower (i_id i)))
                    (DATA_FILE fs).
Proof.
  split.
  - unfold search_items. monad_simpl. cbn [lower].
    rewrite filter_all; [reflexivity|].
    intros i. now rewrite contains_empty.
  - intros query. eexists. split; reflexivity.
Qed.

End Frame.

(** ** The order of strings *)

Section StringOrder.

Lemma compare_le_trans (a b c : string) :
  String.compare a b <> Gt -> String.compare b c <> Gt ->
  String.compare a c <> Gt.
Proof.
  revert b c. induction a as [|x a IH]; intros [|y b] [|z c]; cbn;
    try congruence.
  unfold Ascii.compare.
  destruct (N.compare_spec (N_of_ascii x) (N_of_ascii y)) as [E1|L1|G1];
    destruct (N.compare_spec (N_of_ascii y) (N_of_ascii z)) as [E2|L2|G2];
    try congruence; intros H1 H2.
  - rewrite E1, E2, N.compare_refl. eauto.
  - rewrite E1. apply N.compare_lt_iff in L2. now rewrite L2.
  - rewrite <- E2. apply N.compare_lt_iff in L1. now rewrite L1.
  - assert (L : (N_of_ascii x < N_of_ascii z)%N) by lia.
    apply N.compare_lt_iff in L. now rewrite L.
Qed.

#[global] Instance str_le_trans : Transitive str_le.
Proof.
  intros a b c. unfold str_le, String.leb. intros H1 H2.
  pose proof (compare_le_trans a b c) as H.
  destruct (String.compare a b); try discriminate;
    destruct (String.compare b c); try discriminate;
    destruct (String.compare a c); try reflexivity;
    exfalso; apply H; congruence.
Qed.

#[global] Instance str_le_total : Total str_le.
Proof. intros a b. apply String.leb_total. Qed.

Lemma str_le_lt (a b : string) : str_le a b -> a <> b -> str_lt a b.
Proof.
  unfold str_le, str_lt, String.leb, String.ltb. intros H N.
  destruct (String.compare a b) eqn:E; try reflexivity; try discriminate.
  apply String.compare_eq_iff in E. contradiction.
Qed.

Lemma str_lt_irrefl (a : string) : ~ str_lt a a.
Proof.
  unfold str_lt, String.ltb.
  assert (E : String.compare a a = Eq).
  { induction a as [|c a IH]; [reflexivity|]. cbn.
    unfold Ascii.compare. now rewrite N.compare_refl. }
  rewrite E. discriminate.
Qed.

Lemma sorted_strict (l : list string) :
  NoDup l -> StronglySorted str_lt (sorted l).
Proof.
  intros Hnd. unfold sorted.
  assert (Hs : StronglySorted str_le (merge_sort str_le l))
    by apply (StronglySorted_merge_sort _).
  assert (Hn : NoDup (merge_sort str_le l))
    by now rewrite merge_sort_Permutation.
  induction Hs as [|a k Hk IH Ha]; [constructor|].
  apply NoDup_cons in Hn as [Hnot Hn]. constructor; [auto|].
  rewrite Forall_forall in *. intros b Hb.
  apply str_le_lt; [auto|]. intros ->. contradiction.
Qed.

Lemma sorted_lookup_lt {A} (R : relation A) (l : list A) (i j : nat)
    (x y : A) :
  StronglySorted R l -> l !! i = Some x -> l !! j = Some y -> (i < j)%nat ->
  R x y.
Proof.
  intros Hs. revert i j. induction Hs as [|a l _ IH Ha]; intros i j Hi Hj Hlt.
  - discriminate Hi.
  - destruct j as [|j]; [lia|]. cbn in Hj. destruct i as [|i].
    + injection Hi as <-. rewrite Forall_forall in Ha.
      apply Ha. eapply list_elem_of_lookup_2, Hj.
    + cbn in Hi. apply (IH i j); [assumption..|lia].
Qed.

Lemma elem_of_sorted (l : list string) (d : string) :
  d ∈ sorted l <-> d ∈ l.
Proof. unfold sorted. now rewrite merge_sort_Permutation. Qed.

End StringOrder.

(** ** ISO dates sort as the calendar *)

Section IsoDates.
Import PyInt.

Lemma compare_app (a a' b b' : string) :
  String.length a = String.length a' ->
  String.compare (String.append a b) (String.append a' b')
  = match String.compare a a' with
    | Eq => String.compare b b'
    | c => c
    end.
Proof.
  revert a'. induction a as [|x a IH]; intros [|y a'] Hl;
    try discriminate Hl; [reflexivity|].
  injection Hl as Hl.
  change (String.compare (String x (String.append a b))
                         (String y (String.append a' b'))
          = match String.compare (String x a) (String y a') with
            | Eq => String.compare b b'
            | c => c
            end).
  cbn [String.compare].
  destruct (Ascii.compare x y); [apply IH, Hl|reflexivity..].
Qed.

(** Every number below [bound] passes the test [f]. *)
Lemma below_forall (bound : Z) (f : Z -> bool) :
  forallb (fun k => f (Z.of_nat k)) (seq 0 (Z.to_nat bound)) = true ->
  forall n, 0 <= n < bound -> f n = true.
Proof.
  intros H n Hn. rewrite forallb_forall in H.
  specialize (H (Z.to_nat n)). rewrite Z2Nat.id in H by lia.
  apply H, in_seq. lia.
Qed.

Lemma two_digits_length (n : Z) :
  0 <= n < 100 -> String.length (zfill 2 (to_str n)) = 2%nat.
Proof.
  intros Hn. apply Nat.eqb_eq.
  apply (below_forall 100
           (fun n => Nat.eqb (String.length (zfill 2 (to_str n))) 2));
    [vm_compute; reflexivity|lia].
Qed.

Lemma two_digits_compare (a b : Z) :
  0 <= a < 100 -> 0 <= b < 100 ->
  String.compare (zfill 2 (to_str a)) (zfill 2 (to_str b)) = (a ?= b).
Proof.
  intros Ha Hb.
  pose (same c d := match c, d with
                    | Eq, Eq | Lt, Lt | Gt, Gt => true
                    | _, _ => false
                    end).
  assert (H : same (String.compare (zfill 2 (to_str a))
                      (zfill 2 (to_str b))) (a ?= b) = true).
  { revert b Hb.
    apply (below_forall 100
             (fun a => forallb
                (fun k => same (String.compare (zfill 2 (to_str a))
                                  (zfill 2 (to_str (Z.of_nat k))))
                            (a ?= Z.of_nat k))
                (seq 0 (Z.to_nat 100)))) in Ha; [|vm_compute; reflexivity].
    intros b Hb.
    apply (below_forall 100
             (fun b => same (String.compare (zfill 2 (to_str a))
                               (zfill 2 (to_str b))) (a ?= b))); assumption. }
  destruct (String.compare _ _), (a ?= b); reflexivity || discriminate H.
Qed.

Lemma four_digits_split (y : Z) :
  0 <= y < 10000 ->
  zfill 4 (to_str y)
  = String.append (zfill 2 (to_str (y / 100))) (zfill 2 (to_str (y mod 100))).
Proof.
  intros Hy. apply String.eqb_eq.
  apply (below_forall 10000
           (fun y => String.eqb (zfill 4 (to_str y))
                       (String.append (zfill 2 (to_str (y / 100)))
                                      (zfill 2 (to_str (y mod 100))))));
    [vm_compute; reflexivity|lia].
Qed.

Lemma compare_hundreds (a b : Z) :
  (a ?= b)
  = match (a / 100 ?= b / 100) with
    | Eq => (a mod 100 ?= b mod 100)
    | c => c
    end.
Proof.
  pose proof (Z.div_mod a 100 ltac:(lia)) as Ea.
  pose proof (Z.div_mod b 100 ltac:(lia)) as Eb.
  pose proof (Z.mod_pos_bound a 100 ltac:(lia)) as Ba.
  pose proof (Z.mod_pos_bound b 100 ltac:(lia)) as Bb.
  destruct (Z.compare_spec (a / 100) (b / 100)) as [E|L|G].
  - destruct (Z.compare_spec (a mod 100) (b mod 100)) as [E'|L'|G'].
    + apply Z.compare_eq_iff. lia.
    + apply Z.compare_lt_iff. lia.
    + apply Z.compare_gt_iff. lia.
  - apply Z.compare_lt_iff. lia.
  - apply Z.compare_gt_iff. lia.
Qed.

Lemma four_digits_compare (a b : Z) :
  0 <= a < 10000 -> 0 <= b < 10000 ->
  String.compare (zfill 4 (to_str a)) (zfill 4 (to_str b)) = (a ?= b).
Proof.
  intros Ha Hb.
  assert (0 <= a / 100 < 100 /\ 0 <= b / 100 < 100) as [Hqa Hqb]
    by (split; split; try (apply Z.div_pos; lia);
        apply Z.div_lt_upper_bound; lia).
  pose proof (Z.mod_pos_bound a 100 ltac:(lia)) as Hra.
  pose proof (Z.mod_pos_bound b 100 ltac:(lia)) as Hrb.
  rewrite (four_digits_split a Ha), (four_digits_split b Hb).
  rewrite compare_app by now rewrite !two_digits_length.
  rewrite !two_digits_compare by assumption.
  symmetry. apply compare_hundreds.
Qed.

Lemma four_digits_length (y : Z) :
  0 <= y < 10000 -> String.length (zfill 4 (to_str y)) = 4%nat.
Proof.
  intros Hy. apply Nat.eqb_eq.
  apply (below_forall 10000
           (fun y => Nat.eqb (String.length (zfill 4 (to_str y))) 4));
    [vm_compute; reflexivity|lia].
Qed.

Lemma isoformat_compare (a b : date) :
  is_date a -> is_date b ->
  String.compare (isoformat a) (isoformat b)
  = match (year a ?= year b) with
    | Eq => match (month a ?= month b) with
            | Eq => (day a ?= day b)
            | c => c
            end
    | c => c
    end.
Proof.
  intros (Hy & Hm & Hd) (Hy' & Hm' & Hd'). unfold isoformat.
  rewrite compare_app by (rewrite !four_digits_length; lia).
  rewrite four_digits_compare by lia.
  destruct (year a ?= year b); try reflexivity.
  cbn [String.compare]. change (Ascii.compare "-" "-") with Eq. cbv iota.
  rewrite compare_app by (rewrite !two_digits_length; lia).
  rewrite two_digits_compare by lia.
  destruct (month a ?= month b); try reflexivity.
  cbn [String.compare]. change (Ascii.compare "-" "-") with Eq. cbv iota.
  apply two_digits_compare; lia.
Qed.

(** The text of an earlier day is the smaller string, and conversely. *)
Lemma isoformat_order (a b : date) :
  is_date a -> is_date b ->
  str_lt (isoformat a) (isoformat b) <-> date_lt a b.
Proof.
  intros Ha Hb. unfold str_lt, String.ltb, date_lt.
  rewrite (isoformat_compare a b Ha Hb).
  destruct (Z.compare_spec (year a) (year b)) as [Ey|Ly|Gy];
    [|split; [auto|reflexivity]|split; [discriminate|lia]].
  destruct (Z.compare_spec (month a) (month b)) as [Em|Lm|Gm];
    [|split; [auto|reflexivity]|split; [discriminate|lia]].
  destruct (Z.compare_spec (day a) (day b)) as [Ed|Ld|Gd];
    [split; [discriminate|lia]|split; [auto 6|reflexivity]
    |split; [discriminate|lia]].
Qed.

End IsoDates.

(** ** Sales by date *)

Section SalesByDate.

Lemma tally_dom (sales : gmap string Z) (date : string) (qty : Z) :
  dom (tally sales date qty) = {[ date ]} ∪ dom sales.
Proof.
  unfold tally. destruct (sales !! date) eqn:E.
  - apply dom_insert_L.
  - rewrite insert_insert_eq. apply dom_insert_L.
Qed.

Lemma tally_lookup (sales : gmap string Z) (date : string) (qty : Z)
    (d : string) :
  default 0 (tally sales date qty !! d)
  = default 0 (sales !! d) + (if String.eqb date d then qty else 0).
Proof.
  unfold tally. destruct (String.eqb_spec date d) as [->|N].
  - destruct (sales !! d) eqn:E; rewrite lookup_insert_eq;
      rewrite ?lookup_insert_eq, ?E; reflexivity.
  - rewrite lookup_insert_ne by assumption.
    destruct (sales !! date); [lia|].
    rewrite lookup_insert_ne by assumption. lia.
Qed.

Lemma sales_loop_spec (rows : list sale) (acc : gmap string Z) :
  ledger_ok rows ->
  exists sales,
    sales_loop rows acc = Ok sales
    /\ dom sales = dom acc ∪ list_to_set (map s_date rows)
    /\ forall d, default 0 (sales !! d)
                 = default 0 (acc !! d) + total_on d rows.
Proof.
  intros Hok. revert acc.
  induction Hok as [|r rows [q Hq] _ IH]; intros acc.
  - exists acc. split; [reflexivity|]. split.
    + cbn [map list_to_set]. now rewrite (right_id_L ∅ (∪)).
    + intros d. cbn [total_on]. lia.
  - cbn [sales_loop int_of_string py_int]. rewrite Hq.
    destruct (IH (tally acc (s_date r) q)) as (sales & -> & Hdom & Hl).
    exists sales. split; [reflexivity|]. split.
    + rewrite Hdom, tally_dom. cbn [map list_to_set].
      now rewrite (comm_L (∪) {[s_date r]}), (assoc_L (∪)).
    + intros d. rewrite Hl, tally_lookup. cbn [total_on].
      rewrite Hq. destruct (String.eqb (s_date r) d); cbn; lia.
Qed.

(** C7: on a ledger whose rows hold integer quantities, [sales_history]
    returns one pair per date of the ledger, the dates strictly ascending
    in the order of strings, each with the sum of the quantities sold on
    that date; the files stay.  The dates that [add_sale_record] writes
    are ISO dates, and of two of those the earlier day comes first. *)
Theorem sales_by_date (fs : files) :
  ledger_ok (SALES_FILE fs) ->
  exists chart,
    sales_history fs = (Ok chart, fs)
    /\ StronglySorted str_lt (map fst chart)
    /\ (forall d, d ∈ map fst chart
                  <-> exists r, r ∈ SALES_FILE fs /\ s_date r = d)
    /\ (forall d t, (d, t) ∈ chart -> t = total_on d (SALES_FILE fs))
    /\ (forall (i j : nat) (a b : date),
          is_date a -> is_date b ->
          map fst chart !! i = Some (isoformat a) ->
          map fst chart !! j = Some (isoformat b) ->
          (i < j)%nat -> date_lt a b).
Proof.
  intros Hok. unfold sales_history.
  destruct (sales_loop_spec _ ∅ Hok) as (sales & -> & Hdom & Hl).
  eexists. split; [reflexivity|].
  assert (Hfst : map fst (map (fun d => (d, default 0 (sales !! d)))
                            (sorted (elements (dom sales))))
                 = sorted (elements (dom sales))).
  { rewrite map_map. cbn. apply map_id. }
  rewrite Hfst. split; [|split; [|split]].
  - apply sorted_strict, NoDup_elements.
  - intros d. rewrite elem_of_sorted, elem_of_elements, Hdom.
    rewrite dom_empty_L, elem_of_union, elem_of_list_to_set.
    change (map s_date (SALES_FILE fs)) with (s_date <$> SALES_FILE fs).
    rewrite list_elem_of_fmap. split.
    + intros [H|(r & -> & Hr)]; [now apply not_elem_of_empty in H|eauto].
    + intros (r & Hr & <-). right. eauto.
  - intros d t Hin.
    apply list_elem_of_In, in_map_iff in Hin as (d' & [= -> <-] & _).
    rewrite Hl, lookup_empty. reflexivity.
  - intros i j a b Ha Hb Hi Hj Hlt. apply isoformat_order; [assumption..|].
    eapply sorted_lookup_lt; [|exact Hi|exact Hj|exact Hlt].
    apply sorted_strict, NoDup_elements.
Qed.

Lemma sales_by_date_witness :
  ledger_ok (SALES_FILE may_sales)
  /\ exists chart,
       sales_history may_sales = (Ok chart, may_sales)
       /\ StronglySorted str_lt (map fst chart)
       /\ (forall d, d ∈ map fst chart
                     <-> exists r, r ∈ SALES_FILE may_sales /\ s_date r = d)
       /\ (forall d t, (d, t) ∈ chart
                       -> t = total_on d (SALES_FILE may_sales))
       /\ (forall (i j : nat) (a b : date),
             is_date a -> is_date b ->
             map fst chart !! i = Some (isoformat a) ->
             map fst chart !! j = Some (isoformat b) ->
             (i < j)%nat -> date_lt a b).
Proof.
  assert (Hok : ledger_ok (SALES_FILE may_sales))
    by (repeat constructor; eexists; reflexivity).
  exact (conj Hok (sales_by_date may_sales Hok)).
Defined.

(** The sales of two days, the first day having one sale and the second
    two: one pair per day, the earlier day first. *)
Lemma sales_history_two_days :
  sales_history may_sales
  = (Ok [("2024-05-01", 7); ("2024-05-02", 4)], may_sales).
Proof. vm_compute. reflexivity. Qed.

(** Requests keep the ledger well formed, so [sales_history] answers after
    any requests on a ledger that started empty. *)
Lemma exec_ledger_ok (o : op) (fs : files) :
  ledger_ok (SALES_FILE fs) -> ledger_ok (SALES_FILE (exec o fs)).
Proof.
  intros Hok. destruct o as [item|item_id item|item_id|today item_id data];
    cbn [exec].
  - pose proof (add_item_spec item fs) as H.
    destruct (add_item item fs) as [[[msg next]|e] fs']; cbn [snd].
    + destruct H as (q & pv & n & x & p & ids & _ & _ & _ & _ & ->).
      exact Hok.
    + now subst fs'.
  - pose proof (update_item_spec item_id item fs) as H.
    destruct (update_item item_id item fs) as [[msg|e] fs']; cbn [snd].
    + destruct H as (pre & r & post & n & x & p & _ & _ & _ & ->). exact Hok.
    + destruct H as [-> _]. exact Hok.
  - rewrite delete_item_spec. destruct (decide _); exact Hok.
  - pose proof (sell_item_spec today item_id data fs) as H.
    destruct (sell_item today item_id data fs) as [[msg|e] fs']; cbn [snd].
    + destruct H as (v & s & pre & r & post & q & sd & ti & sf & p
                     & _ & _ & _ & _ & _ & _ & ->).
      cbn [SALES_FILE]. apply Forall_app. split; [exact Hok|].
      constructor; [|constructor]. exists s. apply of_str_to_str.
    + now subst fs'.
Qed.

Lemma run_ledger_ok (ops : list op) (fs : files) :
  ledger_ok (SALES_FILE fs) -> ledger_ok (SALES_FILE (run ops fs)).
Proof.
  revert fs. induction ops as [|o ops IH]; intros fs Hok; [exact Hok|].
  cbn [run]. apply IH, exec_ledger_ok, Hok.
Qed.

Lemma sales_history_after_run (ops : list op) (items : list row) :
  exists chart,
    sales_history (run ops (mk_files items []))
    = (Ok chart, run ops (mk_files items [])).
Proof.
  assert (Hok : ledger_ok (SALES_FILE (run ops (mk_files items []))))
    by (apply run_ledger_ok; constructor).
  unfold sales_history.
  destruct (sales_loop_spec _ ∅ Hok) as (sales & -> & _). eauto.
Qed.

End SalesByDate.

(** ** The sold counter over the life of a row *)

Section SoldCounter.

Lemma grows_refl (r : row) : grows r r.
Proof. split; [reflexivity|]. intros n H. exists n. split; [exact H|lia]. Qed.

Lemma grows_trans (a b c : row) : grows a b -> grows b c -> grows a c.
Proof.
  intros [Hi1 H1] [Hi2 H2]. split; [congruence|].
  intros n Hn. destruct (H1 n Hn) as (m & Hm & Hle).
  destruct (H2 m Hm) as (k & Hk & Hle'). exists k. split; [exact Hk|lia].
Qed.

Lemma middle_insert {A} (pre post : list A) (a b : A) :
  pre ++ b :: post = <[length pre := b]> (pre ++ a :: post).
Proof.
  rewrite insert_app_r_alt by reflexivity.
  now rewrite Nat.sub_diag.
Qed.

(** Replacing the middle row by a row related to it keeps every index
    pointing at a row related to what it pointed at. *)
Lemma middle_related (R : relation row) (pre post : list row)
    (a b : row) (k : nat) (r : row) :
  (forall c, R c c) -> R a b -> (pre ++ a :: post) !! k = Some r ->
  exists r', (pre ++ b :: post) !! k = Some r' /\ R r r'.
Proof.
  intros Hrefl Hg Hk. rewrite (middle_insert pre post a b).
  destruct (decide (k = length pre)) as [->|N].
  - rewrite list_lookup_middle in Hk by reflexivity. injection Hk as <-.
    exists b. split; [|exact Hg].
    apply list_lookup_insert_eq. rewrite length_app. cbn. lia.
  - exists r. split; [|apply Hrefl].
    rewrite list_lookup_insert_ne by congruence. exact Hk.
Qed.

Lemma middle_grows (pre post : list row) (a b : row) (k : nat) (r : row) :
  grows a b -> (pre ++ a :: post) !! k = Some r ->
  exists r', (pre ++ b :: post) !! k = Some r' /\ grows r r'.
Proof. apply (middle_related grows), grows_refl. Qed.

Lemma filter_lookup_take {A} (P : A -> Prop) `{!forall x, Decision (P x)}
    (l : list A) (k : nat) (a : A) :
  l !! k = Some a -> P a ->
  filter P l !! length (filter P (take k l)) = Some a.
Proof.
  intros Hk Ha.
  assert (E : filter P l
              = filter P (take k l) ++ a :: filter P (drop (S k) l)).
  { rewrite <- (take_drop_middle l k a Hk) at 1.
    now rewrite filter_app, filter_cons_True. }
  rewrite E. now apply list_lookup_middle.
Qed.

Lemma updated_grows (item : payload) (r : row) (x p : PyFloat.float) :
  grows r (updated_row item r x p).
Proof. split; [reflexivity|]. intros n H. exists n. split; [exact H|lia]. Qed.

Lemma sold_grows (r : row) (q s sd : Z) (ti sf p : PyFloat.float) :
  0 < s -> PyInt.of_str (i_sold r) = Some sd ->
  grows r (sold_row r q s sd ti sf p).
Proof.
  intros Hs Hsd. split; [reflexivity|]. intros n H.
  rewrite Hsd in H. injection H as <-.
  exists (sd + s). split; [apply of_str_to_str|lia].
Qed.

(** One request: the row at index [k] is deleted, or it is found at the
    index [track] gives, in a later state. *)
Lemma exec_grows (o : op) (fs : files) (k k' : nat) (r : row) :
  DATA_FILE fs !! k = Some r -> track o fs k = Some k' ->
  exists r', DATA_FILE (exec o fs) !! k' = Some r' /\ grows r r'.
Proof.
  intros Hk Ht. destruct o as [item|item_id item|item_id|today item_id data];
    cbn [track exec] in *.
  - injection Ht as <-.
    pose proof (add_item_spec item fs) as H.
    destruct (add_item item fs) as [[[msg next]|e] fs']; cbn [snd].
    + destruct H as (q & pv & n & x & p & ids & _ & _ & _ & _ & ->).
      exists r. split; [|apply grows_refl].
      cbn [DATA_FILE]. rewrite lookup_app_l; [exact Hk|].
      eapply lookup_lt_Some, Hk.
    + subst fs'. exists r. split; [exact Hk|apply grows_refl].
  - injection Ht as <-.
    pose proof (update_item_spec item_id item fs) as H.
    destruct (update_item item_id item fs) as [[msg|e] fs']; cbn [snd].
    + destruct H as (pre & r0 & post & n & x & p & (E & _) & _ & _ & ->).
      cbn [DATA_FILE]. rewrite E in Hk.
      eapply middle_grows; [apply updated_grows|exact Hk].
    + destruct H as [-> _]. exists r. split; [exact Hk|apply grows_refl].
  - rewrite Hk in Ht.
    destruct (String.eqb_spec (i_id r) item_id) as [?|N]; [discriminate|].
    injection Ht as <-. exists r. split; [|apply grows_refl].
    rewrite delete_item_spec.
    destruct (decide _) as [E|_]; cbn [snd DATA_FILE].
    + pose proof (filter_lookup_take (fun i => i_id i <> item_id)
                    _ _ _ Hk N) as H.
      now rewrite E in H.
    + now apply filter_lookup_take.
  - injection Ht as <-.
    pose proof (sell_item_spec today item_id data fs) as H.
    destruct (sell_item today item_id data fs) as [[msg|e] fs']; cbn [snd].
    + destruct H as (v & s & pre & r0 & post & q & sd & ti & sf & p
                     & _ & _ & Hpos & (E & _) & Hsell & _ & ->).
      cbn [DATA_FILE]. rewrite E in Hk.
      destruct Hsell as (_ & _ & _ & Hsd & _).
      eapply middle_grows; [apply sold_grows; eassumption|exact Hk].
    + subst fs'. exists r. split; [exact Hk|apply grows_refl].
Qed.

(** Any sequence of requests. *)
Lemma run_grows (ops : list op) (fs : files) (k k' : nat) (r : row) :
  DATA_FILE fs !! k = Some r -> track_all ops fs k = Some k' ->
  exists r', DATA_FILE (run ops fs) !! k' = Some r' /\ grows r r'.
Proof.
  revert fs k r. induction ops as [|o ops IH]; intros fs k r Hk Ht.
  - injection Ht as <-. exists r. split; [exact Hk|apply grows_refl].
  - cbn [track_all run] in *.
    destruct (track o fs k) as [k1|] eqn:E; [|discriminate].
    destruct (exec_grows o fs k k1 r Hk E) as (r1 & Hk1 & Hg1).
    destruct (IH _ _ _ Hk1 Ht) as (r' & Hk' & Hg').
    exists r'. split; [exact Hk'|]. eapply grows_trans; eassumption.
Qed.

Lemma run_app (ops1 ops2 : list op) (fs : files) :
  run (ops1 ++ ops2) fs = run ops2 (run ops1 fs).
Proof.
  revert fs. induction ops1 as [|o ops1 IH]; intros fs; [reflexivity|].
  cbn [app run]. apply IH.
Qed.

End SoldCounter.

Section SoldCounterClaim.

(** C8: a row that [add_item] has stored starts with the sold counter 0;
    as long as no request deletes it, after any requests its counter
    reads as an integer that is non-negative and no smaller than at any
    earlier point.  [update_item] leaves the counter of every row as it
    was, and a sale that succeeds adds the sold quantity, which is
    positive, to the counter of the row it sells from. *)
Theorem sold_counter_lifetime (item : payload) (fs : files)
    (msg next : string) (fs1 : files) :
  add_item item fs = (Ok (msg, next), fs1) ->
  (exists r, DATA_FILE fs1 = DATA_FILE fs ++ [r]
             /\ i_id r = next /\ i_sold r = "0")
  /\ (forall (ops1 ops2 : list op) (k1 k2 : nat),
        track_all ops1 fs1 (length (DATA_FILE fs)) = Some k1 ->
        track_all ops2 (run ops1 fs1) k1 = Some k2 ->
        exists r1 r2 n1 n2,
          DATA_FILE (run ops1 fs1) !! k1 = Some r1
          /\ DATA_FILE (run (ops1 ++ ops2) fs1) !! k2 = Some r2
          /\ i_id r1 = next /\ i_id r2 = next
          /\ PyInt.of_str (i_sold r1) = Some n1
          /\ PyInt.of_str (i_sold r2) = Some n2
          /\ 0 <= n1 <= n2)
  /\ (forall (item_id : string) (item' : payload) (fs0 : files) (k : nat)
             (r : row),
        DATA_FILE fs0 !! k = Some r ->
        exists r', DATA_FILE (snd (update_item item_id item' fs0)) !! k
                   = Some r'
                   /\ i_sold r' = i_sold r)
  /\ (forall (today : date) (item_id : string) (data : payload) (fs0 : files)
             (msg' : string) (fs' : files),
        sell_item today item_id data fs0 = (Ok msg', fs') ->
        exists pre r post r' sd s,
          first_match item_id (DATA_FILE fs0) pre r post
          /\ DATA_FILE fs' = pre ++ r' :: post
          /\ 0 < s
          /\ PyInt.of_str (i_sold r) = Some sd
          /\ PyInt.of_str (i_sold r') = Some (sd + s)).
Proof.
  intros Hadd.
  pose proof (add_item_spec item fs) as Hs. rewrite Hadd in Hs.
  destruct Hs as (q & pv & n & x & p & ids & _ & _ & _ & Hnext & ->).
  set (r0 := added_row item next q pv x p).
  assert (H0 : (DATA_FILE fs ++ [r0]) !! length (DATA_FILE fs) = Some r0)
    by now apply list_lookup_middle.
  split; [exists r0; auto|]. split; [|split].
  - intros ops1 ops2 k1 k2 Ht1 Ht2.
    destruct (run_grows ops1 (mk_files (DATA_FILE fs ++ [r0])
                                       (SALES_FILE fs))
                _ _ _ H0 Ht1) as (r1 & Hk1 & Hi1 & Hg1).
    destruct (run_grows ops2 _ _ _ _ Hk1 Ht2) as (r2 & Hk2 & Hi2 & Hg2).
    destruct (Hg1 0 eq_refl) as (n1 & Hn1 & Hle1).
    destruct (Hg2 n1 Hn1) as (n2 & Hn2 & Hle2).
    assert (Hid0 : i_id r0 = next) by reflexivity.
    exists r1, r2, n1, n2. rewrite run_app.
    repeat split; try assumption; try lia; congruence.
  - intros item_id item' fs0 k r Hk.
    pose proof (update_item_spec item_id item' fs0) as H.
    destruct (update_item item_id item' fs0) as [[m|e] fs']; cbn [snd].
    + destruct H as (pre & r1 & post & n' & x' & p' & (E & _) & _ & _ & ->).
      cbn [DATA_FILE]. rewrite E in Hk.
      destruct (middle_related (fun a b => i_sold b = i_sold a)
                  pre post r1 (updated_row item' r1 x' p') k r
                  (fun _ => eq_refl) eq_refl Hk) as (r' & Hr' & Hsold).
      eauto.
    + destruct H as [-> _]. eauto.
  - intros today item_id data fs0 msg' fs' Hsell.
    pose proof (sell_item_spec today item_id data fs0) as H.
    rewrite Hsell in H.
    destruct H as (v & s & pre & r & post & q' & sd & ti & sf & p'
                   & _ & _ & Hpos & Hm & Hs & _ & ->).
    destruct Hs as (_ & _ & _ & Hsd & _).
    exists pre, r, post, (sold_row r q' s sd ti sf p'), sd, s.
    cbn [DATA_FILE]. repeat split; try assumption; try apply Hm.
    apply of_str_to_str.
Qed.

Lemma sold_counter_lifetime_witness :
  add_item new_nut demo
  = (Ok ("Item added", "004"),
     mk_files (DATA_FILE demo ++ [mk_row "004" "Nut" "10" "$0.5" "5.0" "0"])
              [])
  /\ track_all sell_twice (snd (add_item new_nut demo)) 3 = Some 2%nat
  /\ track_all sell_more (run sell_twice (snd (add_item new_nut demo))) 2
     = Some 2%nat
  /\ exists r1 r2 n1 n2,
       DATA_FILE (run sell_twice (snd (add_item new_nut demo))) !! 2%nat
       = Some r1
       /\ DATA_FILE (run (sell_twice ++ sell_more)
                       (snd (add_item new_nut demo))) !! 2%nat
          = Some r2
       /\ i_id r1 = "004" /\ i_id r2 = "004"
       /\ PyInt.of_str (i_sold r1) = Some n1
       /\ PyInt.of_str (i_sold r2) = Some n2
       /\ 0 <= n1 <= n2.
Proof.
  assert (Ha : add_item new_nut demo
               = (Ok ("Item added", "004"), snd (add_item new_nut demo)))
    by reflexivity.
  split; [reflexivity|]. split; [reflexivity|]. split; [reflexivity|].
  exact (proj1 (proj2 (sold_counter_lifetime new_nut demo "Item added"
                         "004" (snd (add_item new_nut demo)) Ha))
           sell_twice sell_more 2%nat 2%nat eq_refl eq_refl).
Defined.

End SoldCounterClaim.

(** ** Strings put together *)

Section StringAppend.

Lemma append_assoc (a b c : string) :
  String.append (String.append a b) c = String.append a (String.append b c).
Proof.
  induction a as [|x a IH]; [reflexivity|].
  change (String x (String.append (String.append a b) c)
          = String x (String.append a (String.append b c))).
  now rewrite IH.
Qed.

Lemma append_empty_r (a : string) : String.append a EmptyString = a.
Proof.
  induction a as [|x a IH]; [reflexivity|].
  change (String x (String.append a EmptyString) = String x a).
  now rewrite IH.
Qed.

Lemma append_cons (x : ascii) (a b : string) :
  String.append (String x a) b = String x (String.append a b).
Proof. reflexivity. Qed.

Lemma append_snoc (a : string) (x : ascii) (b : string) :
  String.append (String.append a (String x EmptyString)) b
  = String.append a (String x b).
Proof. now rewrite append_assoc. Qed.

Lemma length_append (a b : string) :
  String.length (String.append a b)
  = (String.length a + String.length b)%nat.
Proof.
  induction a as [|x a IH]; [reflexivity|].
  rewrite append_cons. cbn [String.length]. now rewrite IH.
Qed.

Lemma append_not_empty (a : string) (x : ascii) (b : string) :
  String.append a (String x b) <> EmptyString.
Proof. destruct a; discriminate. Qed.

End StringAppend.

(** ** The reader on what the writer wrote *)

Section CsvReader.
Import PyStr Csv.

Lemma readlines_not_nil (s : string) : s <> EmptyString -> readlines s <> [].
Proof.
  destruct s as [|c s]; [congruence|]. intros _. cbn [readlines].
  destruct (Ascii.eqb c LF); [discriminate|].
  destruct (readlines s); discriminate.
Qed.

(** A character other than a line feed, with more text behind it, is one
    step of the reader. *)
Lemma reader_char (p p' : parser) (c : ascii) (s : string) :
  Ascii.eqb c LF = false -> s <> EmptyString ->
  parse_process_char p (Some c) = Some p' ->
  reader p (readlines (String c s)) = reader p' (readlines s).
Proof.
  intros Hc Hs Hp. cbn [readlines]. rewrite Hc.
  destruct (readlines s) as [|l ls] eqn:E.
  - now apply readlines_not_nil in E.
  - cbn [reader feed]. rewrite Hp. reflexivity.
Qed.

(** A line feed ends the line. *)
Lemma reader_LF (p p1 p2 : parser) (s : string) :
  parse_process_char p (Some LF) = Some p1 ->
  parse_process_char p1 None = Some p2 ->
  reader p (readlines (String LF s))
  = match st p2 with
    | START_RECORD => option_map (cons (fields p2))
                        (reader parse_reset (readlines s))
    | _ => reader p2 (readlines s)
    end.
Proof.
  intros H1 H2. cbn [readlines]. change (Ascii.eqb LF LF) with true.
  cbn [reader feed]. rewrite H1, H2. reflexivity.
Qed.

Lemma not_special (c : ascii) :
  special c = false ->
  Ascii.eqb c delimiter = false /\ Ascii.eqb c quotechar = false
  /\ Ascii.eqb c CR = false /\ Ascii.eqb c LF = false.
Proof.
  unfold special. intros H.
  apply orb_false_iff in H as [H H4]. apply orb_false_iff in H as [H H3].
  apply orb_false_iff in H as [H1 H2]. auto.
Qed.

Lemma add_char_short (p : parser) (s : state) (c : ascii) (rest : string) :
  field_fits (String.append (field p) (String c rest)) ->
  parse_add_char p s c
  = Some (mk_parser s (fields p)
            (String.append (field p) (String c EmptyString))).
Proof.
  unfold field_fits, parse_add_char. rewrite length_append. cbn [String.length].
  intros H.
  destruct (Z.leb_spec field_limit
              (Z.of_nat (String.length (field p))));
    [lia|reflexivity].
Qed.

(** The characters of a field that needs no quotes. *)
Lemma reader_plain (s0 : state) (done : list string) (f a k : string) :
  expecting_field s0 -> any_char special f = false ->
  field_fits (String.append a f) -> k <> EmptyString ->
  reader (mk_parser (state_after s0 a) done a) (readlines (String.append f k))
  = reader (mk_parser (state_after s0 (String.append a f)) done
              (String.append a f))
      (readlines k).
Proof.
  intros Hs0. unfold expecting_field in Hs0. revert a.
  induction f as [|c f IH]; intros a Hf Hlen Hk.
  - now rewrite append_empty_r.
  - cbn [any_char] in Hf. apply orb_false_iff in Hf as [Hc Hf].
    destruct (not_special c Hc) as (Hd & Hq & Hcr & Hlf).
    rewrite append_cons.
    assert (Hstep : parse_process_char (mk_parser (state_after s0 a) done a)
                      (Some c)
                    = Some (mk_parser IN_FIELD done
                              (String.append a (String c EmptyString)))).
    { pose proof (add_char_short (mk_parser (state_after s0 a) done a) IN_FIELD
                    c f Hlen) as Hadd.
      unfold parse_process_char, start_field, is_newline.
      cbn [st]. rewrite Hlf, Hcr, Hq, Hd. cbn [orb].
      unfold state_after. destruct (is_empty a);
        [destruct Hs0 as [-> | ->]|]; exact Hadd. }
    assert (Hfk : String.append f k <> EmptyString)
      by (destruct f; [exact Hk|discriminate]).
    rewrite (reader_char _ _ _ _ Hlf Hfk Hstep).
    assert (Ea : state_after s0 (String.append a (String c EmptyString))
                 = IN_FIELD).
    { unfold state_after. now destruct a. }
    rewrite <- Ea at 1.
    rewrite IH; [|assumption|now rewrite append_snoc|assumption].
    now rewrite append_snoc.
Qed.

(** The body of a quoted field. *)
Lemma reader_quoted_body (done : list string) (f a k : string) :
  field_fits (String.append a f) -> k <> EmptyString ->
  reader (mk_parser IN_QUOTED_FIELD done a)
    (readlines (String.append (double_quotes f) k))
  = reader (mk_parser IN_QUOTED_FIELD done (String.append a f))
      (readlines k).
Proof.
  revert a. induction f as [|c f IH]; intros a Hlen Hk.
  - now rewrite append_empty_r.
  - assert (Hrest : String.append (double_quotes f) k <> EmptyString)
      by (destruct (double_quotes f); [exact Hk|discriminate]).
    pose proof (add_char_short (mk_parser IN_QUOTED_FIELD done a)
                  IN_QUOTED_FIELD c f Hlen) as Hadd.
    pose proof (add_char_short (mk_parser QUOTE_IN_QUOTED_FIELD done a)
                  IN_QUOTED_FIELD c f Hlen) as Hadd'.
    cbn [fields field] in Hadd, Hadd'.
    cbn [double_quotes].
    destruct (Ascii.eqb_spec c quotechar) as [->|Hq].
    + rewrite !append_cons.
      rewrite (reader_char _ (mk_parser QUOTE_IN_QUOTED_FIELD done a));
        [|reflexivity|discriminate|reflexivity].
      rewrite (reader_char (mk_parser QUOTE_IN_QUOTED_FIELD done a)
                 (mk_parser IN_QUOTED_FIELD done
                    (String.append a (String quotechar EmptyString)))
                 quotechar);
        [|reflexivity|exact Hrest|exact Hadd'].
      rewrite IH; [|now rewrite append_snoc|assumption].
      now rewrite append_snoc.
    + apply Ascii.eqb_neq in Hq. rewrite append_cons.
      assert (Hstep : parse_process_char
                        (mk_parser IN_QUOTED_FIELD done a) (Some c)
                      = Some (mk_parser IN_QUOTED_FIELD done
                                (String.append a (String c EmptyString)))).
      { unfold parse_process_char. cbn [st]. rewrite Hq. exact Hadd. }
      destruct (Ascii.eqb_spec c LF) as [->|Hlf].
      * rewrite (reader_LF _ _ _ _ Hstep eq_refl). cbn [st].
        rewrite IH; [|now rewrite append_snoc|assumption].
        now rewrite append_snoc.
      * apply Ascii.eqb_neq in Hlf.
        rewrite (reader_char _ _ _ _ Hlf Hrest Hstep).
        rewrite IH; [|now rewrite append_snoc|assumption].
        now rewrite append_snoc.
Qed.

(** A quoted field, up to its closing quote. *)
Lemma reader_quoted (s0 : state) (done : list string) (f k : string) :
  expecting_field s0 -> field_fits f -> k <> EmptyString ->
  reader (mk_parser s0 done EmptyString)
    (readlines (String.append (quoted f) k))
  = reader (mk_parser QUOTE_IN_QUOTED_FIELD done f) (readlines k).
Proof.
  intros Hs0 Hlen Hk. unfold expecting_field in Hs0.
  unfold quoted. rewrite append_cons, append_snoc.
  rewrite (reader_char _ (mk_parser IN_QUOTED_FIELD done EmptyString));
    [|reflexivity|apply append_not_empty
     |destruct Hs0 as [-> | ->]; reflexivity].
  rewrite reader_quoted_body; [|exact Hlen|discriminate].
  cbn [String.append].
  apply reader_char; [reflexivity|exact Hk|reflexivity].
Qed.

(** The delimiter closes the field. *)
Lemma reader_delimiter (s : state) (done : list string) (f k : string) :
  closing_field s \/ (s = START_RECORD) -> k <> EmptyString ->
  reader (mk_parser s done f) (readlines (String delimiter k))
  = reader (mk_parser START_FIELD (done ++ [f]) EmptyString) (readlines k).
Proof.
  intros Hs Hk. unfold closing_field in Hs.
  apply reader_char; [reflexivity|exact Hk|].
  destruct Hs as [[-> | [-> | ->]] | ->]; reflexivity.
Qed.

(** The line feed closes the field and the record. *)
Lemma reader_end (s : state) (done : list string) (f rest : string) :
  closing_field s ->
  reader (mk_parser s done f) (readlines (String LF rest))
  = option_map (cons (done ++ [f])) (reader parse_reset (readlines rest)).
Proof.
  intros Hs. unfold closing_field in Hs.
  rewrite (reader_LF _ (mk_parser EAT_CRNL (done ++ [f]) EmptyString)
             (mk_parser START_RECORD (done ++ [f]) EmptyString));
    [reflexivity| |reflexivity].
  destruct Hs as [-> | [-> | ->]]; reflexivity.
Qed.

Lemma join_append_cases (f : string) :
  (any_char special f = true /\ join_append f = quoted f)
  \/ (any_char special f = false /\ join_append f = f).
Proof. unfold join_append. destruct (any_char special f); auto. Qed.

Lemma reader_field_delimiter (s0 : state) (done : list string)
    (f k : string) :
  expecting_field s0 -> field_fits f -> k <> EmptyString ->
  reader (mk_parser s0 done EmptyString)
    (readlines (String.append (join_append f) (String delimiter k)))
  = reader (mk_parser START_FIELD (done ++ [f]) EmptyString) (readlines k).
Proof.
  intros Hs0 Hlen Hk. pose proof Hs0 as Hs0'. unfold expecting_field in Hs0'.
  destruct (join_append_cases f) as [[_ ->]|[Hf ->]].
  - rewrite reader_quoted; [|assumption..|discriminate].
    apply reader_delimiter; [left; right; right; reflexivity|exact Hk].
  - pose proof (reader_plain s0 done f EmptyString (String delimiter k)
                  Hs0 Hf Hlen ltac:(discriminate)) as H.
    change (String.append EmptyString f) with f in H.
    unfold state_after at 1 in H. cbn [is_empty] in H.
    rewrite H. apply reader_delimiter; [|exact Hk].
    unfold state_after.
    destruct (is_empty f); [|left; right; left; reflexivity].
    destruct Hs0' as [-> | ->]; [right|left; left]; reflexivity.
Qed.

Lemma reader_field_end (s0 : state) (done : list string) (f rest : string) :
  s0 = START_FIELD \/ (s0 = START_RECORD /\ join_append f <> EmptyString) ->
  field_fits f ->
  reader (mk_parser s0 done EmptyString)
    (readlines (String.append (join_append f) (String LF rest)))
  = option_map (cons (done ++ [f])) (reader parse_reset (readlines rest)).
Proof.
  intros Hs0 Hlen.
  assert (He : expecting_field s0)
    by (destruct Hs0 as [->|[-> _]]; [right|left]; reflexivity).
  destruct (join_append_cases f) as [[_ E]|[Hf E]]; rewrite E in *.
  - rewrite reader_quoted; [|assumption..|discriminate].
    apply reader_end. right; right; reflexivity.
  - pose proof (reader_plain s0 done f EmptyString (String LF rest)
                  He Hf Hlen ltac:(discriminate)) as H.
    change (String.append EmptyString f) with f in H.
    unfold state_after at 1 in H. cbn [is_empty] in H.
    rewrite H. apply reader_end.
    unfold state_after. destruct f as [|c f]; cbn [is_empty].
    + destruct Hs0 as [->|[_ N]]; [left; reflexivity|congruence].
    + right; left; reflexivity.
Qed.

Lemma join_cons2 (f g : string) (more : list string) :
  join (f :: g :: more) = String.append f (String delimiter (join (g :: more))).
Proof. reflexivity. Qed.

Lemma join_not_empty (f g : string) (more : list string) :
  join (f :: g :: more) <> EmptyString.
Proof. rewrite join_cons2. apply append_not_empty. Qed.

(** The fields of a record, to the end of its line. *)
Lemma reader_join (fs : list string) (s0 : state) (done : list string)
    (rest : string) :
  fs <> [] -> Forall field_fits fs ->
  s0 = START_FIELD
  \/ (s0 = START_RECORD /\ join (map join_append fs) <> EmptyString) ->
  reader (mk_parser s0 done EmptyString)
    (readlines (String.append (join (map join_append fs)) (String LF rest)))
  = option_map (cons (done ++ fs)) (reader parse_reset (readlines rest)).
Proof.
  revert s0 done. induction fs as [|f fs IH]; intros s0 done Hne Hlen Hs0;
    [congruence|].
  apply Forall_cons in Hlen as [Hf Hlen].
  destruct fs as [|g more].
  - cbn [map join]. apply reader_field_end; assumption.
  - cbn [map]. rewrite join_cons2, append_assoc, append_cons.
    rewrite reader_field_delimiter;
      [|destruct Hs0 as [->|[-> _]]; [right|left]; reflexivity
       |assumption
       |destruct (join (join_append g :: map join_append more));
        discriminate].
    change (join_append g :: map join_append more)
      with (map join_append (g :: more)).
    rewrite IH; [|discriminate|assumption|left; reflexivity].
    now rewrite <- app_assoc.
Qed.

(** One record, with its line feed, gives back its fields. *)
Lemma reader_record (fs : list string) (rest : string) :
  Forall field_fits fs ->
  reader parse_reset (readlines (String.append (record fs) (String LF rest)))
  = option_map (cons fs) (reader parse_reset (readlines rest)).
Proof.
  intros Hlen. unfold record. destruct fs as [|f fs].
  - change (reader parse_reset (readlines (String LF rest))
            = option_map (cons []) (reader parse_reset (readlines rest))).
    now rewrite (reader_LF _ (mk_parser EAT_CRNL [] EmptyString)
                   parse_reset).
  - destruct (is_empty (join (map join_append (f :: fs)))) eqn:E.
    + assert (f = EmptyString /\ fs = []) as [-> ->].
      { destruct fs as [|g more].
        - cbn [map join] in E. split; [|reflexivity].
          destruct (join_append_cases f) as [[_ H]|[_ H]]; rewrite H in E.
          + discriminate.
          + now destruct f.
        - exfalso. cbn [map] in E.
          pose proof (join_not_empty (join_append f) (join_append g)
                        (map join_append more)) as N.
          destruct (join _); [congruence|discriminate]. }
      unfold parse_reset. rewrite reader_quoted;
        [|left; reflexivity|unfold field_fits, field_limit; cbn; lia
         |discriminate].
      apply (reader_end _ []). right; right; reflexivity.
    + apply (reader_join (f :: fs) START_RECORD []);
        [discriminate|assumption|].
      right. split; [reflexivity|]. intros N. now rewrite N in E.
Qed.

Lemma concat_cons (a : string) (l : list string) :
  String.concat EmptyString (a :: l)
  = String.append a (String.concat EmptyString l).
Proof.
  destruct l as [|b l]; [now rewrite append_empty_r|reflexivity].
Qed.

Lemma reader_records (rows : list (list string)) :
  Forall (Forall field_fits) rows ->
  reader parse_reset (readlines (records_text rows)) = Some rows.
Proof.
  induction 1 as [|fs rows Hfs _ IH]; [reflexivity|].
  unfold records_text in *. cbn [map].
  rewrite concat_cons, append_assoc, append_cons.
  rewrite reader_record by assumption.
  change (String.append EmptyString ?x) with x.
  now rewrite IH.
Qed.

End CsvReader.

(** ** The line ends of a text file *)

Section CsvNewlines.
Import PyStr Csv.

Lemma newlines_cons (c : ascii) (s : string) :
  Ascii.eqb c CR = false -> Ascii.eqb c LF = false ->
  forall b, universal_newlines b (String c s)
            = String c (universal_newlines false s).
Proof. intros H1 H2 b. cbn [universal_newlines]. now rewrite H1, H2. Qed.

Lemma newlines_plain (f k : string) :
  any_char special f = false ->
  universal_newlines false (String.append f k)
  = String.append f (universal_newlines false k).
Proof.
  induction f as [|c f IH]; [reflexivity|]. cbn [any_char].
  intros [Hc Hf]%orb_false_iff.
  destruct (not_special c Hc) as (_ & _ & Hcr & Hlf).
  rewrite !append_cons, newlines_cons by assumption. now rewrite IH.
Qed.

Lemma newlines_body (f k : string) (b : bool) :
  universal_newlines b
    (String.append (double_quotes f) (String quotechar k))
  = String.append (double_quotes (universal_newlines b f))
      (String quotechar (universal_newlines false k)).
Proof.
  revert b. induction f as [|c f IH]; intros b.
  - cbn [double_quotes universal_newlines].
    change (String.append EmptyString ?x) with x.
    now rewrite (newlines_cons quotechar).
  - cbn [double_quotes universal_newlines].
    destruct (Ascii.eqb_spec c quotechar) as [->|Hq].
    + change (Ascii.eqb quotechar CR) with false.
      change (Ascii.eqb quotechar LF) with false.
      cbn [andb double_quotes].
      change (Ascii.eqb quotechar quotechar) with true. cbn iota.
      rewrite !append_cons, !(newlines_cons quotechar) by reflexivity.
      now rewrite IH.
    + apply Ascii.eqb_neq in Hq. rewrite append_cons.
      cbn [universal_newlines].
      destruct (Ascii.eqb c CR) eqn:Hcr.
      * cbn [double_quotes]. change (Ascii.eqb LF quotechar) with false.
        cbn iota. now rewrite append_cons, IH.
      * destruct (Ascii.eqb c LF && b); [apply IH|].
        cbn [double_quotes]. rewrite Hq, append_cons. now rewrite IH.
Qed.

Lemma newlines_special (f : string) :
  any_char special f = true -> any_char special (newlines f) = true.
Proof.
  unfold newlines. induction f as [|c f IH]; [discriminate|].
  cbn [any_char universal_newlines]. rewrite andb_false_r.
  destruct (Ascii.eqb_spec c CR) as [->|_]; [reflexivity|].
  cbn [any_char]. intros [->|H]%orb_true_iff; [reflexivity|].
  rewrite IH by assumption. apply orb_true_r.
Qed.

Lemma newlines_field (f k : string) :
  universal_newlines false (String.append (join_append f) k)
  = String.append (join_append (newlines f)) (universal_newlines false k).
Proof.
  unfold join_append. destruct (any_char special f) eqn:Hf.
  - rewrite (newlines_special f Hf). unfold quoted.
    rewrite !append_cons, !append_snoc.
    now rewrite (newlines_cons quotechar), newlines_body by reflexivity.
  - assert (E : newlines f = f).
    { pose proof (newlines_plain f EmptyString Hf) as H.
      now rewrite !append_empty_r in H. }
    rewrite E, Hf. now apply newlines_plain.
Qed.

Lemma newlines_join (fs : list string) (k : string) :
  universal_newlines false
    (String.append (join (map join_append fs)) k)
  = String.append (join (map join_append (map newlines fs)))
      (universal_newlines false k).
Proof.
  induction fs as [|f [|g more] IH]; [reflexivity|apply newlines_field|].
  cbn [map] in *. rewrite !join_cons2, !append_assoc, !append_cons.
  now rewrite newlines_field, (newlines_cons delimiter), IH by reflexivity.
Qed.

Lemma newlines_is_empty (f : string) : is_empty (newlines f) = is_empty f.
Proof.
  destruct f as [|c f]; [reflexivity|]. unfold newlines.
  cbn [universal_newlines]. rewrite andb_false_r.
  now destruct (Ascii.eqb c CR).
Qed.

Lemma join_is_empty (fs : list string) :
  is_empty (join (map join_append fs))
  = match fs with
    | [] => true
    | [f] => is_empty f
    | _ => false
    end.
Proof.
  destruct fs as [|f [|g more]]; [reflexivity| |].
  - cbn [map join]. unfold join_append.
    destruct f as [|c f]; [reflexivity|].
    destruct (any_char special (String c f)); reflexivity.
  - cbn [map]. rewrite join_cons2.
    destruct (join_append f); reflexivity.
Qed.

Lemma newlines_record (fs : list string) (k : string) :
  universal_newlines false (String.append (record fs) k)
  = String.append (record (map newlines fs)) (universal_newlines false k).
Proof.
  unfold record. destruct fs as [|f fs]; [reflexivity|].
  change (map newlines (f :: fs)) with (newlines f :: map newlines fs).
  pose proof (join_is_empty (f :: fs)) as E1.
  pose proof (join_is_empty (map newlines (f :: fs))) as E2.
  cbn [map] in E1, E2 |- *.
  destruct fs as [|g more]; cbn [map] in E1, E2 |- *.
  - rewrite E1, E2, newlines_is_empty.
    destruct (is_empty f); [reflexivity|].
    apply (newlines_join [f]).
  - rewrite E1, E2. apply (newlines_join (f :: g :: more)).
Qed.

Lemma newlines_writerow (fs : list string) (rest : string) :
  universal_newlines false (String.append (writerow fs) rest)
  = String.append (record (map newlines fs))
      (String LF (universal_newlines false rest)).
Proof.
  unfold writerow, lineterminator.
  now rewrite append_assoc, newlines_record.
Qed.

Lemma newlines_writerows (rows : list (list string)) :
  universal_newlines false (writerows rows)
  = records_text (map (map newlines) rows).
Proof.
  unfold writerows, records_text.
  induction rows as [|fs rows IH]; [reflexivity|].
  cbn [map]. rewrite !concat_cons, newlines_writerow, IH.
  now rewrite append_assoc.
Qed.

Lemma length_newlines (b : bool) (f : string) :
  (String.length (universal_newlines b f) <= String.length f)%nat.
Proof.
  revert b. induction f as [|c f IH]; intros b; [reflexivity|].
  cbn [universal_newlines].
  destruct (Ascii.eqb c CR); [cbn [String.length]; specialize (IH true); lia|].
  destruct (Ascii.eqb c LF && b); cbn [String.length];
    specialize (IH false); lia.
Qed.

Lemma short_newlines (f : string) : field_fits f -> field_fits (newlines f).
Proof.
  unfold field_fits, newlines. pose proof (length_newlines false f). lia.
Qed.

Lemma newlines_no_cr (f : string) : no_cr f -> newlines f = f.
Proof.
  unfold no_cr, newlines. induction f as [|c f IH]; [reflexivity|].
  cbn [any_char universal_newlines]. rewrite andb_false_r.
  intros [Hc Hf]%orb_false_iff.
  rewrite Ascii.eqb_sym in Hc. rewrite Hc. now rewrite IH.
Qed.

Lemma read_records_writerows (rows : list (list string)) :
  Forall (Forall field_fits) rows ->
  read_records (writerows rows) = Some (map (map newlines) rows).
Proof.
  intros H. unfold read_records. rewrite newlines_writerows.
  apply reader_records.
  apply Forall_fmap. eapply Forall_impl; [exact H|].
  intros fs Hfs. apply Forall_fmap. eapply Forall_impl; [exact Hfs|].
  exact short_newlines.
Qed.

End CsvNewlines.

(** ** The two tables on disk *)

Section CsvTables.
Import Csv.

Lemma row_of_dict_cells (i : row) :
  row_of_dict (to_dict fieldnames (row_cells i)) = Some i.
Proof. destruct i. reflexivity. Qed.

Lemma sale_of_dict_cells (s : sale) :
  sale_of_dict (to_dict sales_header (sale_cells s)) = Some s.
Proof. destruct s. reflexivity. Qed.

Lemma writerows_cons (fs : list string) (rows : list (list string)) :
  writerows (fs :: rows) = String.append (writerow fs) (writerows rows).
Proof. apply concat_cons. Qed.

Lemma writerows_snoc (rows : list (list string)) (fs : list string) :
  writerows (rows ++ [fs]) = String.append (writerows rows) (writerow fs).
Proof.
  induction rows as [|r rows IH].
  - cbn [app]. rewrite writerows_cons.
    change (writerows []) with EmptyString. now rewrite append_empty_r.
  - cbn [app]. now rewrite !writerows_cons, IH, append_assoc.
Qed.

Lemma filter_cells {A} (cells : A -> list string) (l : list A) :
  (forall a, is_blank (cells a) = false) ->
  List.filter (fun r => negb (is_blank r)) (map cells l) = map cells l.
Proof.
  intros H. induction l as [|a l IH]; [reflexivity|].
  cbn [map List.filter]. now rewrite H, IH.
Qed.

Lemma read_back_cells (i : row) :
  map newlines (row_cells i) = row_cells (read_back i).
Proof. reflexivity. Qed.

Lemma sale_read_back_cells (s : sale) :
  map newlines (sale_cells s) = sale_cells (sale_read_back s).
Proof. reflexivity. Qed.

Lemma read_back_plain (i : row) : row_plain i -> read_back i = i.
Proof.
  destruct i as [a b c d e f]. unfold row_plain, row_cells, read_back.
  cbn [i_id i_name i_quantity i_price i_total_investment i_sold].
  intros H. repeat (apply Forall_cons in H as [? H]).
  now rewrite !newlines_no_cr by assumption.
Qed.

Lemma sale_read_back_plain (s : sale) : sale_plain s -> sale_read_back s = s.
Proof.
  destruct s as [a b c d e]. unfold sale_plain, sale_cells, sale_read_back.
  cbn [s_date s_item_id s_item_name s_sold_quantity s_amount].
  intros H. repeat (apply Forall_cons in H as [? H]).
  now rewrite !newlines_no_cr by assumption.
Qed.

Lemma short_literal (s : string) :
  (Z.of_nat (String.length s) <=? field_limit) = true -> field_fits s.
Proof. unfold field_fits. apply Z.leb_le. Qed.

Lemma read_inventory (items : list row) :
  Forall row_fits items ->
  read_items_text (inventory_text items) = Some (map read_back items).
Proof.
  intros Hfit. unfold read_items_text, read_dicts, inventory_text.
  rewrite <- writerows_cons, read_records_writerows.
  - cbn [map option_map DictReader].
    change (map newlines fieldnames) with fieldnames.
    rewrite map_map. rewrite (map_ext _ _ read_back_cells).
    rewrite <- (map_map read_back row_cells).
    rewrite filter_cells by reflexivity.
    rewrite map_map. apply mapM_Some, Forall2_fmap_l.
    induction items as [|i items IH]; constructor.
    + apply row_of_dict_cells.
    + apply IH. now inversion Hfit.
  - constructor.
    + repeat constructor; apply short_literal; reflexivity.
    + apply Forall_fmap. exact Hfit.
Qed.

Lemma read_ledger (rows : list sale) :
  Forall sale_fits rows ->
  read_sales_text (ledger_text rows) = Some (map sale_read_back rows).
Proof.
  intros Hfit. unfold read_sales_text, read_dicts, ledger_text.
  rewrite <- writerows_cons, read_records_writerows.
  - cbn [map option_map DictReader].
    change (map newlines sales_header) with sales_header.
    rewrite map_map. rewrite (map_ext _ _ sale_read_back_cells).
    rewrite <- (map_map sale_read_back sale_cells).
    rewrite filter_cells by reflexivity.
    rewrite map_map. apply mapM_Some, Forall2_fmap_l.
    induction rows as [|i rows IH]; constructor.
    + apply sale_of_dict_cells.
    + apply IH. now inversion Hfit.
  - constructor.
    + repeat constructor; apply short_literal; reflexivity.
    + apply Forall_fmap. exact Hfit.
Qed.

Lemma map_id_on {A} (f : A -> A) (l : list A) :
  Forall (fun a => f a = a) l -> map f l = l.
Proof. induction 1 as [|a l E _ IH]; cbn [map]; congruence. Qed.

(** A table within the limit and without carriage returns is read as it
    was written. *)
Lemma round_trips_read (items : list row) :
  round_trips items -> read_items_text (inventory_text items) = Some items.
Proof.
  intros [Hfit Hplain]. rewrite read_inventory by assumption. f_equal.
  apply map_id_on. eapply Forall_impl; [exact Hplain|].
  exact read_back_plain.
Qed.

Lemma round_trips_check (items : list row) :
  forallb (fun i => forallb plain_field (row_cells i)) items = true ->
  round_trips items.
Proof.
  intros H. rewrite forallb_forall in H. split; apply Forall_forall;
    intros i Hi%list_elem_of_In; specialize (H i Hi);
    rewrite forallb_forall in H; apply Forall_forall;
    intros s Hs%list_elem_of_In; specialize (H s Hs);
    apply andb_true_iff in H as [Hlen Hcr].
  - now apply short_literal.
  - now apply negb_true_iff in Hcr.
Qed.

Lemma round_trips_app (a b : list row) :
  round_trips (a ++ b) -> round_trips a /\ round_trips b.
Proof.
  intros [[? ?]%Forall_app [? ?]%Forall_app]. repeat split; assumption.
Qed.

Lemma round_trips_run (ops : list op) (fs : files) :
  round_trips_along ops fs -> round_trips (DATA_FILE (run ops fs)).
Proof.
  revert fs. induction ops as [|o ops IH]; intros fs [H Hrest]; [exact H|].
  cbn [run]. now apply IH.
Qed.

(** X1: what the writer wrote, the reader reads, field by field, but with the
    line ends of a text file: a carriage return, alone or before a line
    feed, comes back as a line feed.  Rows without a carriage return come
    back as they were. *)
Theorem csv_write_read (rows : list (list string)) :
  Forall (Forall field_fits) rows ->
  read_records (writerows rows) = Some (map (map newlines) rows)
  /\ (Forall (Forall no_cr) rows ->
      read_records (writerows rows) = Some rows).
Proof.
  intros Hfit. rewrite read_records_writerows by assumption.
  split; [reflexivity|]. intros Hplain. f_equal.
  apply map_id_on. eapply Forall_impl; [exact Hplain|].
  intros fs Hfs. apply map_id_on. eapply Forall_impl; [exact Hfs|].
  exact newlines_no_cr.
Qed.

Lemma csv_write_read_witness :
  read_records (writerows [row_cells twin; row_cells crlf_name])
  = Some [row_cells twin; ["001"; String "A" (String LF "B"); "20"; "$2.5";
                           "50.0"; "0"]].
Proof.
  refine (proj1 (csv_write_read [row_cells twin; row_cells crlf_name] _)).
  repeat constructor; apply short_literal; reflexivity.
Defined.

(** X2: when every field of the rows is within the limit of the reader,
    131072 characters, the inventory that [write_items] stored is the
    inventory that [read_items] returns, but for the line ends: a carriage
    return in a field, alone or before a line feed, comes back as a line
    feed.  Rows without a carriage return come back as they were. *)
Theorem inventory_round_trip (items : list row) :
  Forall row_fits items ->
  read_items_text (inventory_text items) = Some (map read_back items)
  /\ (Forall row_plain items ->
      read_items_text (inventory_text items) = Some items).
Proof.
  intros Hfit. rewrite read_inventory by assumption.
  split; [reflexivity|]. intros Hplain. f_equal.
  apply map_id_on. eapply Forall_impl; [exact Hplain|].
  exact read_back_plain.
Qed.

Lemma inventory_round_trip_witness :
  read_items_text (inventory_text [widget; crlf_name; bolt])
  = Some [widget;
          mk_row "001" (String "A" (String Csv.LF "B")) "20" "$2.5" "50.0"
            "0";
          bolt]
  /\ (Forall row_plain [widget; twin; bolt] ->
      read_items_text (inventory_text [widget; twin; bolt])
      = Some [widget; twin; bolt]).
Proof.
  split.
  - refine (proj1 (inventory_round_trip [widget; crlf_name; bolt] _)).
    repeat constructor; apply short_literal; reflexivity.
  - refine (proj2 (inventory_round_trip [widget; twin; bolt] _)).
    repeat constructor; apply short_literal; reflexivity.
Defined.

(** X3: for rows whose fields are within the limit of the reader, 131072
    characters, and hold no carriage return: appending a sale to the
    ledger file gives the file of the longer ledger, and reading it gives
    the old rows and the new one. *)
Theorem ledger_append_round_trip (rows : list sale) (s : sale) :
  Forall sale_fits (rows ++ [s]) -> Forall sale_plain (rows ++ [s]) ->
  append_sale (ledger_text rows) s = ledger_text (rows ++ [s])
  /\ read_sales_text (append_sale (ledger_text rows) s) = Some (rows ++ [s]).
Proof.
  intros Hfit Hplain.
  assert (E : append_sale (ledger_text rows) s = ledger_text (rows ++ [s])).
  { unfold append_sale, ledger_text.
    rewrite map_app. change (map sale_cells [s]) with [sale_cells s].
    now rewrite writerows_snoc, append_assoc. }
  split; [exact E|]. rewrite E, read_ledger by assumption. f_equal.
  apply map_id_on. eapply Forall_impl; [exact Hplain|].
  exact sale_read_back_plain.
Qed.

Lemma ledger_append_round_trip_witness :
  append_sale (ledger_text (SALES_FILE may_sales))
    (mk_sale "2024-05-03" "001" "Widget, large" "2" "5.0")
  = ledger_text (SALES_FILE may_sales
                 ++ [mk_sale "2024-05-03" "001" "Widget, large" "2" "5.0"])
  /\ read_sales_text
       (append_sale (ledger_text (SALES_FILE may_sales))
          (mk_sale "2024-05-03" "001" "Widget, large" "2" "5.0"))
     = Some (SALES_FILE may_sales
             ++ [mk_sale "2024-05-03" "001" "Widget, large" "2" "5.0"]).
Proof.
  apply ledger_append_round_trip.
  - repeat constructor; apply short_literal; reflexivity.
  - repeat constructor.
Defined.

(** X4: start-up leaves the files that exist, creates the missing ones so
    that they read as empty tables, and changes nothing when run again. *)
Theorem startup_creates_empty_tables (d : disk) :
  (forall text, inventory_csv d = Some text ->
                inventory_csv (startup d) = Some text)
  /\ (forall text, sales_csv d = Some text ->
                   sales_csv (startup d) = Some text)
  /\ (inventory_csv d = None ->
      exists text, inventory_csv (startup d) = Some text
                   /\ text = inventory_text []
                   /\ read_items_text text = Some [])
  /\ (sales_csv d = None ->
      exists text, sales_csv (startup d) = Some text
                   /\ text = ledger_text []
                   /\ read_sales_text text = Some [])
  /\ startup (startup d) = startup d.
Proof.
  destruct d as [[i|] [s|]]; cbn [startup inventory_csv sales_csv];
    repeat split; try congruence; intros _; eexists;
    (split; [reflexivity|]); split;
    first [ reflexivity
          | apply (read_inventory []); constructor
          | apply (read_ledger []); constructor
          | unfold inventory_text, ledger_text; cbn [map];
            unfold writerows; cbn [map String.concat];
            now rewrite append_empty_r ].
Qed.

End CsvTables.

(** ** Fresh ids *)

Section Ids.
Import PyStr PyInt.

Lemma files_eta (fs : files) : mk_files (DATA_FILE fs) (SALES_FILE fs) = fs.
Proof. now destruct fs. Qed.

Lemma int_ids_bound (items : list row) (l : list Z) (i : row) :
  int_ids items = Ok l -> i ∈ items ->
  exists n, of_str (i_id i) = Some n /\ n <= max_default0 l.
Proof.
  intros Hids Hi. apply int_ids_Forall2 in Hids.
  destruct (max_default0_spec l) as (_ & Hmax & _).
  apply list_elem_of_lookup in Hi as [k Hk].
  destruct (Forall2_lookup_l _ _ _ _ _ Hids Hk) as (n & Hn & Hin).
  exists n. split; [exact Hin|]. apply Hmax.
  eapply list_elem_of_lookup_2, Hn.
Qed.

Lemma added_fresh (item : payload) (fs : files) (msg next : string)
    (fs' : files) :
  add_item item fs = (Ok (msg, next), fs') ->
  exists n, of_str next = Some n
    /\ Forall (fun i => forall k, of_str (i_id i) = Some k -> k < n)
         (DATA_FILE fs)
    /\ Forall (fun i => i_id i <> next) (DATA_FILE fs)
    /\ exists r, i_id r = next
         /\ fs' = mk_files (DATA_FILE fs ++ [r]) (SALES_FILE fs).
Proof.
  intros H. pose proof (add_item_spec item fs) as S. rewrite H in S.
  destruct S as (q & pv & n & x & p & l & Ha & _ & _ & -> & ->).
  destruct Ha as (_ & _ & _ & _ & _ & Hids & _).
  exists (max_default0 l + 1).
  assert (Hlt : Forall (fun i => forall k, of_str (i_id i) = Some k ->
                                           k < max_default0 l + 1)
                  (DATA_FILE fs)).
  { apply Forall_forall. intros i Hi k Hk.
    destruct (int_ids_bound _ _ _ Hids Hi) as (m & Hm & Hle).
    rewrite Hk in Hm. injection Hm as <-. lia. }
  split; [apply of_str_format_03|]. split; [exact Hlt|]. split.
  - apply Forall_forall. intros i Hi E.
    destruct (int_ids_bound _ _ _ Hids Hi) as (m & Hm & Hle).
    rewrite E, of_str_format_03 in Hm. injection Hm as <-. lia.
  - eexists. split; [|reflexivity]. reflexivity.
Qed.


(** X5: the id that [add_item] assigns is the id of no stored row, and as a
    number it exceeds every stored id that is a number. *)
Theorem add_item_fresh_id (item : payload) (fs : files) (msg next : string)
    (fs' : files) :
  add_item item fs = (Ok (msg, next), fs') ->
  Forall (fun i => i_id i <> next) (DATA_FILE fs)
  /\ exists n, of_str next = Some n
       /\ Forall (fun i => forall k, of_str (i_id i) = Some k -> k < n)
            (DATA_FILE fs).
Proof.
  intros H. destruct (added_fresh _ _ _ _ _ H) as (n & Hn & Hlt & Hne & _).
  split; [exact Hne|]. exists n. auto.
Qed.

Lemma add_item_fresh_id_witness :
  Forall (fun i => i_id i <> "004") (DATA_FILE demo)
  /\ exists n, of_str "004" = Some n
       /\ Forall (fun i => forall k, of_str (i_id i) = Some k -> k < n)
            (DATA_FILE demo).
Proof.
  exact (add_item_fresh_id new_nut demo "Item added" "004"
           (snd (add_item new_nut demo)) eq_refl).
Defined.

Lemma ids_middle (pre post : list row) (r r' : row) :
  i_id r' = i_id r -> row_ids (pre ++ r' :: post) = row_ids (pre ++ r :: post).
Proof.
  intros E. unfold row_ids. rewrite !map_app. cbn [map]. now rewrite E.
Qed.

Lemma ids_filter (item_id : string) (items : list row) :
  row_ids (filter (fun i => i_id i <> item_id) items)
  = filter (fun s => s <> item_id) (row_ids items).
Proof.
  unfold row_ids. induction items as [|i items IH]; [reflexivity|].
  cbn [map]. rewrite !filter_cons. cbn [map].
  destruct (decide (i_id i <> item_id)); cbn [map]; now rewrite IH.
Qed.

Lemma exec_ids_distinct (o : op) (fs : files) :
  NoDup (row_ids (DATA_FILE fs)) -> NoDup (row_ids (DATA_FILE (exec o fs))).
Proof.
  intros Hnd. destruct o as [item|item_id item|item_id|today item_id data];
    cbn [exec].
  - destruct (add_item item fs) as [[[msg next]|e] fs'] eqn:E; cbn [snd].
    + destruct (added_fresh _ _ _ _ _ E) as (n & _ & _ & Hne & r & Hr & ->).
      cbn [DATA_FILE]. unfold row_ids. rewrite map_app. cbn [map].
      apply NoDup_app. split; [exact Hnd|]. split.
      * intros x Hx [->|Hin]%elem_of_cons; [|inversion Hin].
        apply list_elem_of_fmap in Hx as (i & Ei & Hi).
        rewrite Forall_forall in Hne. apply (Hne i Hi). congruence.
      * apply NoDup_singleton.
    + pose proof (add_item_spec item fs) as S. rewrite E in S. now subst.
  - pose proof (update_item_spec item_id item fs) as S.
    destruct (update_item item_id item fs) as [[msg|e] fs']; cbn [snd].
    + destruct S as (pre & r & post & n & x & p & (Ei & _) & _ & _ & ->).
      cbn [DATA_FILE]. rewrite (ids_middle pre post r) by reflexivity.
      now rewrite <- Ei.
    + destruct S as [-> _]. exact Hnd.
  - rewrite delete_item_spec. destruct (decide _); [exact Hnd|].
    cbn [snd DATA_FILE]. rewrite ids_filter. now apply NoDup_filter.
  - pose proof (sell_item_spec today item_id data fs) as S.
    destruct (sell_item today item_id data fs) as [[msg|e] fs']; cbn [snd].
    + destruct S as (v & s & pre & r & post & q & sd & ti & sf & p
                     & _ & _ & _ & (Ei & _) & _ & _ & ->).
      cbn [DATA_FILE]. rewrite (ids_middle pre post r) by reflexivity.
      now rewrite <- Ei.
    + now subst.
Qed.

(** X6: requests keep the ids of the inventory pairwise distinct: an added
    row gets a new id, an update and a sale keep the ids, a deletion
    removes rows. *)
Theorem ids_stay_distinct (ops : list op) (fs : files) :
  NoDup (row_ids (DATA_FILE fs)) -> NoDup (row_ids (DATA_FILE (run ops fs))).
Proof.
  revert fs. induction ops as [|o ops IH]; intros fs H; [exact H|].
  cbn [run]. apply IH, exec_ids_distinct, H.
Qed.

Lemma ids_stay_distinct_witness :
  NoDup (row_ids (DATA_FILE (run restock_then_sell demo))).
Proof.
  apply (ids_stay_distinct restock_then_sell demo).
  apply (bool_decide_eq_true_1 _). reflexivity.
Defined.

Lemma filter_fresh (item_id : string) (items : list row) :
  Forall (fun i => i_id i <> item_id) items ->
  filter (fun i => i_id i <> item_id) items = items.
Proof.
  induction 1 as [|i items Hi _ IH]; [reflexivity|].
  rewrite filter_cons. destruct (decide _); [now rewrite IH|contradiction].
Qed.

(** X7: when the inventory with the added row holds only fields within
    the limit of the reader, 131072 characters, and without carriage
    return, so that the file is read as it was written: deleting the row
    that was just added gives back the files as they were before, which
    are read as written too, and the same id is assigned again by the
    next addition. *)
Theorem add_then_delete_restores (item : payload) (fs : files)
    (msg next : string) (fs1 : files) :
  add_item item fs = (Ok (msg, next), fs1) ->
  round_trips (DATA_FILE fs1) ->
  read_items_text (inventory_text (DATA_FILE fs1)) = Some (DATA_FILE fs1)
  /\ delete_item next fs1 = (Ok "Item deleted", fs)
  /\ read_items_text (inventory_text (DATA_FILE fs)) = Some (DATA_FILE fs)
  /\ forall item2 msg2 next2 fs2,
       add_item item2 (snd (delete_item next fs1)) = (Ok (msg2, next2), fs2)
       -> next2 = next.
Proof.
  intros H Hrt. split; [now apply round_trips_read|].
  assert (Hd : delete_item next fs1 = (Ok "Item deleted", fs)).
  { destruct (added_fresh _ _ _ _ _ H) as (n & _ & _ & Hne & r & Hr & ->).
    rewrite delete_item_spec. cbn [DATA_FILE SALES_FILE].
    rewrite filter_app, (filter_fresh _ _ Hne), filter_cons.
    destruct (decide (i_id r <> next)) as [N|_]; [contradiction|].
    rewrite filter_nil, app_nil_r.
    destruct (decide _) as [E|_].
    - apply (f_equal length) in E. rewrite length_app in E. cbn in E. lia.
    - now rewrite files_eta. }
  split; [exact Hd|]. split.
  { destruct (added_fresh _ _ _ _ _ H) as (n & _ & _ & _ & r & _ & ->).
    cbn [DATA_FILE] in Hrt. apply round_trips_read.
    now apply round_trips_app in Hrt as [? _]. }
  rewrite Hd. cbn [snd].
  intros item2 msg2 next2 fs2 H2.
  pose proof (add_item_spec item fs) as S. rewrite H in S.
  pose proof (add_item_spec item2 fs) as S2. rewrite H2 in S2.
  destruct S as (q & pv & n & x & p & l & Ha & _ & _ & -> & _).
  destruct S2 as (q2 & pv2 & n2 & x2 & p2 & l2 & Ha2 & _ & _ & -> & _).
  destruct Ha as (_ & _ & _ & _ & _ & Hl & _).
  destruct Ha2 as (_ & _ & _ & _ & _ & Hl2 & _). congruence.
Qed.

Lemma add_then_delete_restores_witness :
  read_items_text (inventory_text (DATA_FILE (snd (add_item new_nut demo))))
  = Some (DATA_FILE (snd (add_item new_nut demo)))
  /\ delete_item "004" (snd (add_item new_nut demo))
     = (Ok "Item deleted", demo)
  /\ read_items_text (inventory_text (DATA_FILE demo))
     = Some (DATA_FILE demo)
  /\ forall item2 msg2 next2 fs2,
       add_item item2 (snd (delete_item "004" (snd (add_item new_nut demo))))
       = (Ok (msg2, next2), fs2)
       -> next2 = "004".
Proof.
  apply (add_then_delete_restores new_nut demo "Item added" "004"
           (snd (add_item new_nut demo)) eq_refl).
  apply round_trips_check. vm_compute. reflexivity.
Defined.

End Ids.

(** ** The ledger over the requests *)

Section Ledger.
Import PyStr PyInt.

Lemma exec_ledger_grows (o : op) (fs : files) :
  exists new,
    SALES_FILE (exec o fs) = SALES_FILE fs ++ new
    /\ (length new <= if is_sell o then 1 else 0)%nat
    /\ Forall sale_entry new.
Proof.
  destruct o as [item|item_id item|item_id|today item_id data];
    cbn [exec is_sell].
  - exists []. rewrite app_nil_r. split; [|split; [reflexivity|constructor]].
    pose proof (add_item_spec item fs) as S.
    destruct (add_item item fs) as [[[msg next]|e] fs']; cbn [snd].
    + destruct S as (q & pv & n & x & p & l & _ & _ & _ & _ & ->).
      reflexivity.
    + now subst.
  - exists []. rewrite app_nil_r. split; [|split; [reflexivity|constructor]].
    pose proof (update_item_spec item_id item fs) as S.
    destruct (update_item item_id item fs) as [[msg|e] fs']; cbn [snd].
    + destruct S as (pre & r & post & n & x & p & _ & _ & _ & ->).
      reflexivity.
    + destruct S as [-> _]. reflexivity.
  - exists []. rewrite app_nil_r. split; [|split; [reflexivity|constructor]].
    rewrite delete_item_spec. destruct (decide _); reflexivity.
  - pose proof (sell_item_spec today item_id data fs) as S.
    destruct (sell_item today item_id data fs) as [[msg|e] fs']; cbn [snd].
    + destruct S as (v & s & pre & r & post & q & sd & ti & sf & p
                     & _ & _ & Hs & _ & _ & _ & ->).
      eexists. split; [reflexivity|]. split; [reflexivity|].
      constructor; [|constructor]. exists s. split; [exact Hs|reflexivity].
    + subst. exists []. rewrite app_nil_r.
      split; [reflexivity|]. split; [cbn; lia|constructor].
Qed.

(** X8: the ledger only grows: whatever the requests, the rows it held stay
    at its head, in order; the rows added are at most as many as the
    sales requested, each with a positive number of units. *)
Theorem ledger_only_grows (ops : list op) (fs : files) :
  exists new,
    SALES_FILE (run ops fs) = SALES_FILE fs ++ new
    /\ (length new <= length (List.filter is_sell ops))%nat
    /\ Forall sale_entry new.
Proof.
  revert fs. induction ops as [|o ops IH]; intros fs.
  - exists []. rewrite app_nil_r. split; [reflexivity|].
    split; [reflexivity|constructor].
  - cbn [run]. destruct (IH (exec o fs)) as (new2 & E2 & L2 & F2).
    destruct (exec_ledger_grows o fs) as (new1 & E1 & L1 & F1).
    exists (new1 ++ new2). split; [now rewrite E2, E1, app_assoc|].
    split; [|now apply Forall_app].
    rewrite length_app. cbn [List.filter].
    destruct (is_sell o); cbn [length]; lia.
Qed.

(** X9: a sale that succeeds moves units from the quantity of one row to its
    sold counter and logs them: the sum of the two stays, the quantity
    does not go below zero, and the id, the name and the price of the row
    stay. *)
Theorem sell_conserves_units (today : date) (item_id : string)
    (data : payload) (fs : files) (msg : string) (fs' : files) :
  sell_item today item_id data fs = (Ok msg, fs') ->
  exists pre r post r' e q sd s,
    first_match item_id (DATA_FILE fs) pre r post
    /\ DATA_FILE fs' = pre ++ r' :: post
    /\ SALES_FILE fs' = SALES_FILE fs ++ [e]
    /\ of_str (i_quantity r) = Some q /\ of_str (i_sold r) = Some sd
    /\ of_str (s_sold_quantity e) = Some s
    /\ of_str (i_quantity r') = Some (q - s)
    /\ of_str (i_sold r') = Some (sd + s)
    /\ 0 < s <= q
    /\ i_id r' = i_id r /\ i_name r' = i_name r /\ i_price r' = i_price r
    /\ s_item_id e = item_id /\ s_item_name e = i_name r
    /\ s_date e = isoformat today.
Proof.
  intros H. pose proof (sell_item_spec today item_id data fs) as S.
  rewrite H in S.
  destruct S as (v & s & pre & r & post & q & sd & ti & sf & p
                 & _ & _ & Hs & Hm & Hsell & _ & ->).
  destruct Hsell as (Hq & Hle & _ & Hsd & _).
  exists pre, r, post, (sold_row r q s sd ti sf p),
    (ledger_entry today item_id r s sf p), q, sd, s.
  cbn [DATA_FILE SALES_FILE sold_row ledger_entry i_id i_name i_price
       i_quantity i_sold s_sold_quantity s_item_id s_item_name s_date].
  rewrite !of_str_to_str.
  repeat split; first [assumption|reflexivity|lia|apply Hm].
Qed.

Lemma sell_conserves_units_witness :
  exists pre r post r' e q sd s,
    first_match "002" (DATA_FILE demo) pre r post
    /\ DATA_FILE (snd (sell_item may2 "002" sell3 demo)) = pre ++ r' :: post
    /\ SALES_FILE (snd (sell_item may2 "002" sell3 demo))
       = SALES_FILE demo ++ [e]
    /\ of_str (i_quantity r) = Some q /\ of_str (i_sold r) = Some sd
    /\ of_str (s_sold_quantity e) = Some s
    /\ of_str (i_quantity r') = Some (q - s)
    /\ of_str (i_sold r') = Some (sd + s)
    /\ 0 < s <= q
    /\ i_id r' = i_id r /\ i_name r' = i_name r /\ i_price r' = i_price r
    /\ s_item_id e = "002" /\ s_item_name e = i_name r
    /\ s_date e = isoformat may2.
Proof.
  exact (sell_conserves_units may2 "002" sell3 demo "3 units sold"
           (snd (sell_item may2 "002" sell3 demo)) eq_refl).
Defined.

End Ledger.

(** ** The text of a float is not the text of an integer *)

Section FloatText.
Import PyStr PyInt Csv.

Lemma any_char_app (p : ascii -> bool) (a b : string) :
  any_char p (String.append a b) = any_char p a || any_char p b.
Proof.
  induction a as [|c a IH]; [reflexivity|].
  change (any_char p (String c (String.append a b))
          = any_char p (String c a) || any_char p b).
  cbn [any_char]. rewrite IH. apply orb_assoc.
Qed.

Lemma never_in_int_spec (c : ascii) :
  never_in_int c = true ->
  is_digit c = false /\ Ascii.eqb c "_" = false /\ Ascii.eqb c "-" = false
  /\ Ascii.eqb c "+" = false /\ is_space_num c = false.
Proof.
  unfold never_in_int. rewrite negb_true_iff, !orb_false_iff. tauto.
Qed.

Lemma digits_never (s : string) (acc : Z) (us : bool) :
  any_char never_in_int s = true -> digits acc us s = None.
Proof.
  revert acc us. induction s as [|c s IH]; intros acc us; [discriminate|].
  cbn [any_char digits]. intros H.
  destruct (is_digit c) eqn:Hd.
  - apply IH. apply orb_true_iff in H as [H|H]; [|exact H].
    apply never_in_int_spec in H as (H & _). congruence.
  - destruct (Ascii.eqb c "_") eqn:Hu; [|reflexivity].
    destruct us; [reflexivity|]. apply IH.
    apply orb_true_iff in H as [H|H]; [|exact H].
    apply never_in_int_spec in H as (_ & H & _). congruence.
Qed.

Lemma unsigned_never (s : string) :
  any_char never_in_int s = true -> unsigned s = None.
Proof.
  intros H. unfold unsigned. destruct s as [|c s]; [reflexivity|].
  destruct (is_digit c); [|reflexivity]. now apply digits_never.
Qed.

Lemma lstrip_never (s : string) :
  any_char never_in_int s = true ->
  any_char never_in_int (lstrip is_space_num s) = true.
Proof.
  induction s as [|c s IH]; [discriminate|]. cbn [any_char lstrip].
  intros H. destruct (is_space_num c) eqn:Hs; [|exact H].
  apply IH. apply orb_true_iff in H as [H|H]; [|exact H].
  apply never_in_int_spec in H as (_ & _ & _ & _ & H). congruence.
Qed.

Lemma rstrip_never (s : string) :
  any_char never_in_int s = true ->
  any_char never_in_int (rstrip is_space_num s) = true.
Proof.
  induction s as [|c s IH]; [discriminate|]. cbn [any_char rstrip].
  intros H. destruct (never_in_int c) eqn:Hc.
  - pose proof (never_in_int_spec c Hc) as (_ & _ & _ & _ & Hs).
    rewrite Hs. destruct (rstrip is_space_num s); cbn [any_char];
      now rewrite Hc.
  - cbn [orb] in H. specialize (IH H).
    destruct (rstrip is_space_num s) as [|d r]; [discriminate|].
    cbn [any_char] in *. rewrite IH. apply orb_true_r.
Qed.

(** A text with a character that no integer holds is not an integer. *)
Lemma of_str_never (s : string) :
  any_char never_in_int s = true -> of_str s = None.
Proof.
  intros H. apply lstrip_never, rstrip_never in H.
  unfold of_str. fold (strip_with is_space_num s).
  unfold strip_with. destruct (rstrip _ _) as [|c r]; [discriminate|].
  cbn [any_char] in H.
  assert (Hr : never_in_int c = false -> unsigned r = None).
  { intros Hc. rewrite Hc in H. now apply unsigned_never. }
  assert (Hcr : unsigned (String c r) = None)
    by (apply unsigned_never; exact H).
  destruct c as [[] [] [] [] [] [] [] []];
    first [exact Hcr | now rewrite (Hr eq_refl)].
Qed.

Lemma layout_never (ds : string) (p : Z) :
  any_char never_in_int (PyFloat.layout ds p) = true.
Proof.
  unfold PyFloat.layout.
  repeat match goal with |- context [if ?b then _ else _] => destruct b end;
    rewrite ?any_char_app; cbn [any_char];
    change (never_in_int "e") with true; change (never_in_int ".") with true;
    rewrite ?orb_true_r, ?orb_true_l; reflexivity.
Qed.

Lemma float_text_never (x : PyFloat.float) :
  any_char never_in_int (PyFloat.to_str x) = true.
Proof.
  unfold PyFloat.to_str.
  destruct (PyFloat.canon x) as [[]|[]| |s m e]; try reflexivity.
  destruct (PyFloat.fraction m e) as [n d].
  destruct (PyFloat.shortest 16 1 m e (PyFloat.decpt n d)) as [c p].
  destruct s; [cbn [any_char]|]; rewrite layout_never; reflexivity.
Qed.

(** The text of a float is never the text of an integer. *)
Lemma float_text_not_int (x : PyFloat.float) :
  of_str (PyFloat.to_str x) = None.
Proof. apply of_str_never, float_text_never. Qed.

(** The text that is stored for a value reads as the integer that the
    value converts to, or not as an integer at all. *)
Lemma csv_field_int (v : pyval) (n : Z) :
  py_int v = Ok n ->
  of_str (csv_field v) = Some n
  \/ (of_str (csv_field v) = None
      /\ ((exists x, v = PFloat x) \/ (exists b, v = PBool b))).
Proof.
  destruct v as [|b|k|x|s]; cbn [py_int csv_field py_str]; intros H.
  - discriminate.
  - right. split; [destruct b; reflexivity|eauto].
  - injection H as ->. left. apply of_str_to_str.
  - right. split; [apply float_text_not_int|eauto].
  - destruct (of_str s) as [m|]; [|discriminate]. injection H as ->.
    now left.
Qed.

End FloatText.

(** ** Stock at zero or more *)

Section Stock.
Import PyStr PyInt.

Lemma stock_ok_middle (pre post : list row) (r r' : row) :
  (forall q, of_str (i_quantity r') = Some q -> 0 <= q) ->
  stock_ok (pre ++ r :: post) -> stock_ok (pre ++ r' :: post).
Proof.
  unfold stock_ok. intros Hr H. apply Forall_app in H as [Hpre Hpost].
  apply Forall_cons in Hpost as [_ Hpost].
  apply Forall_app. split; [exact Hpre|]. now constructor.
Qed.

Lemma exec_stock_ok (o : op) (fs : files) :
  is_update o = false ->
  stock_ok (DATA_FILE fs) -> stock_ok (DATA_FILE (exec o fs)).
Proof.
  intros Hu Hok.
  destruct o as [item|item_id item|item_id|today item_id data];
    cbn [exec]; [| discriminate | |].
  - pose proof (add_item_spec item fs) as S.
    destruct (add_item item fs) as [[[msg next]|e] fs']; cbn [snd];
      [|now subst].
    destruct S as (q & pv & n & x & p & l & Ha & Hmin & _ & _ & ->).
    destruct Ha as (_ & Hn & _). cbn [DATA_FILE].
    apply Forall_app. split; [exact Hok|]. constructor; [|constructor].
    unfold added_row. cbn [i_quantity]. intros q' Hq'.
    destruct (csv_field_int q n Hn) as [E|[E _]]; rewrite E in Hq';
      [|discriminate].
    injection Hq' as <-. lia.
  - rewrite delete_item_spec. destruct (decide _); [exact Hok|].
    cbn [snd DATA_FILE]. unfold stock_ok in *.
    rewrite Forall_forall in *. intros i [_ Hi]%list_elem_of_filter.
    now apply Hok.
  - pose proof (sell_item_spec today item_id data fs) as S.
    destruct (sell_item today item_id data fs) as [[msg|e] fs']; cbn [snd];
      [|now subst].
    destruct S as (v & s & pre & r & post & q & sd & ti & sf & p
                   & _ & _ & Hs & (Ei & _) & Hsell & _ & ->).
    cbn [DATA_FILE]. rewrite Ei in Hok.
    apply (stock_ok_middle pre post r); [|exact Hok].
    unfold sold_row. cbn [i_quantity]. rewrite of_str_to_str.
    intros q' [= <-]. destruct Hsell as (_ & Hle & _). lia.
Qed.

(** X10: additions, deletions and sales keep the stock at zero or more: if no
    quantity reads as a negative number before, none does after.  (An
    update stores whatever integer it is given.) *)
Theorem stock_never_negative (ops : list op) (fs : files) :
  forallb (fun o => negb (is_update o)) ops = true ->
  stock_ok (DATA_FILE fs) -> stock_ok (DATA_FILE (run ops fs)).
Proof.
  revert fs. induction ops as [|o ops IH]; intros fs Hops Hok; [exact Hok|].
  cbn [forallb] in Hops. apply andb_true_iff in Hops as [Ho Hops].
  apply negb_true_iff in Ho.
  cbn [run]. apply IH; [exact Hops|]. now apply exec_stock_ok.
Qed.

Lemma stock_never_negative_witness :
  stock_ok (DATA_FILE (run restock_then_sell demo)).
Proof.
  apply (stock_never_negative restock_then_sell demo eq_refl).
  repeat constructor; cbn [i_quantity widget bolt broken];
    intros q [= <-]; discriminate.
Defined.

End Stock.

(** ** Payloads that [add_item] stores or refuses *)

Section AddEdges.
Import PyStr PyInt.

Lemma holds_quantity_middle (item_id t : string) (pre post : list row)
    (r r' : row) :
  i_id r' = i_id r -> i_id r <> item_id ->
  holds_quantity item_id t (pre ++ r :: post) ->
  holds_quantity item_id t (pre ++ r' :: post).
Proof.
  intros Ei N [(i & Hi & Hid) Hall]. split.
  - exists i. split; [|exact Hid].
    apply elem_of_app in Hi as [Hi|Hi]; apply elem_of_app; [now left|].
    right. apply elem_of_cons in Hi as [->|Hi]; [contradiction|].
    now apply elem_of_cons; right.
  - apply Forall_app in Hall as [Hpre Hpost].
    apply Forall_cons in Hpost as [_ Hpost].
    apply Forall_app. split; [exact Hpre|]. constructor; [|exact Hpost].
    intros E. rewrite Ei in E. contradiction.
Qed.

Lemma holds_quantity_first (item_id t : string) (items pre : list row)
    (r : row) (post : list row) :
  holds_quantity item_id t items -> first_match item_id items pre r post ->
  i_quantity r = t.
Proof.
  intros [_ Hall] (-> & Hr & _). rewrite Forall_forall in Hall.
  apply (Hall r); [|exact Hr]. apply elem_of_app. right. constructor.
Qed.

Lemma exec_holds_quantity (o : op) (fs : files) (item_id t : string) :
  of_str t = None -> leaves item_id o = true ->
  holds_quantity item_id t (DATA_FILE fs) ->
  holds_quantity item_id t (DATA_FILE (exec o fs)).
Proof.
  intros Ht Ho Hq.
  destruct o as [item|id item|id|today id data]; cbn [exec leaves] in *.
  - destruct (add_item item fs) as [[[msg next]|e] fs'] eqn:E; cbn [snd].
    + destruct (added_fresh _ _ _ _ _ E) as (n & _ & _ & Hne & r & Hr & ->).
      cbn [DATA_FILE]. destruct Hq as [(i & Hi & Hid) Hall]. split.
      * exists i. split; [|exact Hid]. apply elem_of_app. now left.
      * apply Forall_app. split; [exact Hall|]. constructor; [|constructor].
        intros Er. exfalso. rewrite Forall_forall in Hne.
        apply (Hne i Hi). congruence.
    + pose proof (add_item_spec item fs) as S. rewrite E in S. now subst.
  - apply negb_true_iff, String.eqb_neq in Ho.
    pose proof (update_item_spec id item fs) as S.
    destruct (update_item id item fs) as [[msg|e] fs']; cbn [snd];
      [|destruct S as [-> _]; exact Hq].
    destruct S as (pre & r & post & n & x & p & (Ei & Hr & _) & _ & _ & ->).
    cbn [DATA_FILE]. rewrite Ei in Hq.
    apply (holds_quantity_middle item_id t pre post r);
      [reflexivity|congruence|exact Hq].
  - apply negb_true_iff, String.eqb_neq in Ho.
    rewrite delete_item_spec. destruct (decide _); [exact Hq|].
    cbn [snd DATA_FILE]. destruct Hq as [(i & Hi & Hid) Hall]. split.
    + exists i. split; [|exact Hid]. apply list_elem_of_filter.
      split; [congruence|exact Hi].
    + rewrite Forall_forall in *. intros j [_ Hj]%list_elem_of_filter.
      now apply Hall.
  - pose proof (sell_item_spec today id data fs) as S.
    destruct (sell_item today id data fs) as [[msg|e] fs']; cbn [snd];
      [|now subst].
    destruct S as (v & s & pre & r & post & q & sd & ti & sf & p
                   & _ & _ & _ & Hm & Hsell & _ & ->).
    cbn [DATA_FILE]. destruct (String.eqb_spec id item_id) as [->|N].
    + exfalso. rewrite <- (holds_quantity_first _ _ _ _ _ _ Hq Hm) in Ht.
      destruct Hsell as (Hqr & _). congruence.
    + destruct Hm as (Ei & Hr & _). rewrite Ei in Hq.
      apply (holds_quantity_middle item_id t pre post r);
        [reflexivity|congruence|exact Hq].
Qed.

Lemma run_holds_quantity (ops : list op) (fs : files) (item_id t : string) :
  of_str t = None -> forallb (leaves item_id) ops = true ->
  holds_quantity item_id t (DATA_FILE fs) ->
  holds_quantity item_id t (DATA_FILE (run ops fs)).
Proof.
  intros Ht. revert fs. induction ops as [|o ops IH]; intros fs Hops Hq;
    [exact Hq|].
  cbn [forallb] in Hops. apply andb_true_iff in Hops as [Ho Hops].
  cbn [run]. apply IH; [exact Hops|]. now apply exec_holds_quantity.
Qed.

Lemma sell_corrupt (today : date) (item_id : string) (data : payload)
    (fs : files) (v : pyval) (s : Z) (t : string) :
  of_str t = None -> holds_quantity item_id t (DATA_FILE fs) ->
  data !! "sold" = Some v -> py_int v = Ok s -> 0 < s ->
  sell_item today item_id data fs = (Raise CorruptQuantity, fs).
Proof.
  intros Ht Hq Hv Hs Hpos.
  destruct (first_match_dec item_id (DATA_FILE fs))
    as [Hnone|(pre & r & post & Hm)].
  { exfalso. destruct Hq as [(i & Hi & Hid) _].
    rewrite Forall_forall in Hnone. now apply (Hnone i Hi). }
  pose proof (holds_quantity_first _ _ _ _ _ _ Hq Hm) as Er.
  unfold sell_item. rewrite Hv, (py_int_not_blank _ _ Hs).
  unfold bind at 1, lift at 1. rewrite Hs. cbn [except_ValueError].
  destruct (Z.leb_spec s 0) as [?|_]; [lia|].
  unfold bind at 1, read_items at 1. unfold bind at 1.
  rewrite (for_first_split _ _ _ _ _ _ _ Hm).
  unfold sell_body, int_of_string, py_int.
  unfold bind at 1, lift at 1. rewrite Er, Ht. reflexivity.
Qed.

(** X11: a quantity given as a float passes the check of [add_item] by its
    integer part but is stored with its decimals.  From then on, as long
    as the new row is neither updated nor deleted and the inventory
    holds only fields within the limit of the reader, 131072 characters,
    and without carriage return before and after every request, so that
    it is read as it was written, [sell_item] refuses every sale of the
    row, whatever other requests came in between: its quantity is not an
    integer. *)
Theorem float_quantity_unsellable (item : payload) (fs : files)
    (msg next : string) (fs1 : files) (x : PyFloat.float) (ops : list op) :
  add_item item fs = (Ok (msg, next), fs1) ->
  item !! "quantity" = Some (PFloat x) ->
  forallb (leaves next) ops = true ->
  round_trips_along ops fs1 ->
  (exists r, DATA_FILE fs1 = DATA_FILE fs ++ [r] /\ i_id r = next
             /\ i_quantity r = PyFloat.to_str x)
  /\ read_items_text (inventory_text (DATA_FILE (run ops fs1)))
     = Some (DATA_FILE (run ops fs1))
  /\ forall today data v s,
       data !! "sold" = Some v -> py_int v = Ok s -> 0 < s ->
       sell_item today next data (run ops fs1)
       = (Raise CorruptQuantity, run ops fs1).
Proof.
  intros H Hx Hops Hrt.
  destruct (added_fresh _ _ _ _ _ H) as (_ & _ & _ & Hne & _).
  pose proof (add_item_spec item fs) as S. rewrite H in S.
  destruct S as (q & pv & n & y & p & l & Ha & _ & _ & Enext & ->).
  destruct Ha as (Hq & _). rewrite Hx in Hq. injection Hq as <-.
  split; [eexists; split; [reflexivity|]; split; reflexivity|].
  split; [apply round_trips_read, round_trips_run, Hrt|].
  intros today data v s. apply (sell_corrupt _ _ _ _ _ _ (PyFloat.to_str x)).
  - apply float_text_not_int.
  - apply run_holds_quantity;
      [apply float_text_not_int|exact Hops|]. cbn [DATA_FILE]. split.
    + eexists. split; [apply elem_of_app; right; constructor|reflexivity].
    + apply Forall_app. split.
      * eapply Forall_impl; [exact Hne|]. intros i N E. contradiction.
      * constructor; [|constructor]. reflexivity.
Qed.

Lemma float_quantity_unsellable_witness :
  (exists r, DATA_FILE (snd (add_item half_nut demo)) = DATA_FILE demo ++ [r]
             /\ i_id r = "004" /\ i_quantity r = "10.5")
  /\ read_items_text
       (inventory_text
          (DATA_FILE (run elsewhere (snd (add_item half_nut demo)))))
     = Some (DATA_FILE (run elsewhere (snd (add_item half_nut demo))))
  /\ forall today data v s,
       data !! "sold" = Some v -> py_int v = Ok s -> 0 < s ->
       sell_item today "004" data
         (run elsewhere (snd (add_item half_nut demo)))
       = (Raise CorruptQuantity,
          run elsewhere (snd (add_item half_nut demo))).
Proof.
  apply (float_quantity_unsellable half_nut demo "Item added" "004"
           (snd (add_item half_nut demo)) (float_of "10.5") elsewhere
           eq_refl eq_refl eq_refl).
  unfold elsewhere. cbn [round_trips_along].
  repeat (split; [apply round_trips_check; vm_compute; reflexivity|]).
  exact I.
Defined.

(** X12: a payload with a key that is no column is refused when the row is
    written, after every check passed: the request ends in [ValueError]
    and the inventory is as before. *)
Theorem add_item_unknown_key (item : payload) (fs : files) (q pv : pyval)
    (n : Z) (x p : PyFloat.float) (l : list Z) (k : string) :
  item !! "quantity" = Some q -> py_int q = Ok n -> 10 <= n ->
  item !! "price" = Some pv ->
  PyFloat.of_str (remove_char "$" (with_marker (py_str pv))) = Some p ->
  PyFloat.of_Z n = Some x ->
  int_ids (DATA_FILE fs) = Ok l ->
  is_Some (item !! k) -> k ∉ fieldnames ->
  add_item item fs = (Raise ValueError, fs).
Proof.
  intros Hq Hn Hmin Hpv Hp Hx Hids Hk Hnot.
  unfold add_item, getitem, replace_marker, float_of_string, investment,
    int_mul_float.
  monad_simpl. rewrite Hq. cbv beta iota. rewrite Hn.
  destruct (Z.ltb_spec n 10) as [?|_]; [lia|].
  rewrite Hpv. cbv beta iota zeta.
  rewrite (mark_price_price _ _ Hpv). cbv beta iota. rewrite Hp.
  rewrite mark_price_other by discriminate.
  rewrite Hq. cbv beta iota. rewrite Hn, Hx, (next_id_spec _ _ Hids).
  cbv beta iota. unfold dict_to_row.
  destruct (decide _) as [S|_]; [|reflexivity].
  exfalso. apply Hnot.
  assert (Hin : k ∈ (list_to_set fieldnames : gset string)).
  { apply S.
    rewrite !dom_insert, (mark_price_dom _ _ Hpv), !elem_of_union.
    right. right. right. now apply elem_of_dom. }
  now apply elem_of_list_to_set in Hin.
Qed.

Lemma add_item_unknown_key_witness :
  add_item tagged_nut demo = (Raise ValueError, demo).
Proof.
  assert (Hnot : "colour" ∉ fieldnames)
    by (apply (bool_decide_eq_true_1 _); reflexivity).
  assert (Hk : is_Some (tagged_nut !! "colour")) by (eexists; reflexivity).
  assert (Hmin : 10 <= 10) by discriminate.
  exact (add_item_unknown_key tagged_nut demo (PInt 10) (PStr "0.5") 10
           (float_of "10") (float_of "0.5") [1; 2; 3] "colour"
           eq_refl eq_refl Hmin eq_refl eq_refl eq_refl eq_refl Hk Hnot).
Defined.

Lemma mark_price_insert (item : payload) (p v : pyval) (k : string) :
  k <> "price" ->
  mark_price (<[k := v]> item) p = <[k := v]> (mark_price item p).
Proof.
  intros N. unfold mark_price. destruct (negb _); [|reflexivity].
  now apply insert_insert_ne.
Qed.

Lemma stored_dict (m : payload) (k : string) (v a b c : pyval) :
  k ∈ ["id"; "sold"; "total_investment"] ->
  <["id" := a]> (<["sold" := b]> (<["total_investment" := c]> (<[k := v]> m)))
  = <["id" := a]> (<["sold" := b]> (<["total_investment" := c]> m)).
Proof.
  intros Hk. apply map_eq. intros j.
  repeat (apply elem_of_cons in Hk as [->|Hk]); [| | |inversion Hk];
    destruct (decide (j = "id")) as [->|N1];
    rewrite ?lookup_insert_eq; try reflexivity;
    rewrite (lookup_insert_ne _ "id") by congruence;
    rewrite (lookup_insert_ne (<["sold" := b]> _) "id") by congruence;
    destruct (decide (j = "sold")) as [->|N2];
    rewrite ?lookup_insert_eq; try reflexivity;
    rewrite (lookup_insert_ne _ "sold") by congruence;
    rewrite (lookup_insert_ne (<["total_investment" := c]> _) "sold")
      by congruence;
    destruct (decide (j = "total_investment")) as [->|N3];
    rewrite ?lookup_insert_eq; try reflexivity;
    rewrite !(lookup_insert_ne _ "total_investment") by congruence;
    rewrite ?lookup_insert_ne by congruence; reflexivity.
Qed.

(** X13: the id, the sold counter and the investment of a new row are never
    the client's: whatever the payload holds under these keys, the
    request goes as if it held nothing there. *)
Theorem add_item_ignores_client_fields (item : payload) (fs : files)
    (k : string) (v : pyval) :
  k ∈ ["id"; "sold"; "total_investment"] ->
  add_item (<[k := v]> item) fs = add_item item fs.
Proof.
  intros Hk.
  assert (Nq : k <> "quantity" /\ k <> "price").
  { repeat (apply elem_of_cons in Hk as [->|Hk]);
      [split; discriminate..|inversion Hk]. }
  destruct Nq as [Nq Np].
  unfold add_item, getitem. monad_simpl.
  rewrite !(lookup_insert_ne item k) by assumption.
  destruct (item !! "quantity") as [q|]; [|reflexivity].
  destruct (py_int q) as [n|]; [|reflexivity].
  destruct (n <? 10); [reflexivity|].
  destruct (item !! "price") as [pv|]; [|reflexivity].
  cbv zeta. rewrite mark_price_insert by assumption.
  rewrite !(lookup_insert_ne (mark_price item pv) k) by assumption.
  destruct (mark_price item pv !! "price") as [price|]; [|reflexivity].
  destruct (replace_marker price) as [text|]; [|reflexivity].
  destruct (float_of_string text) as [price_num|]; [|reflexivity].
  destruct (mark_price item pv !! "quantity") as [q'|]; [|reflexivity].
  destruct (py_int q') as [quantity_num|]; [|reflexivity].
  destruct (investment quantity_num price_num) as [ti|]; [|reflexivity].
  destruct (next_id (DATA_FILE fs)) as [next|]; [|reflexivity].
  now rewrite stored_dict.
Qed.

Lemma add_item_ignores_client_fields_witness :
  add_item (<["id" := PStr "999"]> new_nut) demo = add_item new_nut demo.
Proof.
  apply (add_item_ignores_client_fields new_nut demo "id" (PStr "999")).
  apply list_elem_of_here.
Defined.

End AddEdges.

(** ** Updating twice, and after a deletion *)

Section UpdateDelete.
Import PyStr PyInt.

Lemma with_marker_idem (s : string) :
  with_marker (with_marker s) = with_marker s.
Proof.
  unfold with_marker at 1. now rewrite with_marker_starts.
Qed.

Lemma update_body_ok (item : payload) (r : row) (n : Z)
    (x p : PyFloat.float) (fs : files) :
  updatable item r n x p ->
  update_body item r fs = (Ok (updated_row item r x p), fs).
Proof.
  intros (Hp & Hn & Hx).
  unfold update_body, float_of_string, int_of_string, py_int, investment,
    int_mul_float.
  monad_simpl.
  fold (new_price item r). fold (new_quantity item r).
  fold (new_name item r). rewrite Hp, Hn, Hx. reflexivity.
Qed.

Lemma updated_again (item : payload) (r : row) (n : Z) (x p : PyFloat.float) :
  updatable item r n x p ->
  updatable item (updated_row item r x p) n x p
  /\ updated_row item (updated_row item r x p) x p = updated_row item r x p.
Proof.
  intros (Hp & Hn & Hx).
  assert (E1 : new_price item (updated_row item r x p) = new_price item r).
  { unfold updated_row. cbn [i_price]. unfold new_price.
    destruct (item !! "price"); cbn [from_option];
      [reflexivity|apply with_marker_idem]. }
  assert (E2 : new_quantity item (updated_row item r x p)
               = new_quantity item r).
  { unfold updated_row. cbn [i_quantity]. unfold new_quantity.
    destruct (item !! "quantity"); reflexivity. }
  assert (E3 : new_name item (updated_row item r x p) = new_name item r).
  { unfold updated_row. cbn [i_name]. unfold new_name.
    destruct (item !! "name"); reflexivity. }
  split.
  - unfold updatable. now rewrite E1, E2.
  - unfold updated_row at 1. rewrite E1, E2, E3. reflexivity.
Qed.

(** X14: an update is idempotent: when the inventory holds only fields
    within the limit of the reader, 131072 characters, and without
    carriage return before and after the update, so that the file is read
    as it was written, the same update sent again gives the same answer
    and leaves the files as the first one left them. *)
Theorem update_item_idempotent (item_id : string) (item : payload)
    (fs : files) :
  round_trips (DATA_FILE fs) ->
  round_trips (DATA_FILE (snd (update_item item_id item fs))) ->
  read_items_text
    (inventory_text (DATA_FILE (snd (update_item item_id item fs))))
  = Some (DATA_FILE (snd (update_item item_id item fs)))
  /\ update_item item_id item (snd (update_item item_id item fs))
     = update_item item_id item fs.
Proof.
  intros _ Hrt. split; [now apply round_trips_read|]. clear Hrt.
  pose proof (update_item_spec item_id item fs) as S.
  destruct (update_item item_id item fs) as [[msg|e] fs1] eqn:E; cbn [snd].
  - destruct S as (pre & r & post & n & x & p & Hm & Hu & -> & ->).
    destruct (updated_again item r n x p Hu) as [Hu' Er].
    assert (Hm' : first_match item_id (pre ++ updated_row item r x p :: post)
                    pre (updated_row item r x p) post).
    { destruct Hm as (_ & Hr & Hpre). repeat split; assumption. }
    unfold update_item. unfold bind at 1, read_items at 1. unfold bind at 1.
    cbn [DATA_FILE].
    rewrite (for_first_split _ _ _ _ _ _ _ Hm'),
      (update_body_ok _ _ _ _ _ _ Hu'), Er.
    reflexivity.
  - destruct S as [-> _]. exact E.
Qed.

Lemma update_item_idempotent_witness :
  read_items_text
    (inventory_text (DATA_FILE (snd (update_item "002" restock demo))))
  = Some (DATA_FILE (snd (update_item "002" restock demo)))
  /\ update_item "002" restock (snd (update_item "002" restock demo))
     = update_item "002" restock demo.
Proof.
  apply (update_item_idempotent "002" restock demo);
    apply round_trips_check; vm_compute; reflexivity.
Defined.

(** X15: after a deletion no row has the id: a second deletion, an update and
    a sale with it are refused as not found, and the ledger is as it
    was. *)
Theorem deleted_id_not_found (item_id : string) (fs : files) (msg : string)
    (fs' : files) :
  delete_item item_id fs = (Ok msg, fs') ->
  Forall (fun i => i_id i <> item_id) (DATA_FILE fs')
  /\ SALES_FILE fs' = SALES_FILE fs
  /\ delete_item item_id fs' = (Raise RecordNotFound, fs')
  /\ (forall item, update_item item_id item fs' = (Raise RecordNotFound, fs'))
  /\ (forall today data v s,
        data !! "sold" = Some v -> py_int v = Ok s -> 0 < s ->
        sell_item today item_id data fs' = (Raise RecordNotFound, fs')).
Proof.
  rewrite delete_item_spec. destruct (decide _) as [|_]; [discriminate|].
  intros [= <- <-]. cbn [DATA_FILE SALES_FILE].
  set (kept := filter (fun i => i_id i <> item_id) (DATA_FILE fs)).
  assert (Hnone : Forall (fun i => i_id i <> item_id) kept).
  { apply Forall_forall. now intros i [Hi _]%list_elem_of_filter. }
  split; [exact Hnone|]. split; [reflexivity|]. split; [|split].
  - rewrite delete_item_spec. cbn [DATA_FILE].
    rewrite (filter_fresh _ _ Hnone).
    destruct (decide _); [reflexivity|contradiction].
  - intros item. unfold update_item.
    unfold bind at 1, read_items at 1. unfold bind at 1. cbn [DATA_FILE].
    now rewrite for_first_none.
  - intros today data v s Hv Hs Hpos.
    unfold sell_item. rewrite Hv, (py_int_not_blank _ _ Hs).
    unfold bind at 1, lift at 1. rewrite Hs. cbn [except_ValueError].
    destruct (Z.leb_spec s 0) as [?|_]; [lia|].
    unfold bind at 1, read_items at 1. unfold bind at 1. cbn [DATA_FILE].
    now rewrite for_first_none.
Qed.

Lemma deleted_id_not_found_witness :
  Forall (fun i => i_id i <> "001") [bolt]
  /\ SALES_FILE (mk_files [bolt] []) = SALES_FILE twins
  /\ delete_item "001" (mk_files [bolt] [])
     = (Raise RecordNotFound, mk_files [bolt] [])
  /\ (forall item, update_item "001" item (mk_files [bolt] [])
                   = (Raise RecordNotFound, mk_files [bolt] []))
  /\ (forall today data v s,
        data !! "sold" = Some v -> py_int v = Ok s -> 0 < s ->
        sell_item today "001" data (mk_files [bolt] [])
        = (Raise RecordNotFound, mk_files [bolt] [])).
Proof.
  exact (deleted_id_not_found "001" twins "Item deleted"
           (mk_files [bolt] []) eq_refl).
Defined.

End UpdateDelete.

(** ** The chart and the order of the ledger *)

Section SalesMore.
Import PyStr PyInt.

Lemma ledger_ok_or_not (rows : list sale) :
  ledger_ok rows \/ ~ ledger_ok rows.
Proof.
  induction rows as [|r rows [IH|IH]].
  - left. constructor.
  - destruct (of_str (s_sold_quantity r)) as [q|] eqn:E.
    + left. constructor; [rewrite E; eauto|exact IH].
    + right. intros H. inversion H as [|? ? [q Hq] _]; subst. congruence.
  - right. intros H. inversion H; subst. contradiction.
Qed.

Lemma sales_loop_bad (rows : list sale) (acc : gmap string Z) :
  ~ ledger_ok rows -> sales_loop rows acc = Raise ValueError.
Proof.
  revert acc. induction rows as [|r rows IH]; intros acc H.
  - exfalso. apply H. constructor.
  - cbn [sales_loop int_of_string py_int].
    destruct (of_str (s_sold_quantity r)) as [q|] eqn:E; [|reflexivity].
    apply IH. intros Hok. apply H. constructor; [|exact Hok].
    rewrite E. eauto.
Qed.

(** The chart of a ledger whose quantities are integers. *)
Lemma sales_history_chart (fs : files) :
  ledger_ok (SALES_FILE fs) ->
  sales_history fs
  = (Ok (map (fun d => (d, total_on d (SALES_FILE fs)))
           (sorted (elements
                      (list_to_set (map s_date (SALES_FILE fs))
                       : gset string)))),
     fs).
Proof.
  intros Hok. unfold sales_history.
  destruct (sales_loop_spec _ ∅ Hok) as (sales & -> & Hdom & Hl).
  rewrite Hdom, dom_empty_L, (left_id_L ∅ (∪)). f_equal. f_equal.
  apply map_ext. intros d. rewrite Hl, lookup_empty. reflexivity.
Qed.

Lemma total_on_perm (d : string) (rows rows' : list sale) :
  rows ≡ₚ rows' -> total_on d rows = total_on d rows'.
Proof.
  induction 1 as [|r l l' _ IH|a b l|l1 l2 l3 _ IH1 _ IH2]; cbn [total_on];
    [reflexivity|now rewrite IH|lia|congruence].
Qed.

(** X16: the chart does not depend on the order of the rows of the
    ledger. *)
Theorem sales_history_permutation (fs fs' : files) :
  SALES_FILE fs ≡ₚ SALES_FILE fs' ->
  fst (sales_history fs) = fst (sales_history fs').
Proof.
  intros Hp. destruct (ledger_ok_or_not (SALES_FILE fs)) as [Hok|Hbad].
  - assert (Hok' : ledger_ok (SALES_FILE fs'))
      by (unfold ledger_ok in *; now rewrite <- Hp).
    rewrite !sales_history_chart by assumption. cbn [fst].
    rewrite (list_to_set_perm_L _ _ (fmap_Permutation s_date _ _ Hp)).
    f_equal. apply map_ext. intros d. f_equal. now apply total_on_perm.
  - assert (Hbad' : ~ ledger_ok (SALES_FILE fs'))
      by (unfold ledger_ok in *; now rewrite <- Hp).
    unfold sales_history. now rewrite !sales_loop_bad.
Qed.

Lemma sales_history_permutation_witness :
  fst (sales_history may_sales) = fst (sales_history shuffled_sales).
Proof.
  apply sales_history_permutation.
  cbn [SALES_FILE may_sales shuffled_sales].
  etransitivity; [apply perm_skip, perm_swap|]. apply perm_swap.
Defined.

Lemma sum_over_add (f g : string -> Z) (l : list string) :
  sum_over (fun d => f d + g d) l = sum_over f l + sum_over g l.
Proof. unfold sum_over. induction l as [|d l IH]; cbn [foldr]; lia. Qed.

Lemma sum_over_zero (l : list string) : sum_over (fun _ => 0) l = 0.
Proof. unfold sum_over. induction l as [|d l IH]; cbn [foldr]; lia. Qed.

Lemma sum_over_cons (f : string -> Z) (d : string) (l : list string) :
  sum_over f (d :: l) = f d + sum_over f l.
Proof. reflexivity. Qed.

Lemma sum_over_one (a : string) (q : Z) (l : list string) :
  NoDup l -> a ∈ l ->
  sum_over (fun d => if String.eqb a d then q else 0) l = q.
Proof.
  induction 1 as [|d l Hd Hnd IH]; [inversion 1|].
  rewrite sum_over_cons.
  intros [->|Ha]%elem_of_cons.
  - rewrite String.eqb_refl.
    assert (E : sum_over (fun d0 => if String.eqb d d0 then q else 0) l = 0).
    { clear IH Hnd. induction l as [|e l IH]; [reflexivity|].
      rewrite sum_over_cons.
      destruct (String.eqb_spec d e) as [->|_].
      - exfalso. apply Hd. constructor.
      - rewrite IH; [lia|]. intros H. apply Hd. now constructor. }
    lia.
  - destruct (String.eqb_spec a d) as [->|_]; [contradiction|].
    rewrite IH by assumption. lia.
Qed.

Lemma sum_total_on (l : list string) (rows : list sale) :
  NoDup l -> Forall (fun r => s_date r ∈ l) rows ->
  sum_over (fun d => total_on d rows) l = units_logged rows.
Proof.
  intros Hnd. induction 1 as [|r rows Hr _ IH].
  - cbn [total_on units_logged]. apply sum_over_zero.
  - cbn [total_on units_logged].
    rewrite (sum_over_add
               (fun d => if String.eqb (s_date r) d
                         then default 0 (of_str (s_sold_quantity r)) else 0)
               (fun d => total_on d rows)).
    rewrite IH, sum_over_one by assumption. reflexivity.
Qed.

Lemma chart_total_map (f : string -> Z) (l : list string) :
  chart_total (map (fun d => (d, f d)) l) = sum_over f l.
Proof.
  unfold chart_total, sum_over.
  induction l as [|d l IH]; cbn [map foldr snd] in *; congruence.
Qed.

Lemma chart_total_units (rows : list sale) :
  chart_total
    (map (fun d => (d, total_on d rows))
       (sorted (elements (list_to_set (map s_date rows) : gset string))))
  = units_logged rows.
Proof.
  rewrite (chart_total_map (fun d => total_on d rows)).
  apply sum_total_on.
  - unfold sorted. rewrite merge_sort_Permutation. apply NoDup_elements.
  - apply Forall_forall. intros r Hr.
    apply elem_of_sorted, elem_of_elements, elem_of_list_to_set.
    now apply list_elem_of_fmap_2.
Qed.

(** X17: the chart accounts for every unit of the ledger, once: its totals add
    up to the units of all the rows. *)
Theorem sales_history_total (fs : files) :
  ledger_ok (SALES_FILE fs) ->
  exists chart,
    sales_history fs = (Ok chart, fs)
    /\ chart_total chart = units_logged (SALES_FILE fs).
Proof.
  intros Hok. rewrite (sales_history_chart fs Hok).
  eexists. split; [reflexivity|]. apply chart_total_units.
Qed.

Lemma sales_history_total_witness :
  exists chart,
    sales_history may_sales = (Ok chart, may_sales)
    /\ chart_total chart = 11.
Proof.
  apply (sales_history_total may_sales).
  repeat constructor; eexists; reflexivity.
Defined.

(** X18: [sales_history] answers exactly when every quantity of the ledger
    reads as an integer; otherwise the request ends in [ValueError].  It
    leaves the files as they were. *)
Theorem sales_history_outcome (fs : files) :
  snd (sales_history fs) = fs
  /\ (ledger_ok (SALES_FILE fs) <->
      exists chart, fst (sales_history fs) = Ok chart)
  /\ (~ ledger_ok (SALES_FILE fs) <->
      fst (sales_history fs) = Raise ValueError).
Proof.
  destruct (ledger_ok_or_not (SALES_FILE fs)) as [Hok|Hbad].
  - rewrite (sales_history_chart fs Hok). cbn [fst snd].
    split; [reflexivity|]. split; split; eauto; try discriminate.
    contradiction.
  - unfold sales_history. rewrite (sales_loop_bad _ _ Hbad). cbn [fst snd].
    split; [reflexivity|]. split; split; auto; try contradiction.
    intros [chart H]. discriminate.
Qed.

End SalesMore.

(** ** One text for one day *)

Section IsoMore.
Import PyInt.

Lemma date_cases (a b : date) : a = b \/ date_lt a b \/ date_lt b a.
Proof.
  destruct a as [ya ma da], b as [yb mb db]. unfold date_lt.
  cbn [year month day].
  destruct (Z.lt_trichotomy ya yb) as [?|[->|?]]; [auto| |auto].
  destruct (Z.lt_trichotomy ma mb) as [?|[->|?]]; [auto 6| |auto 6].
  destruct (Z.lt_trichotomy da db) as [?|[->|?]]; auto 8.
Qed.

(** X19: the text of a date has ten characters, and two days have two
    texts: the chart has one entry for each day with a sale. *)
Theorem isoformat_injective (a b : date) :
  is_date a -> is_date b ->
  String.length (isoformat a) = 10%nat
  /\ (isoformat a = isoformat b -> a = b).
Proof.
  intros Ha Hb. split.
  - unfold isoformat. destruct Ha as (Hy & Hm & Hd).
    rewrite length_append. cbn [String.length].
    rewrite length_append. cbn [String.length].
    rewrite four_digits_length, !two_digits_length by lia. reflexivity.
  - intros E. destruct (date_cases a b) as [?|[H|H]]; [assumption| |];
      apply isoformat_order in H; try assumption;
      rewrite E in H; now apply str_lt_irrefl in H.
Qed.

Lemma isoformat_injective_witness :
  String.length (isoformat may1) = 10%nat
  /\ (isoformat may1 = isoformat may2 -> may1 = may2).
Proof.
  apply isoformat_injective; unfold is_date; cbn; lia.
Defined.

End IsoMore.

(** ** What the search finds *)

Section SearchMore.
Import PyStr.

Lemma prefix_lower (p s : string) :
  String.prefix p s = true -> String.prefix (lower p) (lower s) = true.
Proof.
  revert s. induction p as [|a p IH]; intros s;
    [intros _; apply prefix_empty|].
  destruct s as [|b s]; [discriminate|]. cbn [String.prefix lower].
  destruct (ascii_dec a b) as [->|]; [|discriminate].
  intros H. destruct (ascii_dec _ _); [now apply IH|contradiction].
Qed.

Lemma contains_lower (p s : string) :
  contains p s = true -> contains (lower p) (lower s) = true.
Proof.
  induction s as [|b s IH]; cbn [contains lower].
  - rewrite !orb_false_r. apply (prefix_lower p EmptyString).
  - intros [H|H]%orb_true_iff.
    + apply (prefix_lower p (String b s)) in H. cbn [lower] in H.
      now rewrite H.
    + rewrite (IH H). apply orb_true_r.
Qed.

Lemma lower_char_idem (c : ascii) : lower_char (lower_char c) = lower_char c.
Proof. destruct c as [[] [] [] [] [] [] [] []]; reflexivity. Qed.

Lemma lower_idem (s : string) : lower (lower s) = lower s.
Proof.
  induction s as [|c s IH]; [reflexivity|]. cbn [lower].
  now rewrite lower_char_idem, IH.
Qed.

Lemma filter_sublist {A} (f : A -> bool) (l : list A) :
  sublist (List.filter f l) l.
Proof.
  induction l as [|a l IH]; [constructor|]. cbn [List.filter].
  destruct (f a); now constructor.
Qed.

(** X20: for texts of code points below 256, where [lower] maps
    character by character, and an inventory whose fields are within the
    limit of the reader, 131072 characters, and without carriage return,
    so that the file is read as it was written: the search returns, in
    the order of the file, rows of the inventory; a row whose name or id
    holds the query as it is written is among them; and the letter case
    of the query does not matter. *)
Theorem search_finds_substring (query : string) (fs : files) :
  round_trips (DATA_FILE fs) ->
  exists items found,
    read_items_text (inventory_text (DATA_FILE fs)) = Some items
    /\ search_items query fs = (Ok found, fs)
    /\ sublist found items
    /\ (forall r, r ∈ items ->
                  contains query (i_name r) = true
                  \/ contains query (i_id r) = true ->
                  r ∈ found)
    /\ search_items (lower query) fs = search_items query fs.
Proof.
  intros Hrt. exists (DATA_FILE fs). eexists.
  split; [now apply round_trips_read|].
  split; [reflexivity|]. split; [apply filter_sublist|]. split.
  - intros r Hr H. apply list_elem_of_In, filter_In.
    split; [now apply list_elem_of_In|].
    apply orb_true_iff. destruct H as [H|H]; [left|right];
      now apply contains_lower.
  - unfold search_items. now rewrite lower_idem.
Qed.

Lemma search_finds_substring_witness :
  exists items found,
    read_items_text (inventory_text (DATA_FILE demo)) = Some items
    /\ search_items "WID" demo = (Ok found, demo)
    /\ sublist found items
    /\ (forall r, r ∈ items ->
                  contains "WID" (i_name r) = true
                  \/ contains "WID" (i_id r) = true ->
                  r ∈ found)
    /\ search_items (lower "WID") demo = search_items "WID" demo.
Proof.
  apply (search_finds_substring "WID" demo).
  apply round_trips_check. vm_compute. reflexivity.
Defined.

End SearchMore.

(** ** Quantities given as text *)

Section SellText.
Import PyStr PyInt.

Lemma lstrip_blank (p : ascii -> bool) (s : string) :
  all_chars p s = true -> lstrip p s = EmptyString.
Proof.
  induction s as [|c s IH]; [reflexivity|]. cbn [all_chars lstrip].
  intros [-> H]%andb_true_iff. now apply IH.
Qed.

(** X21: a sold quantity given as text: blank text counts as missing, text
    that is no integer is refused as such, and an integer that is not
    positive as such; the files stay. *)
Theorem sell_text_quantity (today : date) (item_id : string)
    (data : payload) (t : string) (fs : files) :
  data !! "sold" = Some (PStr t) ->
  (all_chars is_space t = true ->
   sell_item today item_id data fs = (Raise MissingQuantity, fs))
  /\ (all_chars is_space t = false -> of_str t = None ->
      sell_item today item_id data fs = (Raise InvalidQuantityFormat, fs))
  /\ (forall n, of_str t = Some n -> n <= 0 ->
      sell_item today item_id data fs = (Raise NonPositiveQuantity, fs)).
Proof.
  intros Hv. unfold sell_item. rewrite Hv. cbn [py_str].
  split; [|split].
  - intros Hb. unfold strip, strip_with. now rewrite lstrip_blank.
  - intros Hb Hn.
    destruct (is_empty (strip t)) eqn:E.
    + apply strip_empty in E. congruence.
    + unfold bind, lift. cbn [py_int]. rewrite Hn. reflexivity.
  - intros n Hn Hle.
    pose proof (py_int_not_blank (PStr t) n) as Hb.
    cbn [py_int py_str] in Hb. rewrite Hn in Hb. rewrite (Hb eq_refl).
    unfold bind, lift. cbn [py_int]. rewrite Hn. cbn [except_ValueError].
    destruct (Z.leb_spec n 0); [reflexivity|lia].
Qed.

Lemma sell_text_quantity_witness :
  (all_chars is_space "two" = true ->
   sell_item may1 "001" {[ "sold" := PStr "two" ]} demo
   = (Raise MissingQuantity, demo))
  /\ (all_chars is_space "two" = false -> of_str "two" = None ->
      sell_item may1 "001" {[ "sold" := PStr "two" ]} demo
      = (Raise InvalidQuantityFormat, demo))
  /\ (forall n, of_str "two" = Some n -> n <= 0 ->
      sell_item may1 "001" {[ "sold" := PStr "two" ]} demo
      = (Raise NonPositiveQuantity, demo)).
Proof.
  exact (sell_text_quantity may1 "001" {[ "sold" := PStr "two" ]} "two" demo
           eq_refl).
Defined.

End SellText.

(** ** The analysis *)

Section Analysis.
Import PyStr PyInt.

Lemma investments_spec (items : list row) :
  match investments items with
  | Ok values =>
      Forall2 (fun i x => PyFloat.of_str (i_total_investment i) = Some x)
        items values
  | Raise e =>
      e = ValueError
      /\ Exists (fun i => PyFloat.of_str (i_total_investment i) = None) items
  end.
Proof.
  induction items as [|i items IH]; [constructor|].
  cbn [investments]. unfold float_of_string.
  destruct (PyFloat.of_str (i_total_investment i)) as [x|] eqn:E.
  - destruct (investments items) as [values|e].
    + now constructor.
    + destruct IH as [-> IH]. split; [reflexivity|now constructor].
  - split; [reflexivity|]. now constructor.
Qed.

Lemma low_stock_spec (items : list row) :
  match low_stock items with
  | Ok n =>
      n = low_rows items
      /\ Forall (fun i => is_Some (of_str (i_quantity i))) items
  | Raise e =>
      e = ValueError
      /\ Exists (fun i => of_str (i_quantity i) = None) items
  end.
Proof.
  unfold low_rows.
  induction items as [|i items IH]; [split; [reflexivity|constructor]|].
  cbn [low_stock int_of_string py_int List.filter]. unfold low_row at 1.
  destruct (of_str (i_quantity i)) as [q|] eqn:E.
  - destruct (low_stock items) as [n|e].
    + destruct IH as [-> IH]. split; [|constructor; [eauto|exact IH]].
      destruct (q <=? LOW_STOCK_THRESHOLD); cbn [length]; lia.
    + destruct IH as [-> IH]. split; [reflexivity|now constructor].
  - split; [reflexivity|]. now constructor.
Qed.

(** Every outcome of [items_analysis]. *)
Lemma items_analysis_spec (fs : files) :
  match items_analysis fs with
  | (Ok a, fs') =>
      fs' = fs
      /\ Forall analysable (DATA_FILE fs)
      /\ total_items a = Z.of_nat (length (DATA_FILE fs))
      /\ low_stock_count a = low_rows (DATA_FILE fs)
      /\ exists values,
           Forall2 (fun i x => PyFloat.of_str (i_total_investment i) = Some x)
             (DATA_FILE fs) values
           /\ py_round2 (py_sum values) = Ok (total_investment a)
  | (Raise e, fs') =>
      fs' = fs /\ e = ValueError /\ ~ Forall analysable (DATA_FILE fs)
  end.
Proof.
  unfold items_analysis. monad_simpl.
  pose proof (investments_spec (DATA_FILE fs)) as Hi.
  destruct (investments (DATA_FILE fs)) as [values|e].
  - assert (Hr : exists t, py_round2 (py_sum values) = Ok t).
    { unfold py_sum. destruct values; cbn [py_round2]; eauto. }
    destruct Hr as [t Ht]. rewrite Ht.
    pose proof (low_stock_spec (DATA_FILE fs)) as Hl.
    destruct (low_stock (DATA_FILE fs)) as [n|e'].
    + destruct Hl as [-> Hq]. cbn [total_items low_stock_count
                                  total_investment].
      split; [reflexivity|]. split; [|split; [reflexivity|]].
      * apply Forall_forall. intros i Hin. split.
        -- apply list_elem_of_lookup in Hin as [k Hk].
           destruct (Forall2_lookup_l _ _ _ _ _ Hi Hk) as (x & _ & Hx).
           eauto.
        -- rewrite Forall_forall in Hq. now apply Hq.
      * split; [reflexivity|]. exists values. auto.
    + destruct Hl as [-> Hq]. split; [reflexivity|].
      split; [reflexivity|]. intros Hall.
      apply Exists_exists in Hq as (i & Hin & Hnone).
      rewrite Forall_forall in Hall. destruct (Hall i Hin) as [_ [q Hq]].
      congruence.
  - destruct Hi as [-> Hi]. split; [reflexivity|]. split; [reflexivity|].
    intros Hall. apply Exists_exists in Hi as (i & Hin & Hnone).
    rewrite Forall_forall in Hall. destruct (Hall i Hin) as [[x Hx] _].
    congruence.
Qed.

(** X22: the analysis answers exactly when the investment and the quantity of
    every row convert; it then counts the rows, and as low on stock those
    with a quantity of at most 5; an inventory without rows has the
    integer 0 as its investment.  When a field does not convert, the
    request ends in [ValueError].  The files stay as they were. *)
Theorem items_analysis_outcome (fs : files) :
  snd (items_analysis fs) = fs
  /\ (Forall analysable (DATA_FILE fs) ->
      exists a,
        fst (items_analysis fs) = Ok a
        /\ total_items a = Z.of_nat (length (DATA_FILE fs))
        /\ low_stock_count a = low_rows (DATA_FILE fs)
        /\ 0 <= low_stock_count a <= total_items a
        /\ (DATA_FILE fs = [] -> total_investment a = PInt 0)
        /\ (DATA_FILE fs <> [] -> exists x, total_investment a = PFloat x))
  /\ (~ Forall analysable (DATA_FILE fs) ->
      fst (items_analysis fs) = Raise ValueError).
Proof.
  pose proof (items_analysis_spec fs) as S.
  destruct (items_analysis fs) as [[a|e] fs']; cbn [fst snd].
  - destruct S as (-> & Hall & Ht & Hl & values & Hv & Hr).
    split; [reflexivity|]. split; [|contradiction].
    intros _. exists a. split; [reflexivity|]. split; [exact Ht|].
    split; [exact Hl|]. split; [|split].
    + rewrite Hl, Ht. unfold low_rows.
      pose proof (filter_length_le low_row (DATA_FILE fs)). lia.
    + intros E. rewrite E in Hv. inversion Hv; subst.
      cbn in Hr. congruence.
    + intros N. destruct Hv as [|i x items values Hx Hv]; [congruence|].
      cbn in Hr. injection Hr as <-. eauto.
  - destruct S as (-> & -> & Hbad). split; [reflexivity|].
    split; [contradiction|reflexivity].
Qed.

Lemma low_rows_app (l k : list row) :
  low_rows (l ++ k) = low_rows l + low_rows k.
Proof. unfold low_rows. rewrite List.filter_app, length_app. lia. Qed.

(** X23: after a row was added, the analysis counts one row more and as many
    rows low on stock as before: a new row holds 10 units at least. *)
Theorem analysis_after_add (item : payload) (fs : files) (msg next : string)
    (fs1 : files) (a a1 : analysis) :
  add_item item fs = (Ok (msg, next), fs1) ->
  items_analysis fs = (Ok a, fs) ->
  items_analysis fs1 = (Ok a1, fs1) ->
  total_items a1 = total_items a + 1
  /\ low_stock_count a1 = low_stock_count a.
Proof.
  intros Hadd Ha Ha1.
  pose proof (items_analysis_spec fs) as S. rewrite Ha in S.
  pose proof (items_analysis_spec fs1) as S1. rewrite Ha1 in S1.
  destruct S as (_ & _ & Ht & Hl & _).
  destruct S1 as (_ & Hall1 & Ht1 & Hl1 & _).
  pose proof (add_item_spec item fs) as A. rewrite Hadd in A.
  destruct A as (q & pv & n & x & p & l & Hok & Hmin & _ & _ & ->).
  cbn [DATA_FILE] in *. rewrite Ht1, Hl1, Ht, Hl, length_app, low_rows_app.
  split; [cbn [length]; lia|].
  apply Forall_app in Hall1 as [_ Hnew].
  apply Forall_cons in Hnew as [[_ [k Hk]] _].
  unfold added_row in Hk. cbn [i_quantity] in Hk.
  destruct Hok as (_ & Hn & _).
  assert (E : low_rows [added_row item next q pv x p] = 0).
  { unfold low_rows. cbn [List.filter]. unfold low_row, added_row.
    cbn [i_quantity]. rewrite Hk.
    destruct (csv_field_int q n Hn) as [E|[E _]]; rewrite E in Hk;
      [|discriminate].
    injection Hk as <-. unfold LOW_STOCK_THRESHOLD.
    destruct (Z.leb_spec n 5); [lia|reflexivity]. }
  rewrite E. lia.
Qed.

Lemma analysis_after_add_witness :
  total_items stocked_more = total_items stocked_now + 1
  /\ low_stock_count stocked_more = low_stock_count stocked_now.
Proof.
  exact (analysis_after_add new_nut stocked "Item added" "006"
           (snd (add_item new_nut stocked)) stocked_now stocked_more
           eq_refl eq_refl eq_refl).
Defined.

End Analysis.

(** ** The ledger and the sold counters *)

Section Counters.
Import PyStr PyInt.

Lemma units_of_app (item_id : string) (l k : list sale) :
  units_for item_id (l ++ k) = units_for item_id l + units_for item_id k.
Proof. induction l as [|r l IH]; cbn [app units_for]; lia. Qed.

Lemma nodup_middle (pre post : list row) (r : row) (k : nat) (r0 : row) :
  NoDup (row_ids (pre ++ r :: post)) ->
  (pre ++ r :: post) !! k = Some r0 -> i_id r0 = i_id r ->
  k = length pre.
Proof.
  intros Hnd Hk E. unfold row_ids in Hnd.
  assert (H1 : map i_id (pre ++ r :: post) !! k = Some (i_id r)).
  { rewrite list_lookup_fmap, Hk. cbn. now rewrite E. }
  assert (H2 : map i_id (pre ++ r :: post) !! length pre = Some (i_id r)).
  { rewrite list_lookup_fmap, list_lookup_middle by reflexivity.
    reflexivity. }
  eapply NoDup_lookup; eassumption.
Qed.

Lemma lookup_middle_other {A} (pre post : list A) (a b : A) (k : nat) :
  k <> length pre ->
  (pre ++ b :: post) !! k = (pre ++ a :: post) !! k.
Proof.
  intros N. destruct (Nat.lt_ge_cases k (length pre)) as [Hlt|Hge].
  - now rewrite !lookup_app_l.
  - rewrite !lookup_app_r by lia.
    destruct (k - length pre)%nat as [|j] eqn:E; [lia|reflexivity].
Qed.

Lemma exec_counter (o : op) (fs : files) (k : nat) (r : row) (sd : Z) :
  is_delete o = false -> NoDup (row_ids (DATA_FILE fs)) ->
  DATA_FILE fs !! k = Some r -> of_str (i_sold r) = Some sd ->
  exists r' new,
    DATA_FILE (exec o fs) !! k = Some r' /\ i_id r' = i_id r
    /\ SALES_FILE (exec o fs) = SALES_FILE fs ++ new
    /\ of_str (i_sold r') = Some (sd + units_for (i_id r) new).
Proof.
  intros Hd Hnd Hk Hsd.
  assert (Hsame : exists r' new,
             DATA_FILE fs !! k = Some r' /\ i_id r' = i_id r
             /\ SALES_FILE fs = SALES_FILE fs ++ new
             /\ of_str (i_sold r') = Some (sd + units_for (i_id r) new)).
  { exists r, []. rewrite app_nil_r. cbn [units_for].
    rewrite Z.add_0_r. auto. }
  destruct o as [item|item_id item|item_id|today item_id data];
    cbn [exec]; [| |discriminate|].
  - pose proof (add_item_spec item fs) as S.
    destruct (add_item item fs) as [[[msg next]|e] fs']; cbn [snd];
      [|now subst].
    destruct S as (q & pv & n & x & p & l & _ & _ & _ & _ & ->).
    exists r, []. cbn [DATA_FILE SALES_FILE units_for].
    rewrite app_nil_r, Z.add_0_r.
    rewrite lookup_app_l by (eapply lookup_lt_Some, Hk). auto.
  - pose proof (update_item_spec item_id item fs) as S.
    destruct (update_item item_id item fs) as [[msg|e] fs']; cbn [snd];
      [|destruct S as [-> _]; exact Hsame].
    destruct S as (pre & r0 & post & n & x & p & (Ei & _) & _ & _ & ->).
    cbn [DATA_FILE SALES_FILE]. rewrite Ei in Hk.
    destruct (decide (k = length pre)) as [->|N].
    + rewrite list_lookup_middle in Hk by reflexivity. injection Hk as ->.
      exists (updated_row item r x p), [].
      rewrite list_lookup_middle by reflexivity.
      cbn [units_for updated_row i_id i_sold].
      rewrite app_nil_r, Z.add_0_r. auto.
    + exists r, []. rewrite (lookup_middle_other pre post r0) by assumption.
      cbn [units_for]. rewrite app_nil_r, Z.add_0_r. auto.
  - pose proof (sell_item_spec today item_id data fs) as S.
    destruct (sell_item today item_id data fs) as [[msg|e] fs']; cbn [snd];
      [|subst; exact Hsame].
    destruct S as (v & s & pre & r0 & post & q & sd0 & ti & sf & p
                   & _ & _ & _ & (Ei & Hr0 & _) & Hsell & _ & ->).
    cbn [DATA_FILE SALES_FILE]. rewrite Ei in Hk, Hnd.
    destruct (decide (k = length pre)) as [->|N].
    + rewrite list_lookup_middle in Hk by reflexivity. injection Hk as ->.
      exists (sold_row r q s sd0 ti sf p),
        [ledger_entry today item_id r s sf p].
      rewrite list_lookup_middle by reflexivity.
      destruct Hsell as (_ & _ & _ & Hsd0 & _).
      rewrite Hsd in Hsd0. injection Hsd0 as <-.
      cbn [units_for ledger_entry sold_row i_id i_sold s_item_id
           s_sold_quantity].
      rewrite Hr0, String.eqb_refl, !of_str_to_str. cbn [default].
      rewrite Z.add_0_r. auto.
    + exists r, [ledger_entry today item_id r0 s sf p].
      rewrite (lookup_middle_other pre post r0) by assumption.
      cbn [units_for ledger_entry s_item_id].
      destruct (String.eqb_spec item_id (i_id r)) as [E|_].
      * exfalso. apply N. apply (nodup_middle pre post r0 k r Hnd Hk).
        congruence.
      * rewrite Z.add_0_r. auto.
Qed.

(** X24: the ledger and the sold counters agree: as long as no row is deleted
    and the ids are distinct, the sold counter of a row grows by exactly
    the units that the ledger logs for its id. *)
Theorem ledger_matches_counters (ops : list op) (fs : files) (k : nat)
    (r : row) (sd : Z) :
  forallb (fun o => negb (is_delete o)) ops = true ->
  NoDup (row_ids (DATA_FILE fs)) ->
  DATA_FILE fs !! k = Some r -> of_str (i_sold r) = Some sd ->
  exists r' new,
    DATA_FILE (run ops fs) !! k = Some r' /\ i_id r' = i_id r
    /\ SALES_FILE (run ops fs) = SALES_FILE fs ++ new
    /\ of_str (i_sold r') = Some (sd + units_for (i_id r) new).
Proof.
  revert fs r sd. induction ops as [|o ops IH]; intros fs r sd Hops Hnd Hk Hsd.
  - exists r, []. cbn [run units_for]. rewrite app_nil_r, Z.add_0_r. auto.
  - cbn [forallb] in Hops. apply andb_true_iff in Hops as [Ho Hops].
    apply negb_true_iff in Ho. cbn [run].
    destruct (exec_counter o fs k r sd Ho Hnd Hk Hsd)
      as (r1 & new1 & Hk1 & E1 & L1 & S1).
    destruct (IH (exec o fs) r1 _ Hops (exec_ids_distinct o fs Hnd) Hk1 S1)
      as (r2 & new2 & Hk2 & E2 & L2 & S2).
    exists r2, (new1 ++ new2). split; [exact Hk2|].
    split; [congruence|]. split; [now rewrite L2, L1, app_assoc|].
    rewrite S2, E1, units_of_app. f_equal. lia.
Qed.


Lemma ledger_matches_counters_witness :
  exists r' new,
    DATA_FILE (run two_sales demo) !! 1%nat = Some r' /\ i_id r' = i_id bolt
    /\ SALES_FILE (run two_sales demo) = SALES_FILE demo ++ new
    /\ of_str (i_sold r') = Some (8 + units_for (i_id bolt) new).
Proof.
  apply (ledger_matches_counters two_sales demo 1 bolt 8 eq_refl).
  - apply (bool_decide_eq_true_1 _). reflexivity.
  - reflexivity.
  - reflexivity.
Defined.

(** X25: what a request does to the listing, when the inventory holds only
    fields within the limit of the reader, 131072 characters, and without
    carriage return before and after the request, so that the file is
    read as it was written: an addition appends one row with a new id or
    changes nothing, an update and a sale keep the ids in their places, a
    deletion takes out the rows with the id and keeps the others in
    order. *)
Theorem listing_after_request (o : op) (fs : files) :
  round_trips (DATA_FILE fs) -> round_trips (DATA_FILE (exec o fs)) ->
  exists items,
    read_items_text (inventory_text (DATA_FILE (exec o fs))) = Some items
    /\ get_items (exec o fs) = (Ok items, exec o fs)
    /\ match o with
       | Add _ =>
           items = DATA_FILE fs
           \/ exists r, items = DATA_FILE fs ++ [r]
                        /\ i_id r ∉ row_ids (DATA_FILE fs)
       | Update _ _ | Sell _ _ _ =>
           row_ids items = row_ids (DATA_FILE fs)
           /\ length items = length (DATA_FILE fs)
       | Delete item_id =>
           items = filter (fun i => i_id i <> item_id) (DATA_FILE fs)
       end.
Proof.
  intros _ Hrt. exists (DATA_FILE (exec o fs)).
  split; [now apply round_trips_read|]. clear Hrt. split; [reflexivity|].
  destruct o as [item|item_id item|item_id|today item_id data]; cbn [exec].
  - destruct (add_item item fs) as [[[msg next]|e] fs'] eqn:E; cbn [snd].
    + right.
      destruct (added_fresh _ _ _ _ _ E) as (n & _ & _ & Hne & r & Hr & ->).
      exists r. split; [reflexivity|]. rewrite Hr.
      intros (i & Ei & Hi)%list_elem_of_fmap.
      rewrite Forall_forall in Hne. now apply (Hne i Hi).
    + left. pose proof (add_item_spec item fs) as S. rewrite E in S.
      now subst.
  - pose proof (update_item_spec item_id item fs) as S.
    destruct (update_item item_id item fs) as [[msg|e] fs']; cbn [snd].
    + destruct S as (pre & r & post & n & x & p & (Ei & _) & _ & _ & ->).
      cbn [DATA_FILE]. rewrite Ei, (ids_middle pre post r) by reflexivity.
      split; [reflexivity|]. rewrite !length_app. reflexivity.
    + destruct S as [-> _]. auto.
  - rewrite delete_item_spec. destruct (decide _) as [E|_]; cbn [snd];
      [now rewrite E|reflexivity].
  - pose proof (sell_item_spec today item_id data fs) as S.
    destruct (sell_item today item_id data fs) as [[msg|e] fs']; cbn [snd].
    + destruct S as (v & s & pre & r & post & q & sd & ti & sf & p
                     & _ & _ & _ & (Ei & _) & _ & _ & ->).
      cbn [DATA_FILE]. rewrite Ei, (ids_middle pre post r) by reflexivity.
      split; [reflexivity|]. rewrite !length_app. reflexivity.
    + subst. auto.
Qed.

Lemma listing_after_request_witness :
  exists items,
    read_items_text (inventory_text (DATA_FILE (exec (Delete "001") twins)))
    = Some items
    /\ get_items (exec (Delete "001") twins)
       = (Ok items, exec (Delete "001") twins)
    /\ items = filter (fun i => i_id i <> "001") (DATA_FILE twins).
Proof.
  apply (listing_after_request (Delete "001") twins);
    apply round_trips_check; vm_compute; reflexivity.
Defined.

Lemma low_row_sold (r : row) (q s sd : Z) (ti sf p : PyFloat.float) :
  sellable r q s sd ti sf p -> 0 < s ->
  (low_row r = true -> low_row (sold_row r q s sd ti sf p) = true).
Proof.
  intros (Hq & _) Hs. unfold low_row, sold_row. cbn [i_quantity].
  rewrite Hq, of_str_to_str. unfold LOW_STOCK_THRESHOLD.
  intros H%Z.leb_le. apply Z.leb_le. lia.
Qed.

Lemma low_rows_middle (pre post : list row) (r : row) :
  low_rows (pre ++ r :: post)
  = low_rows pre + (if low_row r then 1 else 0) + low_rows post.
Proof.
  rewrite low_rows_app. change (r :: post) with ([r] ++ post).
  rewrite low_rows_app. unfold low_rows at 2. cbn [List.filter].
  destruct (low_row r); cbn [length]; lia.
Qed.

(** X26: a sale keeps the number of rows; the number of rows low on stock
    stays or grows by one. *)
Theorem analysis_after_sale (today : date) (item_id : string)
    (data : payload) (fs : files) (msg : string) (fs1 : files)
    (a a1 : analysis) :
  sell_item today item_id data fs = (Ok msg, fs1) ->
  items_analysis fs = (Ok a, fs) ->
  items_analysis fs1 = (Ok a1, fs1) ->
  total_items a1 = total_items a
  /\ low_stock_count a <= low_stock_count a1 <= low_stock_count a + 1.
Proof.
  intros Hsell Ha Ha1.
  pose proof (items_analysis_spec fs) as S. rewrite Ha in S.
  pose proof (items_analysis_spec fs1) as S1. rewrite Ha1 in S1.
  destruct S as (_ & _ & Ht & Hl & _).
  destruct S1 as (_ & _ & Ht1 & Hl1 & _).
  pose proof (sell_item_spec today item_id data fs) as A. rewrite Hsell in A.
  destruct A as (v & s & pre & r & post & q & sd & ti & sf & p
                 & _ & _ & Hs & (Ei & _) & Hok & _ & ->).
  cbn [DATA_FILE] in *. rewrite Ht1, Hl1, Ht, Hl, Ei, !length_app.
  split; [reflexivity|]. rewrite !low_rows_middle.
  pose proof (low_row_sold r q s sd ti sf p Hok Hs) as H.
  destruct (low_row r); [rewrite (H eq_refl); lia|].
  destruct (low_row _); lia.
Qed.

Lemma analysis_after_sale_witness :
  total_items stocked_less = total_items stocked_now
  /\ low_stock_count stocked_now <= low_stock_count stocked_less
     <= low_stock_count stocked_now + 1.
Proof.
  exact (analysis_after_sale may1 "001" sell_most stocked "16 units sold"
           (snd (sell_item may1 "001" sell_most stocked))
           stocked_now stocked_less eq_refl eq_refl eq_refl).
Defined.

End Counters.

(** ** What [str] makes of a float, [float] reads *)

Section FloatParses.
Import PyStr PyInt PyFloat Csv.

Lemma read_digits_app (a rest : string) (acc cnt : Z) :
  all_chars is_digit a = true ->
  match rest with String c _ => is_digit c = false | EmptyString => True end ->
  exists v, read_digits acc cnt (String.append a rest)
            = (v, cnt + Z.of_nat (String.length a), rest).
Proof.
  revert acc cnt. induction a as [|c a IH]; intros acc cnt Ha Hrest.
  - exists acc. change (String.append EmptyString rest) with rest.
    cbn [String.length]. rewrite Z.add_0_r.
    destruct rest as [|c r]; [reflexivity|]. cbn [read_digits].
    now rewrite Hrest.
  - cbn [all_chars] in Ha. apply andb_true_iff in Ha as [Hc Ha].
    rewrite append_cons. cbn [read_digits]. rewrite Hc.
    destruct (IH (10 * acc + digit_val c) (cnt + 1) Ha Hrest) as [v Hv].
    exists v. rewrite Hv. f_equal. f_equal. cbn [String.length]. lia.
Qed.

Lemma read_digits_all (a : string) (acc cnt : Z) :
  all_chars is_digit a = true ->
  exists v, read_digits acc cnt a
            = (v, cnt + Z.of_nat (String.length a), EmptyString).
Proof.
  intros Ha. destruct (read_digits_app a EmptyString acc cnt Ha I) as [v Hv].
  rewrite append_empty_r in Hv. eauto.
Qed.

Lemma parse_tail (neg : bool) (m nf ni : Z) (r2 : string) :
  0 < ni + nf ->
  r2 = EmptyString \/ exponent_text r2 ->
  is_Some
    (if ni + nf =? 0 then None
     else
       match r2 with
       | EmptyString => Some (of_decimal neg m (- nf))
       | String c r3 =>
           if Ascii.eqb c "e" || Ascii.eqb c "E" then
             let (eneg, r4) := read_sign r3 in
             let '(ev, ne, r5) := read_digits 0 0 r4 in
             if (ne =? 0) || negb (is_empty r5) then None
             else Some (of_decimal neg m ((if eneg then - ev else ev) - nf))
           else None
       end).
Proof.
  intros Hpos Hr.
  destruct (Z.eqb_spec (ni + nf) 0) as [?|_]; [lia|].
  destruct Hr as [->|(sgn & x & -> & Hs & Hx & Hne)]; [eauto|].
  cbn [Ascii.eqb orb]. change (Ascii.eqb "e" "e") with true. cbn [orb].
  destruct (read_digits_all x 0 0 Hx) as [v Hv].
  assert (Hlen : 0 < Z.of_nat (String.length x))
    by (destruct x; [congruence|cbn [String.length]; lia]).
  destruct Hs as [-> | ->]; cbn [read_sign]; rewrite Hv;
    (destruct (Z.eqb_spec (0 + Z.of_nat (String.length x)) 0) as [?|_];
     [lia|]); cbn [is_empty negb orb]; eauto.
Qed.

Lemma exponent_not_digit (r : string) :
  r = EmptyString \/ exponent_text r ->
  match r with String c _ => is_digit c = false | EmptyString => True end.
Proof.
  intros [->|(sgn & x & -> & _)]; [exact I|reflexivity].
Qed.

(** Digits, a point, digits, and maybe an exponent. *)
Lemma parse_decimal_point (neg : bool) (a b r : string) :
  all_chars is_digit a = true -> all_chars is_digit b = true ->
  a <> EmptyString \/ b <> EmptyString ->
  r = EmptyString \/ exponent_text r ->
  is_Some (parse_decimal neg
             (String.append a (String "." (String.append b r)))).
Proof.
  intros Ha Hb Hne Hr. unfold parse_decimal.
  destruct (read_digits_app a (String "." (String.append b r)) 0 0 Ha eq_refl)
    as [ip ->].
  destruct (read_digits_app b r ip 0 Hb (exponent_not_digit r Hr))
    as [m ->].
  apply parse_tail; [|exact Hr].
  destruct Hne as [N|N]; [destruct a|destruct b]; try congruence;
    cbn [String.length]; lia.
Qed.

(** Digits and an exponent. *)
Lemma parse_decimal_exp (neg : bool) (a r : string) :
  all_chars is_digit a = true -> a <> EmptyString -> exponent_text r ->
  is_Some (parse_decimal neg (String.append a r)).
Proof.
  intros Ha Hne Hr. unfold parse_decimal.
  destruct (read_digits_app a r 0 0 Ha (exponent_not_digit r (or_intror Hr)))
    as [ip ->].
  destruct Hr as (sgn & x & -> & Hs & Hx & Hxne).
  apply (parse_tail neg ip 0 _ (String "e" (String sgn x))).
  - destruct a; [congruence|cbn [String.length]; lia].
  - right. exists sgn, x. auto.
Qed.


Lemma parse_decimal_plain (neg : bool) (a b : string) :
  all_chars is_digit a = true -> all_chars is_digit b = true ->
  a <> EmptyString \/ b <> EmptyString ->
  is_Some (parse_decimal neg (String.append a (String "." b))).
Proof.
  intros Ha Hb Hne.
  pose proof (parse_decimal_point neg a b EmptyString Ha Hb Hne
                (or_introl eq_refl)) as H.
  now rewrite append_empty_r in H.
Qed.

Lemma all_chars_substring (q : ascii -> bool) (n m : nat) (s : string) :
  all_chars q s = true -> all_chars q (String.substring n m s) = true.
Proof.
  revert n m. induction s as [|c s IH]; intros n m H.
  - destruct n, m; reflexivity.
  - cbn [all_chars] in H. apply andb_true_iff in H as [Hc Hs].
    destruct n as [|n]; [destruct m as [|m]|]; cbn [String.substring].
    + reflexivity.
    + cbn [all_chars]. now rewrite Hc, IH.
    + now apply IH.
Qed.

Lemma pad2_digits (s : string) :
  all_chars is_digit s = true -> s <> EmptyString ->
  all_chars is_digit (pad2 s) = true /\ pad2 s <> EmptyString.
Proof.
  intros H N. unfold pad2. destruct s as [|c [|d s]]; [congruence| |auto].
  split; [|discriminate]. cbn [all_chars] in *. exact H.
Qed.

Lemma starts_digit_app (a b : string) :
  starts_digit a -> starts_digit (String.append a b).
Proof. destruct a; [contradiction|exact id]. Qed.

Lemma starts_digit_substring (k : nat) (s : string) :
  starts_digit s -> starts_digit (String.substring 0 (S k) s).
Proof. destruct s; [contradiction|exact id]. Qed.

Lemma digits_start (s : string) :
  all_chars is_digit s = true -> s <> EmptyString -> starts_digit s.
Proof.
  destruct s as [|c s]; [congruence|]. cbn [all_chars starts_digit].
  now intros [H _]%andb_true_iff.
Qed.

Lemma starts_digit_not_empty (s : string) :
  starts_digit s -> s <> EmptyString.
Proof. destruct s; [contradiction|discriminate]. Qed.

Lemma layout_exponent (p : Z) :
  exponent_text
    (String "e"
       (String (if p - 1 <? 0 then "-"%char else "+"%char)
          (pad2 (PyInt.to_str (Z.abs (p - 1)))))).
Proof.
  destruct (text_digits (Z.abs (p - 1)) (Z.abs_nonneg _)) as (Hd & Hn & _).
  destruct (pad2_digits _ Hd Hn) as [Hd' Hn'].
  eexists _, _. split; [reflexivity|]. split; [|split; assumption].
  destruct (p - 1 <? 0); auto.
Qed.

(** The text that [layout] makes of digits reads as a decimal number,
    starts with a digit and holds a point or an exponent. *)
Lemma layout_parses (neg : bool) (ds : string) (p : Z) :
  all_chars is_digit ds = true -> ds <> EmptyString ->
  is_Some (parse_decimal neg (layout ds p))
  /\ starts_digit (layout ds p)
  /\ all_chars float_char (layout ds p) = true
  /\ any_char dot_or_e (layout ds p) = true.
Proof.
  intros Hd Hne.
  assert (Hf : forall s, all_chars is_digit s = true ->
                         all_chars float_char s = true).
  { intros s. apply all_chars_impl. intros c Hc. unfold float_char.
    now rewrite Hc. }
  pose proof (digits_start ds Hd Hne) as Hs.
  pose proof (layout_exponent p) as He.
  unfold layout.
  destruct ((p <=? -4) || (16 <? p)).
  - set (ex := String "e" _) in *.
    assert (Hex : all_chars float_char ex = true).
    { destruct He as (sgn & x & -> & Hsg & Hx & _).
      cbn [all_chars]. rewrite (Hf x Hx).
      destruct Hsg as [-> | ->]; reflexivity. }
    assert (Hde : any_char dot_or_e ex = true) by reflexivity.
    pose proof (all_chars_substring is_digit 0 1 ds Hd) as Hh.
    pose proof (all_chars_substring is_digit 1 (String.length ds - 1) ds Hd)
      as Ht.
    pose proof (starts_digit_substring 0 ds Hs) as Hsh.
    destruct (is_empty _) eqn:E.
    + split; [apply parse_decimal_exp; auto using starts_digit_not_empty|].
      split; [now apply starts_digit_app|].
      rewrite all_chars_app, any_char_app, (Hf _ Hh), Hex, Hde.
      split; [reflexivity|apply orb_true_r].
    + rewrite append_assoc, append_cons.
      change (String.append EmptyString ?x) with x.
      split; [apply parse_decimal_point; auto using starts_digit_not_empty|].
      split; [now apply starts_digit_app|].
      rewrite all_chars_app, any_char_app. cbn [all_chars any_char].
      rewrite all_chars_app, (Hf _ Hh), (Hf _ Ht), Hex.
      split; [reflexivity|]. cbn. apply orb_true_r.
  - destruct (Z.leb_spec p 0) as [_|Hp].
    + pose proof (all_chars_zeros (Z.to_nat (- p))) as Hz.
      assert (Hb : all_chars is_digit
                     (String.append (zeros (Z.to_nat (- p))) ds) = true)
        by now rewrite all_chars_app, Hz, Hd.
      split; [|split; [reflexivity|split]].
      * apply (parse_decimal_plain neg "0"); [reflexivity|exact Hb|].
        left. discriminate.
      * rewrite all_chars_app. now rewrite (Hf _ Hb).
      * rewrite any_char_app. reflexivity.
    + destruct (Z.of_nat (String.length ds) <=? p).
      * pose proof (all_chars_zeros
                      (Z.to_nat (p - Z.of_nat (String.length ds)))) as Hz.
        rewrite <- append_assoc.
        assert (Ha : all_chars is_digit
                       (String.append ds
                          (zeros (Z.to_nat
                                    (p - Z.of_nat (String.length ds)))))
                     = true)
          by now rewrite all_chars_app, Hz, Hd.
        split; [|split; [|split]].
        -- apply parse_decimal_plain; [exact Ha|reflexivity|].
           right. discriminate.
        -- now apply starts_digit_app, starts_digit_app.
        -- rewrite all_chars_app, (Hf _ Ha). reflexivity.
        -- rewrite any_char_app. cbn. apply orb_true_r.
      * pose proof (all_chars_substring is_digit 0 (Z.to_nat p) ds Hd) as Ha.
        pose proof (all_chars_substring is_digit (Z.to_nat p)
                      (Z.to_nat (Z.of_nat (String.length ds) - p)) ds Hd)
          as Hb.
        assert (Hsa : starts_digit (String.substring 0 (Z.to_nat p) ds)).
        { destruct (Z.to_nat p) as [|k] eqn:E; [lia|].
          now apply starts_digit_substring. }
        split; [|split; [|split]].
        -- apply parse_decimal_plain; [exact Ha|exact Hb|].
           left. now apply starts_digit_not_empty.
        -- now apply starts_digit_app.
        -- rewrite all_chars_app. cbn [all_chars].
           now rewrite (Hf _ Ha), (Hf _ Hb).
        -- rewrite any_char_app. cbn. apply orb_true_r.
Qed.


Lemma fraction_pos (m : positive) (e n d : Z) :
  fraction m e = (n, d) -> 0 < n /\ 0 < d.
Proof.
  unfold fraction. destruct (Z.leb_spec 0 e); intros [= <- <-].
  - split; [|lia]. apply Z.mul_pos_pos; [lia|]. now apply Z.pow_pos_nonneg.
  - split; [lia|]. apply Z.pow_pos_nonneg; lia.
Qed.

Lemma div_eucl_nonneg (a b q r : Z) :
  0 <= a -> 0 < b -> Z.div_eucl a b = (q, r) -> 0 <= q.
Proof.
  intros Ha Hb E. assert (q = a / b) as -> by (unfold Z.div; now rewrite E).
  now apply Z.div_pos.
Qed.

(** The digits that [shortest] finds are the digits of a number that is
    not negative. *)
Lemma shortest_nonneg (fuel : nat) (ndig : Z) (m : positive) (e p : Z) :
  0 <= fst (shortest fuel ndig m e p).
Proof.
  revert ndig. induction fuel as [|f IH]; intros ndig; cbn [shortest];
    destruct (fraction m e) as [n d] eqn:Ef;
    destruct (fraction_pos m e n d Ef) as [Hn Hd];
    destruct (Z.leb_spec 0 (ndig - p)) as [Hj|Hj];
    destruct (Z.div_eucl _ _) as [q r] eqn:Eq;
    (assert (Hq : 0 <= q);
     [ eapply div_eucl_nonneg; [| |exact Eq];
       first [ apply Z.mul_nonneg_nonneg; [lia|]; apply Z.pow_nonneg; lia
             | apply Z.mul_pos_pos; [lia|]; apply Z.pow_pos_nonneg; lia
             | lia ]
     | ]);
    repeat match goal with
           | |- context [match ?c ?= ?d with _ => _ end] =>
               destruct (c ?= d)
           | |- context [if ?b then _ else _] => destruct b
           end;
    cbn [fst]; try lia; apply IH.
Qed.


Lemma float_char_spec (c : ascii) :
  float_char c = true ->
  Ascii.eqb c "_" = false /\ is_space_num c = false.
Proof.
  destruct c as [[] [] [] [] [] [] [] []]; intros H;
    try discriminate H; split; reflexivity.
Qed.

Lemma strip_underscores_id (s : string) (prev : ascii) :
  Ascii.eqb prev "_" = false -> all_chars float_char s = true ->
  strip_underscores prev s = Some s.
Proof.
  revert prev. induction s as [|c s IH]; intros prev Hp H.
  - cbn [strip_underscores]. now rewrite Hp.
  - cbn [all_chars] in H. apply andb_true_iff in H as [Hc Hs].
    destruct (float_char_spec c Hc) as [Hu _].
    cbn [strip_underscores]. rewrite Hu, Hp. cbn [andb].
    now rewrite (IH c Hu Hs).
Qed.

Lemma strip_float_text (s : string) :
  all_chars float_char s = true -> strip_with is_space_num s = s.
Proof.
  intros H. unfold strip_with.
  assert (Hn : all_chars (fun c => negb (is_space_num c)) s = true).
  { eapply all_chars_impl; [|exact H]. intros c Hc.
    destruct (float_char_spec c Hc) as [_ E]. now rewrite E. }
  destruct s as [|c s]; [reflexivity|].
  rewrite lstrip_id; [now apply rstrip_id|].
  cbn in Hn. apply andb_true_iff in Hn as [Hc _].
  now apply negb_true_iff.
Qed.

Lemma dot_or_e_lower (s : string) :
  any_char dot_or_e s = true -> any_char dot_or_e (lower s) = true.
Proof.
  induction s as [|c s IH]; [discriminate|]. cbn [any_char lower].
  intros [H|H]%orb_true_iff.
  - assert (E : lower_char c = c).
    { destruct c as [[] [] [] [] [] [] [] []]; try discriminate H;
        reflexivity. }
    now rewrite E, H.
  - rewrite (IH H). apply orb_true_r.
Qed.

(** A text with a point or an [e] in it is none of the names [inf],
    [infinity] and [nan]. *)
Lemma not_a_name (s : string) :
  any_char dot_or_e s = true ->
  String.eqb (lower s) "inf" || String.eqb (lower s) "infinity" = false
  /\ String.eqb (lower s) "nan" = false.
Proof.
  intros H%dot_or_e_lower.
  split; [apply orb_false_iff; split|];
    apply String.eqb_neq; intros E; rewrite E in H; discriminate H.
Qed.

Lemma read_sign_digit (s : string) :
  starts_digit s -> read_sign s = (false, s).
Proof.
  destruct s as [|c s]; [contradiction|]. cbn [starts_digit].
  destruct c as [[] [] [] [] [] [] [] []]; intros H;
    try discriminate H; reflexivity.
Qed.

(** The text of digits laid out, with or without a sign before it, reads
    as a float. *)
Lemma of_str_layout (neg : bool) (ds : string) (p : Z) :
  all_chars is_digit ds = true -> ds <> EmptyString ->
  is_Some (of_str (if neg then String "-" (layout ds p) else layout ds p)).
Proof.
  intros Hd Hne.
  destruct (layout_parses neg ds p Hd Hne) as (Hp & Hs & Hf & He).
  destruct (not_a_name _ He) as [N1 N2].
  unfold of_str. destruct neg.
  - rewrite strip_underscores_id;
      [|reflexivity|cbn [all_chars]; now rewrite Hf].
    rewrite strip_float_text by (cbn [all_chars]; now rewrite Hf).
    cbn [read_sign]. rewrite N1, N2. exact Hp.
  - rewrite strip_underscores_id; [|reflexivity|exact Hf].
    rewrite strip_float_text by exact Hf.
    rewrite (read_sign_digit _ Hs), N1, N2. exact Hp.
Qed.

(** What [str] makes of a float, [float] reads. *)
Lemma float_text_parses (x : float) : is_Some (of_str (to_str x)).
Proof.
  unfold to_str.
  destruct (canon x) as [[]|[]| |s m e]; try (eexists; reflexivity).
  destruct (fraction m e) as [n d].
  pose proof (shortest_nonneg 16 1 m e (decpt n d)) as Hc.
  destruct (shortest 16 1 m e (decpt n d)) as [c p]. cbn [fst] in Hc.
  destruct (text_digits c Hc) as (Hd & Hne & _).
  apply (of_str_layout s _ p Hd Hne).
Qed.

End FloatParses.

(** ** Rows that stay readable *)

Section Readable.
Import PyStr PyInt.

Lemma readable_middle (P : row -> Prop) (pre post : list row) (r r' : row) :
  P r' -> Forall P (pre ++ r :: post) -> Forall P (pre ++ r' :: post).
Proof.
  intros Hr H. apply Forall_app in H as [Hpre Hpost].
  apply Forall_cons in Hpost as [_ Hpost].
  apply Forall_app. split; [exact Hpre|]. now constructor.
Qed.

Lemma in_middle {A} (pre post : list A) (a : A) : a ∈ pre ++ a :: post.
Proof. apply elem_of_app. right. constructor. Qed.

Lemma exec_readable (o : op) (fs : files) :
  Forall readable (DATA_FILE fs) -> Forall readable (DATA_FILE (exec o fs)).
Proof.
  intros Hok. destruct o as [item|item_id item|item_id|today item_id data];
    cbn [exec].
  - pose proof (add_item_spec item fs) as S.
    destruct (add_item item fs) as [[[msg next]|e] fs']; cbn [snd];
      [|now subst].
    destruct S as (q & pv & n & x & p & l & Ha & _ & _ & -> & ->).
    destruct Ha as (_ & _ & _ & Hp & _). cbn [DATA_FILE].
    apply Forall_app. split; [exact Hok|]. constructor; [|constructor].
    unfold readable, added_row.
    cbn [i_id i_price i_total_investment i_sold].
    rewrite of_str_format_03, Hp.
    repeat split; eauto using float_text_parses.
  - pose proof (update_item_spec item_id item fs) as S.
    destruct (update_item item_id item fs) as [[msg|e] fs']; cbn [snd];
      [|destruct S as [-> _]; exact Hok].
    destruct S as (pre & r & post & n & x & p & (Ei & _) & Hu & _ & ->).
    cbn [DATA_FILE]. rewrite Ei in Hok.
    apply (readable_middle readable pre post r); [|exact Hok].
    rewrite Forall_forall in Hok.
    destruct (Hok r (in_middle pre post r)) as (Hid & _ & _ & Hsold).
    destruct Hu as (Hp & _).
    unfold readable, updated_row.
    cbn [i_id i_price i_total_investment i_sold]. rewrite Hp.
    repeat split; eauto using float_text_parses.
  - rewrite delete_item_spec. destruct (decide _); [exact Hok|].
    cbn [snd DATA_FILE]. rewrite Forall_forall in *.
    intros i [_ Hi]%list_elem_of_filter. now apply Hok.
  - pose proof (sell_item_spec today item_id data fs) as S.
    destruct (sell_item today item_id data fs) as [[msg|e] fs']; cbn [snd];
      [|now subst].
    destruct S as (v & s & pre & r & post & q & sd & ti & sf & p
                   & _ & _ & _ & (Ei & _) & Hsell & _ & ->).
    cbn [DATA_FILE]. rewrite Ei in Hok.
    apply (readable_middle readable pre post r); [|exact Hok].
    rewrite Forall_forall in Hok.
    destruct (Hok r (in_middle pre post r)) as (Hid & Hprice & _).
    unfold readable, sold_row.
    cbn [i_id i_price i_total_investment i_sold]. rewrite of_str_to_str.
    repeat split; eauto using float_text_parses.
Qed.

(** X27: the requests write what they can read: if the id, the price, the
    investment and the sold counter of every row convert, they still do
    after any requests. *)
Theorem rows_stay_readable (ops : list op) (fs : files) :
  Forall readable (DATA_FILE fs) ->
  Forall readable (DATA_FILE (run ops fs)).
Proof.
  revert fs. induction ops as [|o ops IH]; intros fs H; [exact H|].
  cbn [run]. apply IH, exec_readable, H.
Qed.

Lemma rows_stay_readable_witness :
  Forall readable (DATA_FILE (run busy_day (mk_files [widget; bolt] []))).
Proof.
  apply (rows_stay_readable busy_day (mk_files [widget; bolt] [])).
  repeat constructor; eexists; reflexivity.
Defined.

Lemma exec_analysable (o : op) (fs : files) :
  whole_quantity o = true ->
  Forall analysable (DATA_FILE fs) ->
  Forall analysable (DATA_FILE (exec o fs)).
Proof.
  intros Hw Hok.
  destruct o as [item|item_id item|item_id|today item_id data];
    cbn [exec].
  - pose proof (add_item_spec item fs) as S.
    destruct (add_item item fs) as [[[msg next]|e] fs']; cbn [snd];
      [|now subst].
    destruct S as (q & pv & n & x & p & l & Ha & Hmin & _ & -> & ->).
    destruct Ha as (Hq & Hn & _). cbn [DATA_FILE].
    apply Forall_app. split; [exact Hok|]. constructor; [|constructor].
    unfold analysable, added_row. cbn [i_quantity i_total_investment].
    split; [apply float_text_parses|].
    cbn [whole_quantity] in Hw. rewrite Hq in Hw.
    destruct (csv_field_int q n Hn) as [E|[_ [[y ->]|[b ->]]]];
      [rewrite E; eauto|discriminate|].
    cbn [py_int] in Hn. injection Hn as <-. destruct b; lia.
  - pose proof (update_item_spec item_id item fs) as S.
    destruct (update_item item_id item fs) as [[msg|e] fs']; cbn [snd];
      [|destruct S as [-> _]; exact Hok].
    destruct S as (pre & r & post & n & x & p & (Ei & _) & Hu & _ & ->).
    cbn [DATA_FILE]. rewrite Ei in Hok.
    apply (readable_middle analysable pre post r); [|exact Hok].
    destruct Hu as (_ & Hn & _).
    unfold analysable, updated_row. cbn [i_quantity i_total_investment].
    rewrite Hn. split; eauto using float_text_parses.
  - rewrite delete_item_spec. destruct (decide _); [exact Hok|].
    cbn [snd DATA_FILE]. rewrite Forall_forall in *.
    intros i [_ Hi]%list_elem_of_filter. now apply Hok.
  - pose proof (sell_item_spec today item_id data fs) as S.
    destruct (sell_item today item_id data fs) as [[msg|e] fs']; cbn [snd];
      [|now subst].
    destruct S as (v & s & pre & r & post & q & sd & ti & sf & p
                   & _ & _ & _ & (Ei & _) & Hsell & _ & ->).
    cbn [DATA_FILE]. rewrite Ei in Hok.
    apply (readable_middle analysable pre post r); [|exact Hok].
    unfold analysable, sold_row. cbn [i_quantity i_total_investment].
    rewrite of_str_to_str. split; eauto using float_text_parses.
Qed.

(** X28: as long as no row is added with a float as its quantity and the
    inventory holds only fields within the limit of the reader, 131072
    characters, and without carriage return before and after every
    request, so that it is read as it was written, the analysis goes on
    answering: from an inventory whose investments and quantities
    convert, and so from the empty one, the requests lead to an inventory
    that it can read. *)
Theorem analysis_keeps_answering (ops : list op) (fs : files) :
  forallb whole_quantity ops = true ->
  Forall analysable (DATA_FILE fs) ->
  round_trips_along ops fs ->
  Forall analysable (DATA_FILE (run ops fs))
  /\ read_items_text (inventory_text (DATA_FILE (run ops fs)))
     = Some (DATA_FILE (run ops fs))
  /\ exists a, items_analysis (run ops fs) = (Ok a, run ops fs).
Proof.
  intros Hops Hok Hrt.
  assert (H : Forall analysable (DATA_FILE (run ops fs))).
  { clear Hrt. revert fs Hok.
    induction ops as [|o ops IH]; intros fs Hok; [exact Hok|].
    cbn [forallb] in Hops. apply andb_true_iff in Hops as [Ho Hops].
    cbn [run]. apply IH; [exact Hops|]. now apply exec_analysable. }
  split; [exact H|].
  split; [apply round_trips_read, round_trips_run, Hrt|].
  pose proof (items_analysis_spec (run ops fs)) as S.
  destruct (items_analysis (run ops fs)) as [[a|e] fs'].
  - destruct S as (-> & _). eauto.
  - destruct S as (_ & _ & N). contradiction.
Qed.

Lemma analysis_keeps_answering_witness :
  Forall analysable (DATA_FILE (run whole_day (mk_files [] [])))
  /\ read_items_text
       (inventory_text (DATA_FILE (run whole_day (mk_files [] []))))
     = Some (DATA_FILE (run whole_day (mk_files [] [])))
  /\ exists a, items_analysis (run whole_day (mk_files [] []))
               = (Ok a, run whole_day (mk_files [] [])).
Proof.
  apply (analysis_keeps_answering whole_day (mk_files [] []) eq_refl).
  - constructor.
  - unfold whole_day. cbn [round_trips_along].
    repeat (split; [apply round_trips_check; vm_compute; reflexivity|]).
    exact I.
Defined.

End Readable.

(** ** A sale in the chart *)

Section SaleHistory.
Import PyStr PyInt.

Lemma total_on_snoc (d : string) (rows : list sale) (e : sale) :
  total_on d (rows ++ [e])
  = total_on d rows
    + (if String.eqb (s_date e) d
       then default 0 (of_str (s_sold_quantity e)) else 0).
Proof. induction rows as [|r rows IH]; cbn [app total_on]; lia. Qed.

Lemma units_logged_snoc (rows : list sale) (e : sale) :
  units_logged (rows ++ [e])
  = units_logged rows + default 0 (of_str (s_sold_quantity e)).
Proof. induction rows as [|r rows IH]; cbn [app units_logged]; lia. Qed.

Lemma chart_entry (rows : list sale) (d : string) (t : Z) :
  (d, t) ∈ map (fun d => (d, total_on d rows))
             (sorted (elements (list_to_set (map s_date rows) : gset string)))
  <-> (exists r, r ∈ rows /\ s_date r = d) /\ t = total_on d rows.
Proof.
  rewrite list_elem_of_fmap. split.
  - intros (d' & [= <- ->] & Hd).
    apply elem_of_sorted, elem_of_elements, elem_of_list_to_set in Hd.
    apply list_elem_of_fmap in Hd as (r & -> & Hr). eauto.
  - intros [(r & Hr & <-) ->]. exists (s_date r). split; [reflexivity|].
    apply elem_of_sorted, elem_of_elements, elem_of_list_to_set.
    now apply list_elem_of_fmap_2.
Qed.

(** X29: a sale shows in the chart: the entry of its day is there with the
    units of the sale on top of what the day had, the entries of the
    other days are as before, and the chart's sum grows by the units. *)
Theorem sale_shows_in_history (today : date) (item_id : string)
    (data : payload) (fs : files) (msg : string) (fs' : files) :
  sell_item today item_id data fs = (Ok msg, fs') ->
  ledger_ok (SALES_FILE fs) ->
  exists s chart chart',
    0 < s
    /\ msg = String.append (to_str s) " units sold"
    /\ sales_history fs = (Ok chart, fs)
    /\ sales_history fs' = (Ok chart', fs')
    /\ (isoformat today, total_on (isoformat today) (SALES_FILE fs) + s)
       ∈ chart'
    /\ (forall d t, d <> isoformat today ->
                    ((d, t) ∈ chart' <-> (d, t) ∈ chart))
    /\ chart_total chart' = chart_total chart + s.
Proof.
  intros Hsell Hok.
  pose proof (sell_item_spec today item_id data fs) as S.
  rewrite Hsell in S.
  destruct S as (v & s & pre & r & post & q & sd & ti & sf & p
                 & _ & _ & Hs & _ & _ & -> & ->).
  set (e := ledger_entry today item_id r s sf p).
  assert (Hq : of_str (s_sold_quantity e) = Some s) by apply of_str_to_str.
  assert (Hok' : ledger_ok (SALES_FILE fs ++ [e])).
  { apply Forall_app. split; [exact Hok|]. constructor; [|constructor].
    rewrite Hq. eauto. }
  pose proof (sales_history_chart fs Hok) as C.
  pose proof (sales_history_chart
                (mk_files (pre ++ sold_row r q s sd ti sf p :: post)
                   (SALES_FILE fs ++ [e])) Hok') as C'.
  cbn [SALES_FILE] in C'.
  eexists s, _, _. split; [exact Hs|]. split; [reflexivity|].
  split; [exact C|]. split; [exact C'|]. split; [|split].
  - apply chart_entry. split.
    + exists e. split; [|reflexivity]. apply elem_of_app. right. constructor.
    + rewrite total_on_snoc, Hq.
      change (s_date e) with (isoformat today).
      now rewrite String.eqb_refl.
  - intros d t Hd. rewrite !chart_entry, total_on_snoc.
    change (s_date e) with (isoformat today).
    destruct (String.eqb_spec (isoformat today) d) as [E|_]; [congruence|].
    rewrite Z.add_0_r.
    split; intros [(r0 & Hr0 & Er0) Ht]; (split; [|exact Ht]).
    + apply elem_of_app in Hr0 as [Hr0|Hr0]; [eauto|].
      apply list_elem_of_singleton in Hr0. subst r0.
      exfalso. apply Hd. now rewrite <- Er0.
    + exists r0. split; [|exact Er0]. apply elem_of_app. now left.
  - rewrite !chart_total_units, units_logged_snoc, Hq. reflexivity.
Qed.

Lemma sale_shows_in_history_witness :
  exists s chart chart',
    0 < s
    /\ "3 units sold" = String.append (to_str s) " units sold"
    /\ sales_history trading = (Ok chart, trading)
    /\ sales_history (snd (sell_item may2 "001" sell3 trading))
       = (Ok chart', snd (sell_item may2 "001" sell3 trading))
    /\ (isoformat may2, total_on (isoformat may2) (SALES_FILE trading) + s)
       ∈ chart'
    /\ (forall d t, d <> isoformat may2 ->
                    ((d, t) ∈ chart' <-> (d, t) ∈ chart))
    /\ chart_total chart' = chart_total chart + s.
Proof.
  apply (sale_shows_in_history may2 "001" sell3 trading "3 units sold"
           (snd (sell_item may2 "001" sell3 trading)) eq_refl).
  repeat constructor; eexists; reflexivity.
Defined.

End SaleHistory.

(** ** Sales that are answered or refused *)

Section Handled.
Import PyStr PyInt.

(** X30: on rows that are readable, a sale whose quantity is an integer
    or a text, and fits a float, ends in an answer or in a refusal of
    [sell_item] itself, whatever the quantity and the id are; no
    exception is left to the framework. *)
Theorem sell_is_handled (today : date) (item_id : string) (data : payload)
    (fs : files) :
  Forall readable (DATA_FILE fs) ->
  (forall v, data !! "sold" = Some v ->
             int_or_text v
             /\ forall s, py_int v = Ok s -> is_Some (PyFloat.of_Z s)) ->
  handled (fst (sell_item today item_id data fs))
  /\ (forall e, fst (sell_item today item_id data fs) = Raise e ->
                snd (sell_item today item_id data fs) = fs).
Proof.
  intros Hok Hv. split.
  - rewrite sell_validation_order.
    destruct (data !! "sold") as [v|]; [|exact I].
    destruct (Hv v eq_refl) as [Hty Hfit].
    destruct (is_empty (strip (py_str v))); [exact I|].
    destruct (py_int v) as [s|e] eqn:Hs.
    + destruct (s <=? 0); [exact I|].
      destruct (List.find _ _) as [r|] eqn:Hfind; [|exact I].
      apply find_some in Hfind as [Hin _].
      rewrite Forall_forall in Hok.
      destruct (Hok r (proj2 (list_elem_of_In _ _) Hin))
        as (_ & _ & [ti Hti] & [sd Hsd]).
      destruct (Hfit s eq_refl) as [sf Hsf].
      rewrite sell_body_order, Hsd, Hti, Hsf.
      destruct (of_str (i_quantity r)) as [q|]; [|exact I].
      destruct (q <? s); [exact I|].
      destruct (PyFloat.of_str (remove_char "$" (i_price r))); exact I.
    + destruct v as [|b|n|x|t]; try contradiction; cbn [py_int] in Hs;
        [discriminate|].
      destruct (of_str t); [discriminate|]. injection Hs as <-. exact I.
  - intros e He. pose proof (sell_item_spec today item_id data fs) as S.
    destruct (sell_item today item_id data fs) as [[msg|e'] fs'];
      [discriminate|exact S].
Qed.

Lemma sell_is_handled_witness :
  handled (fst (sell_item may1 "002" sell500 (mk_files [widget; bolt] [])))
  /\ (forall e,
        fst (sell_item may1 "002" sell500 (mk_files [widget; bolt] []))
        = Raise e ->
        snd (sell_item may1 "002" sell500 (mk_files [widget; bolt] []))
        = mk_files [widget; bolt] []).
Proof.
  apply (sell_is_handled may1 "002" sell500 (mk_files [widget; bolt] [])).
  - repeat constructor; eexists; reflexivity.
  - intros v [= <-]. split; [exact I|].
    intros s [= <-]. eexists. reflexivity.
Defined.

End Handled.
